(** * The pharmacy agent's tool-orchestration loop

    A shallow embedding of [agent/agent.py], [agent/tools.py] and the parts of
    [agent/observability.py] they call, followed by the properties of the
    orchestration loop, of the per-invocation executor and of the four
    capability functions.

    Python values are a small inductive type, exceptions are a class plus the
    text of [str(exc)], and effectful code lives in a state-and-exception
    monad over a record of logs.  Everything outside the repository (the
    reasoning model, the HTTP backend, [json], [str], the tracing client) is a
    field of one environment record, so that every statement quantifies over
    all of their behaviours. *)

From Stdlib Require Import Strings.String Strings.Ascii ZArith List Bool Lia.
From Stdlib Require Import Numbers.DecimalString.
From Stdlib Require Import Sorting.Sorted Sorting.Permutation.
From Stdlib Require Import Floats.SpecFloat.
Import ListNotations.
Set Warnings "-register-all".
Open Scope string_scope.
Open Scope Z_scope.

(** ** Characters and strings *)

Definition dq : string := String (ascii_of_nat 34) EmptyString.
Definition nl : string := String (ascii_of_nat 10) EmptyString.

Definition ch_lbrace : ascii := "{"%char.
Definition ch_rbrace : ascii := "}"%char.
Definition ch_slash : ascii := "/"%char.

(** [s.lstrip('/')] and [s.rstrip('/')]. *)
Fixpoint lstrip_slash (s : string) : string :=
  match s with
  | String c s' => if Ascii.eqb c ch_slash then lstrip_slash s' else s
  | EmptyString => EmptyString
  end.

Fixpoint rstrip_slash (s : string) : string :=
  match s with
  | EmptyString => EmptyString
  | String c s' =>
      match rstrip_slash s' with
      | EmptyString => if Ascii.eqb c ch_slash then EmptyString else String c EmptyString
      | r => String c r
      end
  end.

Fixpoint mem_string (x : string) (l : list string) : bool :=
  match l with
  | [] => false
  | y :: l' => String.eqb x y || mem_string x l'
  end.

(** [needle in haystack] on strings. *)
Fixpoint contains (needle haystack : string) : bool :=
  String.prefix needle haystack ||
  match haystack with
  | EmptyString => false
  | String _ rest => contains needle rest
  end.

(** ** Python values

    The values that cross the boundaries of the agent: decoded JSON, keyword
    arguments, tool results and the final answer.  A number is an integer or
    a float, which is a binary64 given by its sign, mantissa and exponent, an
    infinity or NaN, as [json.loads] produces them; a dict is an association
    list in insertion order. *)

Inductive value : Type :=
| VNone
| VBool (b : bool)
| VInt (n : Z)
| VFloat (f : spec_float)
| VStr (s : string)
| VList (items : list value)
| VDict (entries : list (string * value)).

Definition dict : Type := list (string * value).

Fixpoint dict_lookup {A : Type} (k : string) (d : list (string * A)) : option A :=
  match d with
  | [] => None
  | (k', v) :: d' => if String.eqb k k' then Some v else dict_lookup k d'
  end.

(** [d.get(k, default)] on a dict. *)
Definition dict_get (k : string) (default : value) (d : dict) : value :=
  match dict_lookup k d with
  | Some v => v
  | None => default
  end.

(** [d[k] = v]: overwrite in place, or append. *)
Fixpoint dict_set (k : string) (v : value) (d : dict) : dict :=
  match d with
  | [] => [(k, v)]
  | (k', v') :: d' =>
      if String.eqb k k' then (k, v) :: d' else (k', v') :: dict_set k v d'
  end.

(** [bool(v)]. *)
Definition truthy (v : value) : bool :=
  match v with
  | VNone => false
  | VBool b => b
  | VInt n => negb (n =? 0)
  | VFloat f => match f with S754_zero _ => false | _ => true end
  | VStr s => negb (String.eqb s "")
  | VList l => match l with [] => false | _ => true end
  | VDict d => match d with [] => false | _ => true end
  end.

(** [a or b]. *)
Definition py_or (a b : value) : value := if truthy a then a else b.

Definition is_none (v : value) : bool :=
  match v with VNone => true | _ => false end.

(** [type(v).__name__]. *)
Definition type_name (v : value) : string :=
  match v with
  | VNone => "NoneType"
  | VBool _ => "bool"
  | VInt _ => "int"
  | VFloat _ => "float"
  | VStr _ => "str"
  | VList _ => "list"
  | VDict _ => "dict"
  end.

(** ** Exceptions

    Every exception of the model is an instance of Python's [Exception]; the
    class decides which [except] clause takes it and [exc_str] is [str(exc)].
    [JSONDecodeError] is [json.JSONDecodeError], a [ValueError];
    [RequestsJSONDecodeError] is [requests.exceptions.JSONDecodeError], which
    [response.json()] raises on a body that is not JSON and which derives
    from [RequestException] and from [json.JSONDecodeError];
    [RequestException] stands for every other exception of [requests];
    [RecursionError] is a [RuntimeError]. *)

Inductive exc_class : Type :=
| TypeError
| ValueError
| KeyError
| IndexError
| AttributeError
| RuntimeError
| RequestException
| RequestsJSONDecodeError
| JSONDecodeError
| RecursionError
| OverflowError
| OtherException.

Record exc : Type := Exc { exc_cls : exc_class; exc_str : string }.

Definition is_TypeError (e : exc) : bool :=
  match exc_cls e with TypeError => true | _ => false end.

Definition is_RequestException (e : exc) : bool :=
  match exc_cls e with RequestException | RequestsJSONDecodeError => true | _ => false end.

Definition is_ValueError (e : exc) : bool :=
  match exc_cls e with ValueError | JSONDecodeError | RequestsJSONDecodeError => true | _ => false end.

Definition is_JSONDecodeError (e : exc) : bool :=
  match exc_cls e with JSONDecodeError | RequestsJSONDecodeError => true | _ => false end.

Definition is_RuntimeError (e : exc) : bool :=
  match exc_cls e with RuntimeError | RecursionError => true | _ => false end.

(** ** The transcript and the model's response

    A message of the transcript ([messages] in [run_agent]) and the part of
    the completion the loop reads: [response["choices"][0]["message"]], with
    its optional text and optional list of requested tool calls. *)

Record tool_call : Type := ToolCall
  { tc_id : string;                  (* tool_call["id"] *)
    tc_name : string;                (* tool_call["function"]["name"] *)
    tc_arguments : option string }.  (* tool_call["function"].get("arguments") *)

Inductive message : Type :=
| SystemMsg (content : string)
| UserMsg (content : string)
| AssistantMsg (content : option string) (tool_calls : list tool_call)
| ToolMsg (tool_call_id : string) (name : string) (content : string).

Record choice_message : Type := ChoiceMessage
  { cm_content : option string;
    cm_tool_calls : option (list tool_call) }.

Record response : Type := Response { choices : list choice_message }.

(** ** The HTTP backend as the tools see it *)

Inductive http_method : Type := GET | POST.

Record http_request : Type := HttpRequest
  { req_method : http_method;
    req_url : string;
    req_json : option value }.

(** A response as the tools read it: the status code, the reason phrase and
    the URL, which [raise_for_status] quotes, and what [response.json()]
    does, return the decoded body or raise. *)
Record http_response : Type := HttpResponse
  { resp_status_code : Z;
    resp_reason : string;
    resp_url : string;
    resp_json : exc + value }.

(** What [requests.get] / [requests.post] can do: raise before anything is
    sent (a RequestException for a URL without scheme or a payload with a
    NaN in it, a RecursionError from encoding a deeply nested payload),
    raise a [RequestException] once the request is under way (connection
    refused, timeout, ...), or hand back a response. *)
Inductive http_outcome : Type :=
| Refused (e : exc)
| Unreachable (description : string)
| Responded (response : http_response).

(** ** The world: what a run leaves behind

    The snapshots of the transcript passed to the model, the requests that
    went out to the backend and the spans handed to the tracing client, each
    oldest first. *)

Inductive span : Type :=
| Span (name : string)
| TraceUpdate (output : value) (error : option string).

Record world : Type := World
  { w_model_calls : list (list message);
    w_http : list http_request;
    w_spans : list span }.

Definition empty_world : world := World [] [] [].

(** The root observation of a traced run, as far as [end_trace] reads it. *)
Record observation : Type := Observation
  { trace_id : option string;     (* getattr(trace, "trace_id", None) *)
    update_raises : bool }.       (* whether trace.update(...) fails *)

(** ** The environment

    Everything the agent imports from outside the repository. *)

Record env : Type := Env
  { (* json.loads, which returns the decoded value or raises: a
       JSONDecodeError on text that is not JSON, and also a RecursionError
       on deep nesting or a plain ValueError on a very long integer *)
    json_loads : string -> exc + value;
    (* json.dumps, on the results of the tools *)
    json_dumps : value -> string;
    (* str(v) *)
    py_str : value -> string;
    (* int(s) on a string: [None] stands for ValueError *)
    int_of_str : string -> option Z;
    (* a replacement field of str.format once its object is found:
       keyword arguments, object, rest of the field name, conversion, spec *)
    render_field : list (string * value) -> value -> string -> option ascii -> string -> exc + string;
    (* config.py *)
    OPENAI_API_KEY : option string;
    BACKEND_BASE_URL : string;
    LANGFUSE_HOST : string;
    (* observability._langfuse: [None] when the client could not be built,
       else the observation that start_as_current_observation yields *)
    langfuse : option observation;
    (* client.chat.completions.create(...).model_dump(), by the number of
       earlier model calls of the run and the transcript passed *)
    llm : nat -> list message -> exc + response;
    (* requests.get / requests.post, by the number of earlier requests *)
    backend : nat -> http_request -> http_outcome }.

(** ** The monad of effectful code *)

Definition M (A : Type) : Type := world -> (exc + A) * world.

Definition ret {A : Type} (a : A) : M A := fun w => (inr a, w).

Definition bind {A B : Type} (m : M A) (f : A -> M B) : M B :=
  fun w =>
    match m w with
    | (inl e, w') => (inl e, w')
    | (inr a, w') => f a w'
    end.

Definition raise {A : Type} (e : exc) : M A := fun w => (inl e, w).

(** [try: m  except Exception as exc: h exc]. *)
Definition try_except {A : Type} (m : M A) (h : exc -> M A) : M A :=
  fun w =>
    match m w with
    | (inl e, w') => h e w'
    | (inr a, w') => (inr a, w')
    end.

Definition lift {A : Type} (r : exc + A) : M A := fun w => (r, w).

Declare Scope py_scope.
Delimit Scope py_scope with py.
Notation "x <- m ;; k" := (bind m (fun x => k))
  (at level 61, m at next level, right associativity) : py_scope.
Notation "m ;;; k" := (bind m (fun _ => k))
  (at level 61, right associativity) : py_scope.
Open Scope py_scope.

Definition record_span (s : span) : M unit :=
  fun w => (inr tt, World (w_model_calls w) (w_http w) (w_spans w ++ [s])).

(** ** [str.format]

    [SYSTEM_PROMPT_TEMPLATE.format(customer_id=...)] runs the template through
    Python's format-string scanner.  The scanner is one pass over the
    characters: literal text is copied, [{{] and [}}] stand for one brace,
    and a single [{] opens a replacement field, whose name runs to the next
    [}], [:] or [!] and whose format spec, after [:], runs to the brace that
    closes the field.  The object of a field is looked up by the first part
    of its name: a number (or nothing) indexes the positional arguments, of
    which [run_agent] passes none, and any other text is a keyword. *)

Inductive fmt_state : Type :=
| FLiteral
| FOpen
| FClose
| FName (name : string) (in_bracket : bool)
| FConv (name : string)
| FAfterConv (name : string) (conv : ascii)
| FSpec (name : string) (conv : option ascii) (spec : string) (depth : nat).

Definition snoc_char (s : string) (c : ascii) : string := s ++ String c EmptyString.

(** [repr(s)] of a string, as [str(KeyError(s))] prints the missing key. *)
Fixpoint repr_body (quote : ascii) (s : string) : string :=
  match s with
  | EmptyString => EmptyString
  | String c rest =>
      (if Ascii.eqb c quote then String "\"%char (String c EmptyString)
       else if Ascii.eqb c "\"%char then "\\"
       else if Ascii.eqb c (ascii_of_nat 10) then "\n"
       else if Ascii.eqb c (ascii_of_nat 13) then "\r"
       else if Ascii.eqb c (ascii_of_nat 9) then "\t"
       else String c EmptyString) ++ repr_body quote rest
  end.

Definition py_repr_str (s : string) : string :=
  if contains "'" s && negb (contains dq s)
  then dq ++ repr_body (ascii_of_nat 34) s ++ dq
  else "'" ++ repr_body "'"%char s ++ "'".

(** The first part of a field name, up to [.] or [[], and what follows. *)
Fixpoint split_field_name (name : string) : string * string :=
  match name with
  | EmptyString => (EmptyString, EmptyString)
  | String c rest =>
      if Ascii.eqb c "."%char || Ascii.eqb c "["%char then (EmptyString, name)
      else let (first, more) := split_field_name rest in (String c first, more)
  end.

Definition is_digit (c : ascii) : bool :=
  let n := nat_of_ascii c in (48 <=? n)%nat && (n <=? 57)%nat.

Fixpoint all_digits (s : string) : bool :=
  match s with
  | EmptyString => true
  | String c rest => is_digit c && all_digits rest
  end.

(** One replacement field, once scanned. *)
Definition format_field (E : env) (kwargs : list (string * value))
    (name : string) (conv : option ascii) (spec : string) : exc + string :=
  let (first, more) := split_field_name name in
  if String.eqb first "" then
    inl (Exc IndexError "Replacement index 0 out of range for positional args tuple")
  else if all_digits first then
    inl (Exc IndexError ("Replacement index " ++ first ++ " out of range for positional args tuple"))
  else
    match dict_lookup first kwargs with
    | None => inl (Exc KeyError (py_repr_str first))
    | Some obj =>
        match more, conv, spec with
        | EmptyString, None, EmptyString => inr (py_str E obj)
        | _, _, _ => render_field E kwargs obj more conv spec
        end
    end.

Definition format_error (msg : string) : exc + string := inl (Exc ValueError msg).

Fixpoint format_scan (E : env) (kwargs : list (string * value))
    (st : fmt_state) (out : string) (cs : string) {struct cs} : exc + string :=
  let emit_field name conv spec rest :=
    match format_field E kwargs name conv spec with
    | inl e => inl e
    | inr text => format_scan E kwargs FLiteral (out ++ text) rest
    end in
  let in_name name c rest :=
    if Ascii.eqb c ch_lbrace then format_error "unexpected '{' in field name"
    else if Ascii.eqb c "["%char then format_scan E kwargs (FName (snoc_char name c) true) out rest
    else if Ascii.eqb c ch_rbrace then emit_field name None EmptyString rest
    else if Ascii.eqb c ":"%char then format_scan E kwargs (FSpec name None EmptyString 1) out rest
    else if Ascii.eqb c "!"%char then format_scan E kwargs (FConv name) out rest
    else format_scan E kwargs (FName (snoc_char name c) false) out rest in
  match cs with
  | EmptyString =>
      match st with
      | FLiteral => inr out
      | FOpen => format_error "Single '{' encountered in format string"
      | FClose => format_error "Single '}' encountered in format string"
      | FName _ _ => format_error "expected '}' before end of string"
      | FConv _ => format_error "end of string while looking for conversion specifier"
      | FAfterConv _ _ => format_error "unmatched '{' in format spec"
      | FSpec _ _ _ _ => format_error "unmatched '{' in format spec"
      end
  | String c rest =>
      match st with
      | FLiteral =>
          if Ascii.eqb c ch_lbrace then format_scan E kwargs FOpen out rest
          else if Ascii.eqb c ch_rbrace then format_scan E kwargs FClose out rest
          else format_scan E kwargs FLiteral (snoc_char out c) rest
      | FOpen =>
          if Ascii.eqb c ch_lbrace then format_scan E kwargs FLiteral (snoc_char out c) rest
          else in_name EmptyString c rest
      | FClose =>
          if Ascii.eqb c ch_rbrace then format_scan E kwargs FLiteral (snoc_char out c) rest
          else format_error "Single '}' encountered in format string"
      | FName name true =>
          format_scan E kwargs (FName (snoc_char name c) (negb (Ascii.eqb c "]"%char))) out rest
      | FName name false => in_name name c rest
      | FConv name => format_scan E kwargs (FAfterConv name c) out rest
      | FAfterConv name conv =>
          if Ascii.eqb c ch_rbrace then emit_field name (Some conv) EmptyString rest
          else if Ascii.eqb c ":"%char then format_scan E kwargs (FSpec name (Some conv) EmptyString 1) out rest
          else format_error "expected ':' after conversion specifier"
      | FSpec name conv spec depth =>
          if Ascii.eqb c ch_lbrace then format_scan E kwargs (FSpec name conv (snoc_char spec c) (S depth)) out rest
          else if Ascii.eqb c ch_rbrace then
            match depth with
            | S (S d) => format_scan E kwargs (FSpec name conv (snoc_char spec c) (S d)) out rest
            | _ => emit_field name conv spec rest
            end
          else format_scan E kwargs (FSpec name conv (snoc_char spec c) depth) out rest
      end
  end.

(** [template.format] applied to keyword arguments only. *)
Definition str_format (E : env) (template : string) (kwargs : list (string * value)) : exc + string :=
  format_scan E kwargs FLiteral EmptyString template.

(** ** agent.py: the prompt and the registry *)

Definition SYSTEM_PROMPT_TEMPLATE : string :=
  "You are an expert licensed pharmacist assistant for an AI-powered pharmacy. " ++
  "You must ALWAYS use the available tools to check medicine availability, " ++
  "stock, and prescription requirements before making any final decision. " ++
  "Never hallucinate medicine availability or stock levels." ++ nl ++ nl ++
  "Current customer id: {customer_id}." ++ nl ++ nl ++
  "Your responsibilities:" ++ nl ++
  "1. Understand messy natural language requests about medicines and orders." ++ nl ++
  "2. Extract the medicine name and quantity from the user's input." ++ nl ++
  "3. Use the check_medicine_availability tool to verify availability." ++ nl ++
  "4. If the medicine is available and does not require a prescription, " ++
  "   use create_order with the current customer id to place an order." ++ nl ++
  "5. If the medicine requires a prescription, you may still create an order, " ++
  "   but it will be pending until verification." ++ nl ++
  "6. If the user asks about their past orders, use get_customer_history." ++ nl ++
  "7. If the user asks whether they need any refills or is running out of medicine, " ++
  "   use get_refill_alerts with the current customer id to check for predicted refills." ++ nl ++
  "8. Never approve or reject an order without consulting tools." ++ nl ++ nl ++
  "When you are ready to answer the user, respond with a single JSON object only, " ++
  "without any extra text. The JSON must contain at least these keys:" ++ nl ++
  "- message: human readable explanation for the user" ++ nl ++
  "- status: one of 'approved', 'pending', 'rejected', 'refill_suggested', 'ok', or 'error'" ++ nl ++
  "- order_id: include this key with the numeric id when an order is created, " ++
  "  otherwise you may omit it or set it to null." ++ nl ++ nl ++
  "Examples of valid responses (do not quote or wrap them in text):" ++ nl ++
  "{ " ++ dq ++ "message" ++ dq ++ ": " ++ dq ++ "Your order for 5 Paracetamol has been approved." ++ dq ++ ", " ++
  dq ++ "order_id" ++ dq ++ ": 12, " ++ dq ++ "status" ++ dq ++ ": " ++ dq ++ "approved" ++ dq ++ " }" ++ nl ++
  "{ " ++ dq ++ "message" ++ dq ++ ": " ++ dq ++ "Paracetamol is currently out of stock." ++ dq ++ ", " ++ dq ++ "status" ++ dq ++ ": " ++ dq ++ "rejected" ++ dq ++ " }" ++ nl ++
  "{ " ++ dq ++ "message" ++ dq ++ ": " ++ dq ++ "This medicine requires a prescription. Your order is pending verification." ++ dq ++ ", " ++
  dq ++ "order_id" ++ dq ++ ": 12, " ++ dq ++ "status" ++ dq ++ ": " ++ dq ++ "pending" ++ dq ++ " }" ++ nl ++
  "{ " ++ dq ++ "message" ++ dq ++ ": " ++ dq ++ "You are due for a refill of Paracetamol. Would you like to place an order?" ++ dq ++ ", " ++
  dq ++ "status" ++ dq ++ ": " ++ dq ++ "refill_suggested" ++ dq ++ ", " ++ dq ++ "refill_items" ++ dq ++ ": [" ++ dq ++ "Paracetamol" ++ dq ++ "] }" ++ nl ++
  "{ " ++ dq ++ "message" ++ dq ++ ": " ++ dq ++ "You are not due for any refills at this time." ++ dq ++ ", " ++ dq ++ "status" ++ dq ++ ": " ++ dq ++ "ok" ++ dq ++ " }" ++ nl ++ nl ++
  "If the backend is unavailable or a tool fails, clearly explain this in the " ++
  "message field and set status to 'rejected' or 'error' as appropriate.".

(** ** observability.py *)

Definition _is_enabled (E : env) : bool :=
  match langfuse E with Some _ => true | None => false end.

(** [create_trace]: the value bound by [with create_trace(...) as trace],
    [None] under the no-op context manager. *)
Definition create_trace (E : env) (customer_id : Z) (user_input : string) : M (option observation) :=
  match langfuse E with
  | None => ret None
  | Some obs => record_span (Span "pharmacy-agent-run") ;;; ret (Some obs)
  end.

(** [create_span] as [_call_llm] uses it: entering the context manager. *)
Definition create_span (E : env) (name : string) : M unit :=
  if _is_enabled E then record_span (Span name) else ret tt.

(** [log_generation] only updates the observation it is given. *)
Definition log_generation (E : env) : M unit := ret tt.

Definition log_tool_call (E : env) (tool_name : string) : M unit :=
  if _is_enabled E then record_span (Span ("tool:" ++ tool_name)) else ret tt.

(** [end_trace]: the pair (trace_id, trace_url) of the dictionary it returns. *)
Definition end_trace (E : env) (trace : option observation) (output : value)
    (error : option exc) : M (option string * option string) :=
  match trace with
  | Some obs =>
      if update_raises obs then ret tt
      else record_span (TraceUpdate output (option_map exc_str error))
  | None => ret tt
  end ;;;
  let tid :=
    match trace with
    | Some obs => if update_raises obs then None else trace_id obs
    | None => None
    end in
  let base_url :=
    rstrip_slash (if String.eqb (LANGFUSE_HOST E) "" then "https://cloud.langfuse.com"
                  else LANGFUSE_HOST E) in
  let trace_url :=
    match tid with
    | Some t => if String.eqb t "" then None else Some (base_url ++ "/trace/" ++ t)
    | None => None
    end in
  ret (tid, trace_url).

(** ** tools.py *)

Definition _build_url (E : env) (path : string) : string :=
  rstrip_slash (BACKEND_BASE_URL E) ++ "/" ++ lstrip_slash path.

(** [requests.get(url, timeout=5)] and [requests.post(url, json=..., timeout=5)]:
    a request that is refused before it is sent leaves no entry in the log. *)
Definition requests_send (E : env) (req : http_request) : M http_response :=
  fun w =>
    let w' := World (w_model_calls w) (w_http w ++ [req]) (w_spans w) in
    match backend E (length (w_http w)) req with
    | Refused e => (inl e, w)
    | Unreachable description => (inl (Exc RequestException description), w')
    | Responded response => (inr response, w')
    end.

Definition requests_get (E : env) (url : string) : M http_response :=
  requests_send E (HttpRequest GET url None).

Definition requests_post (E : env) (url : string) (payload : value) : M http_response :=
  requests_send E (HttpRequest POST url (Some payload)).

(** [response.raise_for_status()]: an HTTPError, which is a RequestException,
    for every 4xx and 5xx status, with the text [requests] gives it. *)
Definition http_error_text (E : env) (kind : string) (resp : http_response) : string :=
  py_str E (VInt (resp_status_code resp)) ++ " " ++ kind ++ " Error: " ++ resp_reason resp
  ++ " for url: " ++ resp_url resp.

Definition raise_for_status (E : env) (resp : http_response) : M unit :=
  let code := resp_status_code resp in
  if (400 <=? code) && (code <? 500)
  then raise (Exc RequestException (http_error_text E "Client" resp))
  else if (500 <=? code) && (code <? 600)
  then raise (Exc RequestException (http_error_text E "Server" resp))
  else ret tt.

(** [response.json()]. *)
Definition response_json (resp : http_response) : M value := lift (resp_json resp).

(** [data.get(key, default)] on whatever [response.json()] returned. *)
Definition py_get (data : value) (key : string) (default : value) : exc + value :=
  match data with
  | VDict d => inr (dict_get key default d)
  | _ => inl (Exc AttributeError ("'" ++ type_name data ++ "' object has no attribute 'get'"))
  end.

(** [int(v)]: a float is cut off towards zero. *)
Definition py_int (E : env) (v : value) : exc + Z :=
  match v with
  | VInt n => inr n
  | VBool b => inr (if b then 1 else 0)
  | VFloat S754_nan => inl (Exc ValueError "cannot convert float NaN to integer")
  | VFloat (S754_infinity _) =>
      inl (Exc OverflowError "cannot convert float infinity to integer")
  | VFloat (S754_zero _) => inr 0
  | VFloat (S754_finite negative m e) =>
      inr (let magnitude := Z.shiftl (Zpos m) e in
           if negative then - magnitude else magnitude)
  | VStr s =>
      match int_of_str E s with
      | Some n => inr n
      | None => inl (Exc ValueError ("invalid literal for int() with base 10: " ++ py_repr_str s))
      end
  | _ => inl (Exc TypeError
           ("int() argument must be a string, a bytes-like object or a real number, not '"
            ++ type_name v ++ "'"))
  end.

(** The two [except] clauses every tool ends with, in their order: an
    exception that is both a RequestException and a ValueError goes to the
    first. *)
Definition except_request_then_value {A : Type} (body : M A)
    (on_request : exc -> M A) (on_value : M A) : M A :=
  try_except body
    (fun e => if is_RequestException e then on_request e
              else if is_ValueError e then on_value
              else raise e).

Definition availability_result (available : bool) (stock : Z) (prescription : bool)
    (error : value) : value :=
  VDict [("available", VBool available); ("stock_quantity", VInt stock);
         ("prescription_required", VBool prescription); ("error", error)].

Definition check_medicine_availability (E : env) (medicine_name : value) : M value :=
  let url := _build_url E ("medicines/" ++ py_str E medicine_name ++ "/availability") in
  except_request_then_value
    (resp <- requests_get E url ;;
     if resp_status_code resp =? 404 then
       ret (availability_result false 0 false (VStr "Medicine not found"))
     else
       raise_for_status E resp ;;;
       data <- response_json resp ;;
       available <- lift (py_get data "available" (VBool false)) ;;
       stock <- lift (py_get data "stock_quantity" (VInt 0)) ;;
       stock_quantity <- lift (py_int E (py_or stock (VInt 0))) ;;
       prescription <- lift (py_get data "prescription_required" (VBool false)) ;;
       ret (availability_result (truthy available) stock_quantity (truthy prescription) VNone))
    (fun e => ret (availability_result false 0 false (VStr ("Request error: " ++ exc_str e))))
    (ret (availability_result false 0 false (VStr "Invalid JSON response from backend"))).

Definition order_result (status order_id reason error : value) : value :=
  VDict [("status", status); ("order_id", order_id); ("reason", reason); ("error", error)].

Definition create_order (E : env) (customer_id medicine_name quantity : value) : M value :=
  let url := _build_url E "orders" in
  let payload := VDict [("customer_id", customer_id); ("medicine_name", medicine_name);
                        ("quantity", quantity)] in
  except_request_then_value
    (resp <- requests_post E url payload ;;
     raise_for_status E resp ;;;
     data <- response_json resp ;;
     status <- lift (py_get data "status" (VStr "rejected")) ;;
     order_id <- lift (py_get data "order_id" VNone) ;;
     reason <- lift (py_get data "reason" VNone) ;;
     ret (order_result status order_id reason VNone))
    (fun e => ret (order_result (VStr "rejected") VNone (VStr "Failed to contact backend service")
                     (VStr ("Request error: " ++ exc_str e))))
    (ret (order_result (VStr "rejected") VNone (VStr "Invalid response from backend service")
            (VStr "Invalid JSON response from backend"))).

(** [list(data) if isinstance(data, list) else []]. *)
Definition list_or_empty (data : value) : value :=
  match data with
  | VList l => VList l
  | _ => VList []
  end.

Definition listing_result (field : string) (items error : value) : value :=
  VDict [(field, items); ("error", error)].

(** The body shared by [get_customer_history] and [get_refill_alerts], which
    differ in the path and in the name of the list they return. *)
Definition customer_listing (E : env) (path field : string) : M value :=
  except_request_then_value
    (resp <- requests_get E (_build_url E path) ;;
     if resp_status_code resp =? 404 then
       ret (listing_result field (VList []) (VStr "Customer not found"))
     else
       raise_for_status E resp ;;;
       data <- response_json resp ;;
       ret (listing_result field (list_or_empty data) VNone))
    (fun e => ret (listing_result field (VList []) (VStr ("Request error: " ++ exc_str e))))
    (ret (listing_result field (VList []) (VStr "Invalid JSON response from backend"))).

Definition get_customer_history (E : env) (customer_id : value) : M value :=
  customer_listing E ("customers/" ++ py_str E customer_id ++ "/history") "history".

Definition get_refill_alerts (E : env) (customer_id : value) : M value :=
  customer_listing E ("customers/" ++ py_str E customer_id ++ "/refill-alerts") "alerts".

(** ** agent.py: calling a tool with keyword arguments

    A registered handler is a Python function: its parameter names, all
    required, and its body.  Calling [tool_fn] with [args] unpacked as keyword
    arguments binds the decoded arguments to
    the parameters and raises TypeError when [args] is not a mapping, names a
    parameter the function does not have, or misses one. *)

Record pyfun : Type := PyFun
  { fn_params : list string;
    fn_body : (string -> value) -> M value }.

Definition call_kwargs (f : pyfun) (args : value) : M value :=
  match args with
  | VDict d =>
      if negb (forallb (fun kv => mem_string (fst kv) (fn_params f)) d) then
        raise (Exc TypeError "got an unexpected keyword argument")
      else if negb (forallb (fun p => match dict_lookup p d with Some _ => true | None => false end)
                      (fn_params f)) then
        raise (Exc TypeError "missing required positional argument")
      else fn_body f (fun p => dict_get p VNone d)
  | _ => raise (Exc TypeError ("argument after ** must be a mapping, not " ++ type_name args))
  end.

Definition TOOL_DISPATCH (E : env) : list (string * pyfun) :=
  [ ("check_medicine_availability",
     PyFun ["medicine_name"]
       (fun arg => check_medicine_availability E (arg "medicine_name")));
    ("create_order",
     PyFun ["customer_id"; "medicine_name"; "quantity"]
       (fun arg => create_order E (arg "customer_id") (arg "medicine_name") (arg "quantity")));
    ("get_customer_history",
     PyFun ["customer_id"] (fun arg => get_customer_history E (arg "customer_id")));
    ("get_refill_alerts",
     PyFun ["customer_id"] (fun arg => get_refill_alerts E (arg "customer_id"))) ].

(** ** agent.py: the model call *)

Definition get_client (E : env) : M unit :=
  match OPENAI_API_KEY E with
  | Some key =>
      if String.eqb key "" then
        raise (Exc RuntimeError
          "OPENAI_API_KEY is not set. Please configure it in the .env file before running the agent.")
      else ret tt
  | None =>
      raise (Exc RuntimeError
        "OPENAI_API_KEY is not set. Please configure it in the .env file before running the agent.")
  end.

(** [client.chat.completions.create(...).model_dump()]. *)
Definition chat_completions_create (E : env) (messages : list message) : M response :=
  fun w =>
    (llm E (length (w_model_calls w)) messages,
     World (w_model_calls w ++ [messages]) (w_http w) (w_spans w)).

Definition _call_llm (E : env) (messages : list message) (trace : option observation) : M response :=
  get_client E ;;;
  match trace with
  | None => chat_completions_create E messages
  | Some _ =>
      create_span E "llm-generation" ;;;
      completion <- chat_completions_create E messages ;;
      log_generation E ;;;
      ret completion
  end.

(** ** agent.py: one requested invocation (lines 237 to 278 of [run_agent]) *)

Definition error_result (msg : string) : value := VDict [("error", VStr msg)].

(** [json.loads(tool_call["function"].get("arguments") or "{}")], with the
    empty mapping on a JSONDecodeError; any other exception of [json.loads]
    goes on. *)
Definition raw_arguments (tc : tool_call) : string :=
  match tc_arguments tc with
  | Some s => if String.eqb s "" then "{}" else s
  | None => "{}"
  end.

Definition decode_arguments (E : env) (tc : tool_call) : exc + value :=
  match json_loads E (raw_arguments tc) with
  | inr v => inr v
  | inl e => if is_JSONDecodeError e then inr (VDict []) else inl e
  end.

(** Registry lookup and the guarded call. *)
Definition call_tool (dispatch : list (string * pyfun)) (func_name : string) (args : value) : M value :=
  match dict_lookup func_name dispatch with
  | None => ret (error_result ("Unknown tool: " ++ func_name))
  | Some tool_fn =>
      try_except (call_kwargs tool_fn args)
        (fun e =>
           if is_TypeError e then
             ret (error_result ("Invalid arguments for tool " ++ func_name))
           else
             ret (error_result ("Tool " ++ func_name ++ " raised an exception: " ++ exc_str e)))
  end.

(** [v in {...}] for a set of strings: hashing a list or a dict raises. *)
Definition py_in_strings (v : value) (members : list string) : M bool :=
  match v with
  | VStr s => ret (mem_string s members)
  | VList _ | VDict _ => raise (Exc TypeError ("unhashable type: '" ++ type_name v ++ "'"))
  | _ => ret false
  end.

(** The condition guarding the synthetic [warehouse_webhook] span. *)
Definition order_was_created (func_name : string) (tool_result : value) : M bool :=
  if negb (String.eqb func_name "create_order") then ret false
  else
    match tool_result with
    | VDict d =>
        if is_none (dict_get "order_id" VNone d) then ret false
        else py_in_strings (dict_get "status" VNone d) ["approved"; "pending"]
    | _ => ret false
    end.

Definition execute_tool_call (E : env) (dispatch : list (string * pyfun)) (tc : tool_call) : M value :=
  let func_name := tc_name tc in
  args <- lift (decode_arguments E tc) ;;
  tool_result <- call_tool dispatch func_name args ;;
  log_tool_call E func_name ;;;
  created <- order_was_created func_name tool_result ;;
  (if created then log_tool_call E "warehouse_webhook" else ret tt) ;;;
  ret tool_result.

(** ** agent.py: the loop *)

Definition tool_message (E : env) (tc : tool_call) (tool_result : value) : message :=
  ToolMsg (tc_id tc) (tc_name tc) (json_dumps E tool_result).

(** [for tool_call in tool_calls: ...; messages.append(...)]. *)
Fixpoint run_tool_calls (E : env) (dispatch : list (string * pyfun))
    (tool_calls : list tool_call) (messages : list message) : M (list message) :=
  match tool_calls with
  | [] => ret messages
  | tc :: rest =>
      tool_result <- execute_tool_call E dispatch tc ;;
      run_tool_calls E dispatch rest (messages ++ [tool_message E tc tool_result])
  end.

(** [response["choices"][0]["message"]]. *)
Definition first_choice (r : response) : M choice_message :=
  match choices r with
  | c :: _ => ret c
  | [] => raise (Exc IndexError "list index out of range")
  end.

(** [choice.get("tool_calls") or []] and [choice.get("content")] or the
    empty string. *)
Definition requested_tool_calls (c : choice_message) : list tool_call :=
  match cm_tool_calls c with Some l => l | None => [] end.

Definition final_text (c : choice_message) : string :=
  match cm_content c with Some s => s | None => "" end.

(** Lines 293 to 302: the final text as a Final Answer.  Only a
    JSONDecodeError is caught. *)
Definition wrapped_text (content : string) : value :=
  VDict [("message", VStr content); ("status", VStr "unknown")].

Definition parse_final_answer (E : env) (content : string) : exc + value :=
  match json_loads E content with
  | inr (VDict d) => inr (VDict d)
  | inr _ => inr (wrapped_text content)
  | inl e => if is_JSONDecodeError e then inr (wrapped_text content) else inl e
  end.

Definition step_limit_answer : value :=
  VDict [("message", VStr "The agent could not complete the request within the step limit.");
         ("status", VStr "error")].

Definition unexpected_error_answer (e : exc) : value :=
  VDict [("message", VStr ("Unexpected error in agent: " ++ exc_str e));
         ("status", VStr "error")].

(** [meta = end_trace(trace, result, ...); return result, meta.get("trace_url")]. *)
Definition finish (E : env) (trace : option observation) (result : value)
    (error : option exc) : M (value * option string) :=
  meta <- end_trace E trace result error ;;
  ret (result, snd meta).

(** [for _ in range(max_steps): ...] followed by the fallback after it;
    [steps] counts the iterations still to run. *)
Fixpoint agent_loop (E : env) (dispatch : list (string * pyfun)) (trace : option observation)
    (steps : nat) (messages : list message) : M (value * option string) :=
  match steps with
  | O => finish E trace step_limit_answer None
  | S steps' =>
      response <- _call_llm E messages trace ;;
      choice <- first_choice response ;;
      match requested_tool_calls choice with
      | [] =>
          result <- lift (parse_final_answer E (final_text choice)) ;;
          finish E trace result None
      | tool_calls =>
          messages' <- run_tool_calls E dispatch tool_calls
                         (messages ++ [AssistantMsg (cm_content choice) tool_calls]) ;;
          agent_loop E dispatch trace steps' messages'
      end
  end.

(** Everything of [run_agent] below the prompt: the seeded transcript, the
    trace, the loop and the handler at its boundary. *)
Definition run_with_prompt (E : env) (dispatch : list (string * pyfun))
    (system_prompt user_input : string) (customer_id max_steps : Z) : M (value * option string) :=
  let messages := [SystemMsg system_prompt; UserMsg user_input] in
  trace <- create_trace E customer_id user_input ;;
  try_except (agent_loop E dispatch trace (Z.to_nat max_steps) messages)
    (fun e => finish E trace (unexpected_error_answer e) (Some e)).

Definition run_agent (E : env) (user_input : string) (customer_id max_steps : Z) : M (value * option string) :=
  system_prompt <- lift (str_format E SYSTEM_PROMPT_TEMPLATE [("customer_id", VInt customer_id)]) ;;
  run_with_prompt E (TOOL_DISPATCH E) system_prompt user_input customer_id max_steps.

(** ** A reference environment

    Executable stand-ins for the library functions of the environment:
    [json.loads], [json.dumps], [str], [repr] and [int] as CPython 3.11 has
    them on ASCII text (a string is a string of bytes, and a [\u] escape
    above 127 is outside what the decoder does).  [json.loads] gives up with
    RecursionError beyond [nesting_room] levels of nesting, where CPython's
    bound is its recursion limit, 1000 by default, less the frames in use;
    every JSONDecodeError carries the text of the commonest one, which the
    agent never reads.  The general statements below never mention these
    functions; they instantiate the environment in the concrete runs. *)

Definition is_ws (c : ascii) : bool :=
  let n := nat_of_ascii c in
  (n =? 32)%nat || (n =? 9)%nat || (n =? 10)%nat || (n =? 13)%nat.

Fixpoint skip_ws (s : string) : string :=
  match s with
  | String c r => if is_ws c then skip_ws r else s
  | EmptyString => EmptyString
  end.

Fixpoint strip_prefix (p s : string) : option string :=
  match p, s with
  | EmptyString, _ => Some s
  | String a p', String b s' => if Ascii.eqb a b then strip_prefix p' s' else None
  | String _ _, EmptyString => None
  end.

Definition not_json : exc := Exc JSONDecodeError "Expecting value: line 1 column 1 (char 0)".

Definition outside_fragment : exc :=
  Exc OtherException "a unicode escape above 127 is outside the reference decoder".

Definition hex_digit (c : ascii) : option nat :=
  let n := nat_of_ascii c in
  if (48 <=? n)%nat && (n <=? 57)%nat then Some (n - 48)%nat
  else if (65 <=? n)%nat && (n <=? 70)%nat then Some (n - 55)%nat
  else if (97 <=? n)%nat && (n <=? 102)%nat then Some (n - 87)%nat
  else None.

Definition hex4 (a b c d : ascii) : option nat :=
  match hex_digit a, hex_digit b, hex_digit c, hex_digit d with
  | Some x, Some y, Some z, Some t => Some (((x * 16 + y) * 16 + z) * 16 + t)%nat
  | _, _, _, _ => None
  end.

(** The characters of a JSON string after its opening quote. *)
Fixpoint scan_string (s : string) (acc : string) : exc + (string * string) :=
  match s with
  | EmptyString => inl not_json
  | String c r =>
      if Ascii.eqb c (ascii_of_nat 34) then inr (acc, r)
      else if (nat_of_ascii c <? 32)%nat then inl not_json
      else if Ascii.eqb c "\"%char then
        match r with
        | String e r' =>
            let continue_with x := scan_string r' (snoc_char acc x) in
            if Ascii.eqb e (ascii_of_nat 34) then continue_with e
            else if Ascii.eqb e "\"%char then continue_with e
            else if Ascii.eqb e "/"%char then continue_with e
            else if Ascii.eqb e "b"%char then continue_with (ascii_of_nat 8)
            else if Ascii.eqb e "f"%char then continue_with (ascii_of_nat 12)
            else if Ascii.eqb e "n"%char then continue_with (ascii_of_nat 10)
            else if Ascii.eqb e "r"%char then continue_with (ascii_of_nat 13)
            else if Ascii.eqb e "t"%char then continue_with (ascii_of_nat 9)
            else if Ascii.eqb e "u"%char then
              match r' with
              | String h1 (String h2 (String h3 (String h4 r''))) =>
                  match hex4 h1 h2 h3 h4 with
                  | Some n =>
                      if (n <? 128)%nat then scan_string r'' (snoc_char acc (ascii_of_nat n))
                      else inl outside_fragment
                  | None => inl not_json
                  end
              | _ => inl not_json
              end
            else inl not_json
        | EmptyString => inl not_json
        end
      else scan_string r (snoc_char acc c)
  end.

Fixpoint scan_digits (s : string) (acc : string) : string * string :=
  match s with
  | String c r => if is_digit c then scan_digits r (snoc_char acc c) else (acc, s)
  | EmptyString => (acc, s)
  end.

Definition decimal_value (digits : string) : Z :=
  match NilZero.int_of_string digits with
  | Some n => Z.of_int n
  | None => 0
  end.

Definition decimal (n : Z) : string := NilZero.string_of_int (Z.to_int n).

(** The binary64 nearest to [mantissa * 10 ^ exponent], ties to even, as
    [float] reads a decimal text. *)
Definition binary64_of_decimal (negative : bool) (mantissa exponent : Z) : spec_float :=
  let size := Z.of_nat (String.length (decimal mantissa)) + exponent in
  if mantissa <=? 0 then S754_zero negative
  else if 310 <? size then S754_infinity negative
  else if size <? -330 then S754_zero negative
  else if 0 <=? exponent then
    binary_normalize 53 1024
      ((if negative then -1 else 1) * mantissa * 10 ^ exponent) 0 negative
  else
    SFdiv 53 1024 (S754_finite negative (Z.to_pos mantissa) 0)
      (S754_finite false (Z.to_pos (10 ^ (- exponent))) 0).

(** What the decoder makes of a prefix of its text. *)
Inductive parsed : Type :=
| Parsed (v : value) (rest : string)
| Failed (e : exc).

Definition too_many_digits (digits : string) : exc :=
  Exc ValueError
    ("Exceeds the limit (4300 digits) for integer string conversion: value has "
     ++ decimal (Z.of_nat (String.length digits))
     ++ " digits; use sys.set_int_max_str_digits() to increase the limit").

(** A JSON number: an integer unless it has a fraction or an exponent. *)
Definition scan_number (s : string) : parsed :=
  let (negative, body) :=
    match s with
    | String c r => if Ascii.eqb c "-"%char then (true, r) else (false, s)
    | EmptyString => (false, s)
    end in
  match (if negative then strip_prefix "Infinity" body else None) with
  | Some rest => Parsed (VFloat (S754_infinity true)) rest
  | None =>
      match body with
      | String d r =>
          if is_digit d then
            let (whole, rest) :=
              if Ascii.eqb d "0"%char then ("0", r) else scan_digits body EmptyString in
            let (fraction, rest) :=
              match rest with
              | String dot r1 =>
                  if Ascii.eqb dot "."%char then
                    match scan_digits r1 EmptyString with
                    | (EmptyString, _) => (EmptyString, rest)
                    | (digits, r2) => (digits, r2)
                    end
                  else (EmptyString, rest)
              | EmptyString => (EmptyString, rest)
              end in
            let '(exponent, rest) :=
              match rest with
              | String e r1 =>
                  if Ascii.eqb e "e"%char || Ascii.eqb e "E"%char then
                    let (minus, r2) :=
                      match r1 with
                      | String sign r2 =>
                          if Ascii.eqb sign "-"%char then (true, r2)
                          else if Ascii.eqb sign "+"%char then (false, r2)
                          else (false, r1)
                      | EmptyString => (false, r1)
                      end in
                    match scan_digits r2 EmptyString with
                    | (EmptyString, _) => (None, rest)
                    | (digits, r3) =>
                        (Some (if minus then - decimal_value digits else decimal_value digits),
                         r3)
                    end
                  else (None, rest)
              | EmptyString => (None, rest)
              end in
            match fraction, exponent with
            | EmptyString, None =>
                if (4300 <? String.length whole)%nat then Failed (too_many_digits whole)
                else Parsed (VInt (if negative then - decimal_value whole
                                   else decimal_value whole)) rest
            | _, _ =>
                Parsed (VFloat (binary64_of_decimal negative (decimal_value (whole ++ fraction))
                                  (match exponent with Some x => x | None => 0 end
                                   - Z.of_nat (String.length fraction)))) rest
            end
          else Failed not_json
      | EmptyString => Failed not_json
      end
  end.

Definition nesting_room : nat := 990.

Definition too_deep (what : string) : exc :=
  Exc RecursionError
    ("maximum recursion depth exceeded while decoding a JSON " ++ what
     ++ " from a unicode string").

(** The decoder: [fuel] bounds the recursion and [room] is the nesting
    still allowed. *)
Fixpoint parse_value (fuel room : nat) (s : string) {struct fuel} : parsed :=
  match fuel with
  | O => Failed not_json
  | S f =>
      match skip_ws s with
      | EmptyString => Failed not_json
      | String c r =>
          if Ascii.eqb c "["%char then
            match room with
            | O => Failed (too_deep "array")
            | S room' =>
                match skip_ws r with
                | String c' r' => if Ascii.eqb c' "]"%char then Parsed (VList []) r'
                                  else parse_items f room' r []
                | EmptyString => Failed not_json
                end
            end
          else if Ascii.eqb c ch_lbrace then
            match room with
            | O => Failed (too_deep "object")
            | S room' =>
                match skip_ws r with
                | String c' r' => if Ascii.eqb c' ch_rbrace then Parsed (VDict []) r'
                                  else parse_members f room' r []
                | EmptyString => Failed not_json
                end
            end
          else if Ascii.eqb c (ascii_of_nat 34) then
            match scan_string r EmptyString with
            | inr (text, rest) => Parsed (VStr text) rest
            | inl e => Failed e
            end
          else
            match strip_prefix "null" (String c r), strip_prefix "true" (String c r),
                  strip_prefix "false" (String c r), strip_prefix "NaN" (String c r),
                  strip_prefix "Infinity" (String c r) with
            | Some rest, _, _, _, _ => Parsed VNone rest
            | _, Some rest, _, _, _ => Parsed (VBool true) rest
            | _, _, Some rest, _, _ => Parsed (VBool false) rest
            | _, _, _, Some rest, _ => Parsed (VFloat S754_nan) rest
            | _, _, _, _, Some rest => Parsed (VFloat (S754_infinity false)) rest
            | _, _, _, _, _ => scan_number (String c r)
            end
      end
  end
with parse_items (fuel room : nat) (s : string) (acc : list value) {struct fuel} : parsed :=
  match fuel with
  | O => Failed not_json
  | S f =>
      match parse_value f room s with
      | Parsed v r =>
          match skip_ws r with
          | String c r' =>
              if Ascii.eqb c ","%char then parse_items f room r' (acc ++ [v])
              else if Ascii.eqb c "]"%char then Parsed (VList (acc ++ [v])) r'
              else Failed not_json
          | EmptyString => Failed not_json
          end
      | Failed e => Failed e
      end
  end
with parse_members (fuel room : nat) (s : string) (acc : dict) {struct fuel} : parsed :=
  match fuel with
  | O => Failed not_json
  | S f =>
      match skip_ws s with
      | String q r =>
          if Ascii.eqb q (ascii_of_nat 34) then
            match scan_string r EmptyString with
            | inr (key, r1) =>
                match skip_ws r1 with
                | String colon r2 =>
                    if Ascii.eqb colon ":"%char then
                      match parse_value f room r2 with
                      | Parsed v r3 =>
                          match skip_ws r3 with
                          | String c r4 =>
                              if Ascii.eqb c ","%char
                              then parse_members f room r4 (dict_set key v acc)
                              else if Ascii.eqb c ch_rbrace
                              then Parsed (VDict (dict_set key v acc)) r4
                              else Failed not_json
                          | EmptyString => Failed not_json
                          end
                      | Failed e => Failed e
                      end
                    else Failed not_json
                | EmptyString => Failed not_json
                end
            | inl e => Failed e
            end
          else Failed not_json
      | EmptyString => Failed not_json
      end
  end.

Definition json_loads_ref (s : string) : exc + value :=
  match parse_value (2 * String.length s + 2) nesting_room s with
  | Parsed v rest => match skip_ws rest with EmptyString => inr v | _ => inl not_json end
  | Failed e => inl e
  end.

(** [repr] of a float: the shortest digits that read back as the float. *)
Definition at_least_pow10 (n d t : Z) : bool :=
  if 0 <=? t then d * 10 ^ t <=? n else d <=? n * 10 ^ (- t).

(** The integer [t] with [10 ^ t <= n / d < 10 ^ (t + 1)], for [n / d]
    between [2 ^ bits] and [2 ^ (bits + 1)]. *)
Definition decimal_exponent (n d bits : Z) : Z :=
  let t := bits * 30103 / 100000 in
  if at_least_pow10 n d (t + 2) then t + 2
  else if at_least_pow10 n d (t + 1) then t + 1
  else if at_least_pow10 n d t then t
  else t - 1.

Fixpoint drop_zeros (fuel : nat) (digits q : Z) : Z * Z :=
  match fuel with
  | O => (digits, q)
  | S f => if (digits mod 10 =? 0) && negb (digits =? 0) then drop_zeros f (digits / 10) (q + 1)
           else (digits, q)
  end.

(** The digits and the power of ten of the shortest decimal that reads back
    as [target], which is [n / d] rounded, trying [count] precisions from
    [p] on. *)
Fixpoint shortest_digits (count : nat) (p : Z) (negative : bool) (target : spec_float)
    (n d t : Z) : Z * Z :=
  let q := t - p + 1 in
  let num := if 0 <=? q then n else n * 10 ^ (- q) in
  let den := if 0 <=? q then d * 10 ^ q else d in
  let lo := num / den in
  let r := num mod den in
  let nearest := if 2 * r <? den then lo
                 else if den <? 2 * r then lo + 1
                 else if Z.even lo then lo else lo + 1 in
  let other := if nearest =? lo then lo + 1 else lo in
  let reads_back digits := SFeqb (binary64_of_decimal negative digits q) target in
  match count with
  | O => (nearest, q)
  | S count' =>
      if reads_back nearest then (nearest, q)
      else if negb (r =? 0) && reads_back other then (other, q)
      else shortest_digits count' (p + 1) negative target n d t
  end.

Fixpoint zeros (n : nat) : string :=
  match n with
  | O => EmptyString
  | S n' => String "0"%char (zeros n')
  end.

Definition float_repr (f : spec_float) (nan infinity : string) : string :=
  match f with
  | S754_nan => nan
  | S754_infinity negative => (if negative then "-" else "") ++ infinity
  | S754_zero negative => if negative then "-0.0" else "0.0"
  | S754_finite negative m e =>
      match binary_normalize 53 1024 (Zpos m) e false with
      | S754_finite _ m' e' =>
          let n := if 0 <=? e' then Zpos m' * 2 ^ e' else Zpos m' in
          let d := if 0 <=? e' then 1 else 2 ^ (- e') in
          let t := decimal_exponent n d (Zpos (digits2_pos m') + e' - 1) in
          let (digits, q) :=
            let (digits, q) :=
              shortest_digits 16 1 false (S754_finite false m' e') n d t in
            drop_zeros 20 digits q in
          let text := decimal digits in
          let length := String.length text in
          let decpt := q + Z.of_nat length in
          (if negative then "-" else "")
          ++ (if (decpt <=? -4) || (16 <? decpt) then
                String.substring 0 1 text
                ++ (if (1 <? length)%nat then "." ++ String.substring 1 (length - 1) text
                    else "")
                ++ "e" ++ (if decpt - 1 <? 0 then "-" else "+")
                ++ (if Z.abs (decpt - 1) <? 10 then "0" else "") ++ decimal (Z.abs (decpt - 1))
              else if decpt <=? 0 then "0." ++ zeros (Z.to_nat (- decpt)) ++ text
              else if Z.of_nat length <=? decpt
              then text ++ zeros (Z.to_nat decpt - length) ++ ".0"
              else String.substring 0 (Z.to_nat decpt) text ++ "."
                   ++ String.substring (Z.to_nat decpt) (length - Z.to_nat decpt) text)
      | S754_infinity _ => (if negative then "-" else "") ++ infinity
      | S754_zero _ => if negative then "-0.0" else "0.0"
      | S754_nan => nan
      end
  end.

(** [json.dumps]: every character outside the printable ASCII ones is
    escaped; the bytes above 127 are taken one by one. *)
Definition hex_char (n : nat) : ascii :=
  if (n <? 10)%nat then ascii_of_nat (48 + n) else ascii_of_nat (87 + n).

Definition u_escape (n : nat) : string :=
  "\u00" ++ String (hex_char (n / 16)) (String (hex_char (n mod 16)) EmptyString).

Fixpoint json_escape (s : string) : string :=
  match s with
  | EmptyString => EmptyString
  | String c r =>
      (if Ascii.eqb c (ascii_of_nat 34) then String "\"%char dq
       else if Ascii.eqb c "\"%char then String c (String c EmptyString)
       else if Ascii.eqb c (ascii_of_nat 10) then String "\"%char "n"
       else if Ascii.eqb c (ascii_of_nat 13) then String "\"%char "r"
       else if Ascii.eqb c (ascii_of_nat 9) then String "\"%char "t"
       else if Ascii.eqb c (ascii_of_nat 8) then String "\"%char "b"
       else if Ascii.eqb c (ascii_of_nat 12) then String "\"%char "f"
       else if (nat_of_ascii c <? 32)%nat || (126 <? nat_of_ascii c)%nat
       then u_escape (nat_of_ascii c)
       else String c EmptyString) ++ json_escape r
  end.

Fixpoint json_dumps_ref (v : value) : string :=
  match v with
  | VNone => "null"
  | VBool true => "true"
  | VBool false => "false"
  | VInt n => decimal n
  | VFloat f => float_repr f "NaN" "Infinity"
  | VStr s => dq ++ json_escape s ++ dq
  | VList l =>
      "[" ++ (fix items (l : list value) : string :=
                match l with
                | [] => EmptyString
                | x :: r =>
                    json_dumps_ref x ++ match r with [] => EmptyString | _ => ", " ++ items r end
                end) l ++ "]"
  | VDict d =>
      "{" ++ (fix members (d : list (string * value)) : string :=
                match d with
                | [] => EmptyString
                | (k, x) :: r =>
                    dq ++ json_escape k ++ dq ++ ": " ++ json_dumps_ref x
                    ++ match r with [] => EmptyString | _ => ", " ++ members r end
                end) d ++ "}"
  end.

Fixpoint py_repr_ref (v : value) : string :=
  match v with
  | VNone => "None"
  | VBool true => "True"
  | VBool false => "False"
  | VInt n => decimal n
  | VFloat f => float_repr f "nan" "inf"
  | VStr s => py_repr_str s
  | VList l =>
      "[" ++ (fix items (l : list value) : string :=
                match l with
                | [] => EmptyString
                | x :: r =>
                    py_repr_ref x ++ match r with [] => EmptyString | _ => ", " ++ items r end
                end) l ++ "]"
  | VDict d =>
      "{" ++ (fix members (d : list (string * value)) : string :=
                match d with
                | [] => EmptyString
                | (k, x) :: r =>
                    py_repr_str k ++ ": " ++ py_repr_ref x
                    ++ match r with [] => EmptyString | _ => ", " ++ members r end
                end) d ++ "}"
  end.

Definition py_str_ref (v : value) : string :=
  match v with
  | VStr s => s
  | _ => py_repr_ref v
  end.

(** [int(s)] on a string: blanks around the number, a sign, and digits with
    single underscores between them. *)
Definition is_py_space (c : ascii) : bool :=
  let n := nat_of_ascii c in
  ((9 <=? n)%nat && (n <=? 13)%nat) || ((28 <=? n)%nat && (n <=? 32)%nat).

Fixpoint lstrip_space (s : string) : string :=
  match s with
  | String c r => if is_py_space c then lstrip_space r else s
  | EmptyString => EmptyString
  end.

Fixpoint rstrip_space (s : string) : string :=
  match s with
  | EmptyString => EmptyString
  | String c r =>
      match rstrip_space r with
      | EmptyString => if is_py_space c then EmptyString else String c EmptyString
      | kept => String c kept
      end
  end.

(** The digits of [s] without its underscores, when every underscore stands
    between two digits. *)
Fixpoint grouped_digits (s : string) (after_digit : bool) : option string :=
  match s with
  | EmptyString => if after_digit then Some EmptyString else None
  | String c r =>
      if is_digit c then option_map (String c) (grouped_digits r true)
      else if Ascii.eqb c "_"%char && after_digit then
        match r with
        | String c' _ => if is_digit c' then grouped_digits r false else None
        | EmptyString => None
        end
      else None
  end.

Definition int_of_str_ref (s : string) : option Z :=
  let body := rstrip_space (lstrip_space s) in
  let (negative, unsigned) :=
    match body with
    | String c r =>
        if Ascii.eqb c "-"%char then (true, r)
        else if Ascii.eqb c "+"%char then (false, r)
        else (false, body)
    | EmptyString => (false, body)
    end in
  match grouped_digits unsigned false with
  | Some digits =>
      if (4300 <? String.length digits)%nat then None
      else Some (if negative then - decimal_value digits else decimal_value digits)
  | None => None
  end.

(** Format specs, conversions and attribute access are outside the
    reference environment. *)
Definition render_field_ref (_ : list (string * value)) (_ : value) (_ : string)
    (_ : option ascii) (_ : string) : exc + string :=
  inl (Exc OtherException "format spec outside the reference environment").

(** The reference environment around a model and a backend: an API key is
    configured, the backend URL is the default of config.py and tracing is
    off. *)
Definition reference_env (model : nat -> list message -> exc + response)
    (server : nat -> http_request -> http_outcome) : env :=
  {| json_loads := json_loads_ref;
     json_dumps := json_dumps_ref;
     py_str := py_str_ref;
     int_of_str := int_of_str_ref;
     render_field := render_field_ref;
     OPENAI_API_KEY := Some "sk-test";
     BACKEND_BASE_URL := "http://localhost:8000/api";
     LANGFUSE_HOST := "https://cloud.langfuse.com";
     langfuse := None;
     llm := model;
     backend := server |}.

(** * The vocabulary of the statements *)

(** A computation that leaves the model-call log alone. *)
Definition silent {A : Type} (m : M A) : Prop :=
  forall w, w_model_calls (snd (m w)) = w_model_calls w.

(** The world after [log_tool_call]. *)
Definition with_tool_span (E : env) (tool_name : string) (w : world) : world :=
  if _is_enabled E
  then World (w_model_calls w) (w_http w) (w_spans w ++ [Span ("tool:" ++ tool_name)])
  else w.

(** [s] between double quotes. *)
Definition quoted (s : string) : string := dq ++ s ++ dq.

(** The text the executor puts in the error field when the call of a
    registered handler raises [e]. *)
Definition handler_failure_text (func_name : string) (e : exc) : string :=
  if is_TypeError e then "Invalid arguments for tool " ++ func_name
  else "Tool " ++ func_name ++ " raised an exception: " ++ exc_str e.

(** Whether a name is a key of the registry. *)
Definition is_registered (E : env) (func_name : string) : bool :=
  match dict_lookup func_name (TOOL_DISPATCH E) with
  | Some _ => true
  | None => false
  end.

(** A registry whose handlers leave the model-call log alone. *)
Definition registry_silent (dispatch : list (string * pyfun)) : Prop :=
  forall func_name tool_fn arg,
    dict_lookup func_name dispatch = Some tool_fn -> silent (fn_body tool_fn arg).

(** A tool message answers a request when it carries the request's id and
    name. *)
Definition answers (tc : tool_call) (m : message) : Prop :=
  exists content, m = ToolMsg (tc_id tc) (tc_name tc) content.



(** The statuses the prompt and the fallbacks of the loop know. *)
Definition closed_statuses : list string :=
  ["approved"; "pending"; "rejected"; "refill_suggested"; "ok"; "error"; "unknown"].

(** [v.get(k)] on a Final Answer. *)
Definition dict_field (k : string) (v : value) : option value :=
  match v with
  | VDict d => dict_lookup k d
  | _ => None
  end.

(** [choice] is the answer of the last model call recorded in [w]: the
    first choice of a response that requests no invocation. *)
Definition last_model_answer (E : env) (w : world) (choice : choice_message) : Prop :=
  exists earlier msgs resp others,
    w_model_calls w = (earlier ++ [msgs])%list
    /\ llm E (length earlier) msgs = inr resp
    /\ choices resp = choice :: others
    /\ requested_tool_calls choice = [].

(** [get_client] finds an API key. *)
Definition api_key_configured (E : env) : bool :=
  match OPENAI_API_KEY E with
  | Some key => negb (String.eqb key "")
  | None => false
  end.

(** The model's answer carries at least one requested invocation. *)
Definition requests_tools (r : exc + response) : bool :=
  match r with
  | inr (Response (choice :: _)) =>
      match requested_tool_calls choice with
      | [] => false
      | _ :: _ => true
      end
  | _ => false
  end.

(** Values Python can hash. *)
Definition hashable (v : value) : bool :=
  match v with
  | VList _ | VDict _ => false
  | _ => true
  end.

(** Every order record the backend sends has a hashable status. *)
Definition statuses_hashable (E : env) : Prop :=
  forall k req resp d,
    backend E k req = Responded resp -> resp_json resp = inr (VDict d) ->
    hashable (dict_get "status" (VStr "rejected") d) = true.

(** The arguments of every invocation the model requests decode, or fail
    to with a JSONDecodeError. *)
Definition arguments_decode (E : env) : Prop :=
  forall k msgs resp choice others tc,
    llm E k msgs = inr resp ->
    choices resp = choice :: others ->
    In tc (requested_tool_calls choice) ->
    exists args, decode_arguments E tc = inr args.

(** The text after the first brace of the examples in the prompt: the
    scanner reads it as the name of a replacement field. *)
Definition missing_key : string := " " ++ quoted "message".

(** The request [check_medicine_availability] sends, and the world once a
    request is logged. *)
Definition availability_request (E : env) (medicine_name : value) : http_request :=
  HttpRequest GET (_build_url E ("medicines/" ++ py_str E medicine_name ++ "/availability")) None.

Definition after_request (w : world) (req : http_request) : world :=
  World (w_model_calls w) (w_http w ++ [req]) (w_spans w).

(** * Sample models and backends for the concrete runs *)

(** A model that cannot be reached, and a backend that cannot either. *)
Definition offline_model : nat -> list message -> exc + response :=
  fun _ _ => inl (Exc OtherException "Connection error.").

Definition down_server : nat -> http_request -> http_outcome :=
  fun _ _ => Unreachable "connection refused".

(** The response with status 200 and the JSON body [body]. *)
Definition ok_response (req : http_request) (body : value) : http_outcome :=
  Responded (HttpResponse 200 "OK" (req_url req) (inr body)).

(** A backend that answers every request with status 200 and the JSON
    array [[]]. *)
Definition array_server : nat -> http_request -> http_outcome :=
  fun _ req => ok_response req (VList []).

(** A well-formed request for the availability of a medicine. *)
Definition availability_call : tool_call :=
  ToolCall "call_1" "check_medicine_availability"
    (Some ("{" ++ quoted "medicine_name" ++ ": " ++ quoted "Paracetamol" ++ "}")).

(** A backend whose availability record carries a list where the stock
    quantity belongs. *)
Definition odd_stock_server : nat -> http_request -> http_outcome :=
  fun _ req =>
    ok_response req
      (VDict [("available", VBool true); ("stock_quantity", VList [VInt 50]);
              ("prescription_required", VBool false)]).

(** The availability entry of the registry, its decoded arguments and the
    text of the TypeError that [int] raises on a list. *)
Definition availability_handler (E : env) : pyfun :=
  PyFun ["medicine_name"] (fun arg => check_medicine_availability E (arg "medicine_name")).

Definition paracetamol_args : value := VDict [("medicine_name", VStr "Paracetamol")].

Definition int_of_list_text : string :=
  "int() argument must be a string, a bytes-like object or a real number, not 'list'".

(** An invocation whose arguments are not JSON. *)
Definition undecodable_call : tool_call :=
  ToolCall "call_1" "get_customer_history" (Some "{customer_id: 12").

(** A model whose only answer is the plain text [hello]. *)
Definition hello_model : nat -> list message -> exc + response :=
  fun _ _ => inr (Response [ChoiceMessage (Some "hello") None]).

(** A model whose final text is a mapping with a status of its own. *)
Definition shipped_text : string :=
  "{" ++ quoted "message" ++ ": " ++ quoted "Your order is on its way." ++ ", "
      ++ quoted "status" ++ ": " ++ quoted "shipped" ++ "}".

Definition shipped_model : nat -> list message -> exc + response :=
  fun _ _ => inr (Response [ChoiceMessage (Some shipped_text) None]).

(** A model that asks for the customer's history on every round. *)
Definition history_call : tool_call :=
  ToolCall "call_1" "get_customer_history" (Some ("{" ++ quoted "customer_id" ++ ": 12}")).

Definition history_model : nat -> list message -> exc + response :=
  fun _ _ => inr (Response [ChoiceMessage None (Some [history_call])]).

(** A model that places the same order on every round, and a backend whose
    order record carries its status inside a list. *)
Definition order_call : tool_call :=
  ToolCall "call_1" "create_order"
    (Some ("{" ++ quoted "customer_id" ++ ": 12, " ++ quoted "medicine_name" ++ ": "
               ++ quoted "Paracetamol" ++ ", " ++ quoted "quantity" ++ ": 5}")).

Definition ordering_model : nat -> list message -> exc + response :=
  fun _ _ => inr (Response [ChoiceMessage None (Some [order_call])]).

Definition list_status_server : nat -> http_request -> http_outcome :=
  fun _ req =>
    ok_response req (VDict [("status", VList [VStr "approved"]); ("order_id", VInt 7)]).

(** A backend with the medicine in stock that approves every order, and a
    model that checks availability, places the order and then answers. *)
Definition pharmacy_server : nat -> http_request -> http_outcome :=
  fun _ req =>
    match req_method req with
    | GET =>
        ok_response req
          (VDict [("available", VBool true); ("stock_quantity", VInt 50);
                  ("prescription_required", VBool false)])
    | POST =>
        ok_response req
          (VDict [("status", VStr "approved"); ("order_id", VInt 7); ("reason", VNone)])
    end.

Definition approved_text : string :=
  "{" ++ quoted "message" ++ ": " ++ quoted "Your order for 5 Paracetamol has been approved."
      ++ ", " ++ quoted "order_id" ++ ": 7, " ++ quoted "status" ++ ": " ++ quoted "approved"
      ++ "}".

Definition ordering_then_answering_model : nat -> list message -> exc + response :=
  fun k _ =>
    match k with
    | O => inr (Response [ChoiceMessage None (Some [availability_call])])
    | S O => inr (Response [ChoiceMessage None (Some [order_call])])
    | _ => inr (Response [ChoiceMessage (Some approved_text) None])
    end.

(** * Further vocabulary: environments that differ in one setting and
    what a run adds to the logs *)

(** The environment [E] with another API key, backend URL or tracing client. *)
Definition with_api_key (key : option string) (E : env) : env :=
  {| json_loads := json_loads E; json_dumps := json_dumps E; py_str := py_str E;
     int_of_str := int_of_str E; render_field := render_field E;
     OPENAI_API_KEY := key; BACKEND_BASE_URL := BACKEND_BASE_URL E;
     LANGFUSE_HOST := LANGFUSE_HOST E; langfuse := langfuse E;
     llm := llm E; backend := backend E |}.

Definition with_backend_url (url : string) (E : env) : env :=
  {| json_loads := json_loads E; json_dumps := json_dumps E; py_str := py_str E;
     int_of_str := int_of_str E; render_field := render_field E;
     OPENAI_API_KEY := OPENAI_API_KEY E; BACKEND_BASE_URL := url;
     LANGFUSE_HOST := LANGFUSE_HOST E; langfuse := langfuse E;
     llm := llm E; backend := backend E |}.

Definition with_langfuse (client : option observation) (E : env) : env :=
  {| json_loads := json_loads E; json_dumps := json_dumps E; py_str := py_str E;
     int_of_str := int_of_str E; render_field := render_field E;
     OPENAI_API_KEY := OPENAI_API_KEY E; BACKEND_BASE_URL := BACKEND_BASE_URL E;
     LANGFUSE_HOST := LANGFUSE_HOST E; langfuse := client;
     llm := llm E; backend := backend E |}.

(** The exception [get_client] raises. *)
Definition api_key_error : exc :=
  Exc RuntimeError
    "OPENAI_API_KEY is not set. Please configure it in the .env file before running the agent.".

Fixpoint ends_with_slash (s : string) : bool :=
  match s with
  | EmptyString => false
  | String c EmptyString => Ascii.eqb c ch_slash
  | String _ rest => ends_with_slash rest
  end.

Definition starts_with_slash (s : string) : bool :=
  match s with
  | String c _ => Ascii.eqb c ch_slash
  | EmptyString => false
  end.

(** The world [w] with model calls, requests and spans added at the end of
    its logs. *)
Definition grown (w : world) (calls : list (list message)) (reqs : list http_request)
    (spans : list span) : world :=
  World (w_model_calls w ++ calls) (w_http w ++ reqs) (w_spans w ++ spans).

(** The span [create_trace] opens, the span of a model call under a trace,
    and the update [end_trace] writes. *)
Definition opening_spans (E : env) : list span :=
  match langfuse E with
  | Some _ => [Span "pharmacy-agent-run"]
  | None => []
  end.

Definition generation_spans (E : env) (trace : option observation) : list span :=
  match trace with
  | Some _ => if _is_enabled E then [Span "llm-generation"] else []
  | None => []
  end.

Definition closing_spans (trace : option observation) (output : value) (error : option exc)
    : list span :=
  match trace with
  | Some obs =>
      if update_raises obs then [] else [TraceUpdate output (option_map exc_str error)]
  | None => []
  end.

Definition is_plain_span (s : span) : bool :=
  match s with
  | Span _ => true
  | TraceUpdate _ _ => false
  end.

(** A request whose URL lies under the configured backend. *)
Definition to_backend (E : env) (req : http_request) : bool :=
  String.prefix (rstrip_slash (BACKEND_BASE_URL E) ++ "/") (req_url req).

(** The first model call of a run fails with [e]: the client raises, or the
    completion has no choice to index. *)
Definition first_round_fails (E : env) (w : world) (messages : list message) (e : exc) : Prop :=
  llm E (length (w_model_calls w)) messages = inl e
  \/ (llm E (length (w_model_calls w)) messages = inr (Response [])
      /\ e = Exc IndexError "list index out of range").

(** Whether decoded arguments bind to the parameters of a function: a
    mapping whose keys are parameters and that has every parameter. *)
Definition binds (params : list string) (args : value) : bool :=
  match args with
  | VDict d =>
      forallb (fun kv => mem_string (fst kv) params) d
      && forallb (fun p => match dict_lookup p d with Some _ => true | None => false end) params
  | _ => false
  end.

(** The result of an order that was created, as lines 267 to 272 of
    [run_agent] read it. *)
Definition webhook_due (func_name : string) (tool_result : value) : bool :=
  String.eqb func_name "create_order"
  && match tool_result with
     | VDict d =>
         negb (is_none (dict_get "order_id" VNone d))
         && match dict_get "status" VNone d with
            | VStr s => mem_string s ["approved"; "pending"]
            | _ => false
            end
     | _ => false
     end.

(** The spans one invocation leaves when tracing is on. *)
Definition invocation_spans (E : env) (func_name : string) (tool_result : value) : list span :=
  if _is_enabled E then
    Span ("tool:" ++ func_name)
    :: (if webhook_due func_name tool_result then [Span "tool:warehouse_webhook"] else [])
  else [].

(** The trace URL [end_trace] computes for a trace. *)
Definition trace_url_of (E : env) (trace : option observation) : option string :=
  match trace with
  | Some obs =>
      if update_raises obs then None
      else
        match trace_id obs with
        | Some t =>
            if String.eqb t "" then None
            else Some (rstrip_slash (if String.eqb (LANGFUSE_HOST E) ""
                                     then "https://cloud.langfuse.com"
                                     else LANGFUSE_HOST E) ++ "/trace/" ++ t)
        | None => None
        end
  | None => None
  end.

(** The request [create_order] sends and the requests of the two listings. *)
Definition order_request (E : env) (customer_id medicine_name quantity : value) : http_request :=
  HttpRequest POST (_build_url E "orders")
    (Some (VDict [("customer_id", customer_id); ("medicine_name", medicine_name);
                  ("quantity", quantity)])).

Definition history_request (E : env) (customer_id : value) : http_request :=
  HttpRequest GET (_build_url E ("customers/" ++ py_str E customer_id ++ "/history")) None.

Definition refill_request (E : env) (customer_id : value) : http_request :=
  HttpRequest GET (_build_url E ("customers/" ++ py_str E customer_id ++ "/refill-alerts")) None.

(** A status code for which [raise_for_status] raises, and the exception
    it raises then. *)
Definition is_http_error (code : Z) : bool := (400 <=? code) && (code <? 600).

Definition status_error (E : env) (resp : http_response) : exc :=
  Exc RequestException
    (http_error_text E (if resp_status_code resp <? 500 then "Client" else "Server") resp).

(** The world once the request [req] has met the outcome [out]: a request
    that was refused before it was sent is not in the log. *)
Definition after_outcome (w : world) (req : http_request) (out : http_outcome) : world :=
  match out with
  | Refused _ => w
  | _ => after_request w req
  end.

(** What the two [except] clauses of a tool make of an exception: the text
    of the error field, or nothing for an exception they let through. *)
Definition tool_error_text (e : exc) : option string :=
  if is_RequestException e then Some ("Request error: " ++ exc_str e)
  else if is_ValueError e then Some "Invalid JSON response from backend"
  else None.

(** What a tool gets out of its request before it reads any field: the
    decoded body of a response with a success status, the error of a status
    from 400 on, or the exception of a request refused, of a backend out of
    reach or of a body that [response.json()] cannot decode. *)
Definition decoded_body (E : env) (out : http_outcome) : exc + value :=
  match out with
  | Refused e => inl e
  | Unreachable description => inl (Exc RequestException description)
  | Responded resp =>
      if is_http_error (resp_status_code resp) then inl (status_error E resp)
      else resp_json resp
  end.

(** What a listing function does for each outcome of its request: the value
    it returns or the exception it lets through. *)
Definition listing_failure (field : string) (e : exc) : exc + value :=
  match tool_error_text e with
  | Some text => inr (listing_result field (VList []) (VStr text))
  | None => inl e
  end.

Definition is_not_found (out : http_outcome) : bool :=
  match out with
  | Responded resp => resp_status_code resp =? 404
  | _ => false
  end.

Definition listing_outcome (E : env) (field : string) (out : http_outcome) : exc + value :=
  if is_not_found out then inr (listing_result field (VList []) (VStr "Customer not found"))
  else
    match decoded_body E out with
    | inr data => inr (listing_result field (list_or_empty data) VNone)
    | inl e => listing_failure field e
    end.

(** What [create_order] and [check_medicine_availability] do for each
    outcome of their request; [data.get] raises on a body that is not a
    JSON object. *)
Definition no_get (data : value) : exc :=
  Exc AttributeError ("'" ++ type_name data ++ "' object has no attribute 'get'").

Definition order_failure (e : exc) : exc + value :=
  if is_RequestException e then
    inr (order_result (VStr "rejected") VNone (VStr "Failed to contact backend service")
           (VStr ("Request error: " ++ exc_str e)))
  else if is_ValueError e then
    inr (order_result (VStr "rejected") VNone (VStr "Invalid response from backend service")
           (VStr "Invalid JSON response from backend"))
  else inl e.

Definition order_outcome (E : env) (out : http_outcome) : exc + value :=
  match decoded_body E out with
  | inr (VDict d) =>
      inr (order_result (dict_get "status" (VStr "rejected") d) (dict_get "order_id" VNone d)
             (dict_get "reason" VNone d) VNone)
  | inr data => inl (no_get data)
  | inl e => order_failure e
  end.

Definition availability_failure (e : exc) : exc + value :=
  match tool_error_text e with
  | Some text => inr (availability_result false 0 false (VStr text))
  | None => inl e
  end.

Definition availability_outcome (E : env) (out : http_outcome) : exc + value :=
  if is_not_found out then inr (availability_result false 0 false (VStr "Medicine not found"))
  else
    match decoded_body E out with
    | inr (VDict d) =>
        match py_int E (py_or (dict_get "stock_quantity" (VInt 0) d) (VInt 0)) with
        | inr stock =>
            inr (availability_result (truthy (dict_get "available" (VBool false) d)) stock
                   (truthy (dict_get "prescription_required" (VBool false) d)) VNone)
        | inl e => availability_failure e
        end
    | inr data => inl (no_get data)
    | inl e => availability_failure e
    end.

(** What the tools of a run may add to the logs: requests to the backend
    only, and plain spans only, none of them with tracing off. *)
Definition run_traffic (E : env) (reqs : list http_request) (spans : list span) : Prop :=
  forallb (to_backend E) reqs = true
  /\ forallb is_plain_span spans = true
  /\ (_is_enabled E = false -> spans = []).

(** ** The callers of [run_agent] *)

(** backend/app/routes/agent_routes.py: the request and the two outcomes of
    the chat endpoint, a [ChatResponse] returned or an [HTTPException]
    raised. *)
Record ChatRequest : Type := MkChatRequest
  { chat_customer_id : Z;
    chat_message : string }.

Inductive chat_outcome : Type :=
| ChatResponse (response : value) (trace_url : option string)
| HTTPException (status_code : Z) (detail : string).

(** [chat_with_agent]: the default step budget of [run_agent] is 5.  The
    model [ChatResponse] accepts a dictionary as its response; [invalid]
    stands for the text of pydantic's error on anything else.  Both that
    error and a failure of [run_agent] are caught and raised again as
    status 500 with [str(e)] as the detail. *)
Definition chat_with_agent (E : env) (invalid : value -> string) (request : ChatRequest)
    : world -> chat_outcome * world :=
  fun w =>
    match run_agent E (chat_message request) (chat_customer_id request) 5 w with
    | (inr (VDict d, trace_url), w') => (ChatResponse (VDict d) trace_url, w')
    | (inr (other, _), w') => (HTTPException 500 (invalid other), w')
    | (inl e, w') => (HTTPException 500 (exc_str e), w')
    end.

(** agent/agent.py, [_cli_loop].  The console: what the user does each time
    [input] waits, a line typed or Ctrl+C; when the events run out the input
    is at its end and [input] raises EOFError.  What the loop writes: the
    prompts of [input] and the lines of [print]. *)
Inductive console_event : Type :=
| Typed (line : string)
| CtrlC.

Inductive console_output : Type :=
| Prompt (text : string)
| Printed (text : string).

(** How the loop ends: [break] after KeyboardInterrupt, [return] after a
    RuntimeError of the agent, or the EOFError that nothing catches. *)
Inductive cli_end : Type :=
| Exited
| Returned
| RaisedEOFError.

(** The inner loop, lines 344 to 364: one request for each line typed.
    [strip] is [str.strip] and [dumps_indent] is [json.dumps] with an indent
    of 2; [flush_traces] leaves nothing in the world. *)
Fixpoint cli_requests (E : env) (strip : string -> string) (dumps_indent : value -> string)
    (customer_id : Z) (events : list console_event) (out : list console_output) (w : world)
    : cli_end * list console_output * world :=
  match events with
  | [] => (RaisedEOFError, (out ++ [Prompt "You: "])%list, w)
  | CtrlC :: _ => (Exited, (out ++ [Prompt "You: "; Printed (nl ++ "Exiting agent CLI.")])%list, w)
  | Typed line :: rest =>
      let out := (out ++ [Prompt "You: "])%list in
      let user_text := strip line in
      if String.eqb user_text "" then
        cli_requests E strip dumps_indent customer_id rest
          (out ++ [Printed "Empty input, please type a request or press Ctrl+C to exit."])%list w
      else
        match run_agent E user_text customer_id 5 w with
        | (inl e, w') =>
            if is_RuntimeError e then
              (Returned, (out ++ [Printed ("Agent error: " ++ exc_str e)])%list, w')
            else
              cli_requests E strip dumps_indent customer_id rest
                (out ++ [Printed ("Unexpected error while running agent: " ++ exc_str e)])%list w'
        | (inr (result, trace_url), w') =>
            cli_requests E strip dumps_indent customer_id rest
              ((out ++ [Printed ("Agent: " ++ dumps_indent result)])
                 ++ match trace_url with
                    | Some url =>
                        if String.eqb url "" then []
                        else [Printed (nl ++ "Trace URL: " ++ url)]
                    | None => []
                    end)%list w'
        end
  end.

(** The outer loop, lines 332 to 368: it asks for a customer id until one
    is given, then hands over to the inner loop, which never comes back. *)
Fixpoint cli_customer (E : env) (strip : string -> string) (dumps_indent : value -> string)
    (events : list console_event) (out : list console_output) (w : world)
    : cli_end * list console_output * world :=
  match events with
  | [] => (RaisedEOFError, (out ++ [Prompt "Enter customer id: "])%list, w)
  | CtrlC :: _ =>
      (Exited, (out ++ [Prompt "Enter customer id: "; Printed (nl ++ "Exiting agent CLI.")])%list,
       w)
  | Typed line :: rest =>
      let out := (out ++ [Prompt "Enter customer id: "])%list in
      let raw_customer_id := strip line in
      if String.eqb raw_customer_id "" then
        cli_customer E strip dumps_indent rest (out ++ [Printed "Customer id is required."])%list w
      else
        match int_of_str E raw_customer_id with
        | None =>
            cli_customer E strip dumps_indent rest
              (out ++ [Printed "Customer id must be an integer."])%list w
        | Some customer_id => cli_requests E strip dumps_indent customer_id rest out w
        end
  end.

Definition _cli_loop (E : env) (strip : string -> string) (dumps_indent : value -> string)
    (events : list console_event) (w : world) : cli_end * list console_output * world :=
  cli_customer E strip dumps_indent events
    [Printed "Agentic AI Pharmacy Assistant CLI";
     Printed "Backend must be running at http://localhost:8000";
     Printed ("Press Ctrl+C to exit." ++ nl)] w.

(** What the loop may write besides its banner and its prompts when the
    agent fails on the prompt template. *)
Definition is_cli_notice (o : console_output) : bool :=
  match o with
  | Prompt text => mem_string text ["Enter customer id: "; "You: "]
  | Printed text =>
      mem_string text
        ["Agentic AI Pharmacy Assistant CLI";
         "Backend must be running at http://localhost:8000";
         "Press Ctrl+C to exit." ++ nl;
         "Customer id is required.";
         "Customer id must be an integer.";
         "Empty input, please type a request or press Ctrl+C to exit.";
         "Unexpected error while running agent: ' " ++ quoted "message" ++ "'";
         nl ++ "Exiting agent CLI."]
  end.

Definition has_ctrl_c (events : list console_event) : bool :=
  existsb (fun ev => match ev with CtrlC => true | Typed _ => false end) events.

(** * The backend

    backend/app: the tables of models/ as lists of rows in storage order,
    the order and availability routes and the warehouse hook.  Columns that
    no route reads (category, unit, the creation time of customers, medicines
    and order items) are left out.  A query without ORDER BY ending in
    [first()] takes the first matching row of the list.  A statement sent to
    the database may raise: SQLite refuses an integer beyond 64 bits with an
    OverflowError and a locked database with an OperationalError. *)

Module Backend.

(** A [datetime] without time zone: the ordinal of its date and the
    microseconds since midnight. *)
Record datetime : Type := MkDatetime
  { dt_day : Z;
    dt_time : Z }.

Record Customer : Type := MkCustomer
  { c_id : Z;
    c_name : string;
    c_email : option string }.

Record Medicine : Type := MkMedicine
  { m_id : Z;
    m_name : string;
    m_stock_quantity : Z;
    m_prescription_required : bool }.

Record Order : Type := MkOrder
  { o_id : Z;
    o_customer_id : Z;
    o_status : string;
    o_created_at : datetime }.

Record OrderItem : Type := MkOrderItem
  { i_order_id : Z;
    i_medicine_id : Z;
    i_quantity : Z }.

Record database : Type := MkDatabase
  { customers : list Customer;
    medicines : list Medicine;
    orders : list Order;
    order_items : list OrderItem }.

(** schemas/order_schema.py *)
Record OrderCreate : Type := MkOrderCreate
  { oc_customer_id : Z;
    oc_medicine_name : string;
    oc_quantity : Z }.

Record OrderResponse : Type := MkOrderResponse
  { or_status : string;
    or_order_id : option Z;
    or_reason : option string }.

(** schemas/medicine_schema.py *)
Record MedicineAvailability : Type := MkMedicineAvailability
  { ma_available : bool;
    ma_stock_quantity : Z;
    ma_prescription_required : bool }.

(** The statements the routes send to the database: the two queries, the
    INSERT of the order at [db.flush()], the rest of the transaction at
    [db.commit()], and the reads that follow the commit, [db.refresh(order)]
    and the reloading of the rows the commit expired when line 22 builds
    the payload. *)
Inductive statement : Type :=
| SelectCustomer (customer_id : Z)
| SelectMedicine (medicine_name : string)
| Flush
| Commit
| Refresh (order_id : Z).

(** What surrounds the routes: SQL's [lower], Python's [strip] followed by
    [lower], the id the database gives a new order (by the ids in use), the
    clock, the configured webhook URL and the warehouse behind it, by the
    number of earlier posts, and the exception the database raises on a
    statement, if any. *)
Record server : Type := MkServer
  { sql_lower : string -> string;
    strip_lower : string -> string;
    allocate_id : list Z -> Z;
    utcnow : datetime;
    WAREHOUSE_WEBHOOK_URL : option string;
    warehouse : nat -> string -> value -> exc + Z;
    db_fault : database -> statement -> option exc }.

(** One call of the logger in utils/webhook.py. *)
Inductive log_record : Type :=
| WebhookSkipped (order_id : Z)
| WebhookSent (order_id : Z) (status_code : Z)
| WebhookFailed (order_id : Z) (description : string)
| ConfirmationEmail (customer_email : string) (order_details : value).

(** The state of the backend: the database, the posts sent to the
    warehouse and the log. *)
Record state : Type := MkState
  { st_db : database;
    st_posts : list (string * value);
    st_log : list log_record }.

Definition say (r : log_record) (st : state) : state :=
  MkState (st_db st) (st_posts st) (st_log st ++ [r]).

(** utils/webhook.py *)
Definition send_mock_webhook (S : server) (order_id : Z) (payload : value) (st : state)
    : (exc + unit) * state :=
  match WAREHOUSE_WEBHOOK_URL S with
  | None => (inr tt, say (WebhookSkipped order_id) st)
  | Some url =>
      if String.eqb url "" then (inr tt, say (WebhookSkipped order_id) st)
      else
        let body := VDict [("order_id", VInt order_id); ("payload", payload)] in
        let st' := MkState (st_db st) (st_posts st ++ [(url, body)]) (st_log st) in
        match warehouse S (length (st_posts st)) url body with
        | inr status_code => (inr tt, say (WebhookSent order_id status_code) st')
        | inl e =>
            if is_RequestException e then (inr tt, say (WebhookFailed order_id (exc_str e)) st')
            else (inl e, st')
        end
  end.

Definition send_mock_confirmation_email (customer_email : option string)
    (order_details : value) (st : state) : state :=
  match customer_email with
  | None => st
  | Some email =>
      if String.eqb email "" then st else say (ConfirmationEmail email order_details) st
  end.

(** routes/order_routes.py *)
Definition email_value (email : option string) : value :=
  match email with
  | Some text => VStr text
  | None => VNone
  end.

Definition trigger_warehouse_webhook (S : server) (order : Order) (medicine : Medicine)
    (quantity : Z) (customer : Customer) (st : state) : state :=
  let payload :=
    VDict [("customer_id", VInt (c_id customer));
           ("customer_email", email_value (c_email customer));
           ("medicine_name", VStr (m_name medicine));
           ("quantity", VInt quantity);
           ("order_status", VStr (o_status order));
           ("order_id", VInt (o_id order))] in
  match send_mock_webhook S (o_id order) payload st with
  | (inr _, st') => send_mock_confirmation_email (c_email customer) payload st'
  | (inl _, st') => st'
  end.

Definition find_customer (db : database) (customer_id : Z) : option Customer :=
  find (fun c => c_id c =? customer_id) (customers db).

Definition find_medicine (S : server) (db : database) (medicine_name : string)
    : option Medicine :=
  find (fun m => String.eqb (sql_lower S (m_name m)) (strip_lower S medicine_name))
    (medicines db).

(** [medicine.stock_quantity -= quantity], written back by primary key. *)
Definition take_stock (medicine : Medicine) (quantity : Z) (rows : list Medicine)
    : list Medicine :=
  map (fun m =>
         if m_id m =? m_id medicine
         then MkMedicine (m_id m) (m_name m) (m_stock_quantity medicine - quantity)
                (m_prescription_required m)
         else m) rows.

Definition rejected (reason : string) : OrderResponse :=
  MkOrderResponse "rejected" None (Some reason).

(** A statement on the database [db]: where it raises the route ends with
    the exception in the state [st], else it goes on with [k]. *)
Definition execute {A : Type} (S : server) (db : database) (stmt : statement) (st : state)
    (k : (exc + A) * state) : (exc + A) * state :=
  match db_fault S db stmt with
  | Some e => (inl e, st)
  | None => k
  end.

(** Lines 59 to 66: the order to record. *)
Definition new_order (S : server) (db : database) (customer : Customer) (medicine : Medicine)
    : Order :=
  MkOrder (allocate_id S (map o_id (orders db))) (c_id customer)
    (if m_prescription_required medicine then "pending" else "approved") (utcnow S).

(** Lines 67 to 79: the database once the order, its item and the new stock
    are committed, and the medicine as the session then has it. *)
Definition record_order (db : database) (order : Order) (medicine : Medicine) (quantity : Z)
    : database :=
  MkDatabase (customers db) (take_stock medicine quantity (medicines db))
    (orders db ++ [order])
    (order_items db ++ [MkOrderItem (o_id order) (m_id medicine) quantity]).

Definition sold (medicine : Medicine) (quantity : Z) : Medicine :=
  MkMedicine (m_id medicine) (m_name medicine) (m_stock_quantity medicine - quantity)
    (m_prescription_required medicine).

(** Lines 80 to 85, in the state [st] the commit left: the reads, the
    warehouse hook and the response. *)
Definition answer_order (S : server) (order : Order) (medicine : Medicine) (quantity : Z)
    (customer : Customer) (st : state) : (exc + OrderResponse) * state :=
  execute S (st_db st) (Refresh (o_id order)) st
    (inr (MkOrderResponse (o_status order) (Some (o_id order)) None),
     trigger_warehouse_webhook S order medicine quantity customer st).

(** [create_order]: an exception before the commit is done leaves nothing
    behind, the session being closed without a commit; one of the reads
    after it leaves the order recorded and the warehouse not notified. *)
Definition create_order (S : server) (payload : OrderCreate) (st : state)
    : (exc + OrderResponse) * state :=
  let db := st_db st in
  execute S db (SelectCustomer (oc_customer_id payload)) st
    match find_customer db (oc_customer_id payload) with
    | None => (inr (rejected "Customer not found"), st)
    | Some customer =>
        execute S db (SelectMedicine (oc_medicine_name payload)) st
          match find_medicine S db (oc_medicine_name payload) with
          | None => (inr (rejected "Medicine not found"), st)
          | Some medicine =>
              if oc_quantity payload <=? 0 then
                (inr (rejected "Quantity must be greater than zero"), st)
              else if m_stock_quantity medicine <? oc_quantity payload then
                (inr (rejected "Insufficient stock"), st)
              else
                let order := new_order S db customer medicine in
                execute S db Flush st
                  (execute S db Commit st
                     (answer_order S order (sold medicine (oc_quantity payload))
                        (oc_quantity payload) customer
                        (MkState (record_order db order medicine (oc_quantity payload))
                           (st_posts st) (st_log st))))
          end
    end.

(** routes/medicine_routes.py: [None] stands for the 404 response
    "Medicine not found". *)
Definition check_medicine_availability (S : server) (medicine_name : string) (db : database)
    : exc + option MedicineAvailability :=
  match db_fault S db (SelectMedicine medicine_name) with
  | Some e => inl e
  | None =>
      match find_medicine S db medicine_name with
      | None => inr None
      | Some medicine =>
          inr (Some (MkMedicineAvailability (0 <? m_stock_quantity medicine)
                       (m_stock_quantity medicine) (m_prescription_required medicine)))
      end
  end.

(** The statements that come before anything is recorded, and those up to
    the commit. *)
Definition query_fault (S : server) (payload : OrderCreate) (db : database) : option exc :=
  match db_fault S db (SelectCustomer (oc_customer_id payload)) with
  | Some e => Some e
  | None =>
      match find_customer db (oc_customer_id payload) with
      | None => None
      | Some _ => db_fault S db (SelectMedicine (oc_medicine_name payload))
      end
  end.

Definition write_fault (S : server) (db : database) : option exc :=
  match db_fault S db Flush with
  | Some e => Some e
  | None => db_fault S db Commit
  end.

(** The posts one order adds: none without a configured URL, else one to
    that URL with the order id and the payload. *)
Definition webhook_posts (S : server) (order_id : Z) (payload : value)
    : list (string * value) :=
  match WAREHOUSE_WEBHOOK_URL S with
  | None => []
  | Some url =>
      if String.eqb url "" then []
      else [(url, VDict [("order_id", VInt order_id); ("payload", payload)])]
  end.

(** [send_mock_webhook] lets an exception through. *)
Definition webhook_raises (S : server) (order_id : Z) (payload : value) (st : state) : bool :=
  match fst (send_mock_webhook S order_id payload st) with
  | inl _ => true
  | inr _ => false
  end.

(** The units in stock and the units sold. *)
Definition total_stock (db : database) : Z :=
  fold_right Z.add 0 (map m_stock_quantity (medicines db)).

Definition total_sold (db : database) : Z :=
  fold_right Z.add 0 (map i_quantity (order_items db)).

(** services/refill_service.py.  An alert is the dictionary with the four
    keys of lines 47 to 52.  The calendar gives the current date and the two
    [isoformat]s; 3652059 is the ordinal of the last date Python has, beyond
    which adding a [timedelta] raises OverflowError. *)
Record Alert : Type := MkAlert
  { a_medicine_name : string;
    a_last_purchase_date : string;
    a_estimated_refill_due_date : string;
    a_days_overdue : Z }.

Record calendar : Type := MkCalendar
  { today : Z;
    datetime_isoformat : datetime -> string;
    date_isoformat : Z -> string }.

Definition date_max : Z := 3652059.

Definition datetime_leb (a b : datetime) : bool :=
  (dt_day a <? dt_day b) || ((dt_day a =? dt_day b) && (dt_time a <=? dt_time b)).

(** [sorted(dates)]. *)
Fixpoint insert_date (x : datetime) (l : list datetime) : list datetime :=
  match l with
  | [] => [x]
  | y :: rest => if datetime_leb x y then x :: y :: rest else y :: insert_date x rest
  end.

Definition sorted (dates : list datetime) : list datetime :=
  fold_right insert_date [] dates.

(** The loop of lines 33 to 36: the positive differences, in days, between
    the dates of consecutive purchases. *)
Fixpoint positive_deltas (dates : list datetime) : list Z :=
  match dates with
  | a :: (b :: _) as rest =>
      let delta_days := dt_day b - dt_day a in
      ((if 0 <? delta_days then [delta_days] else []) ++ positive_deltas rest)%list
  | _ => []
  end.

(** The whole days of [timedelta(days=avg_interval_days)], which are all
    that is added to a date: the average is a quotient of a sum of day
    counts by their number, and its whole days are the rounded-down
    quotient. *)
Definition interval_days (dates : list datetime) : Z :=
  match dates with
  | [_] => 30
  | _ =>
      match positive_deltas dates with
      | [] => 30
      | deltas => fold_right Z.add 0 deltas / Z.of_nat (length deltas)
      end
  end.

Definition _compute_alerts_for_medicine (C : calendar) (dates : list datetime)
    (medicine_name : string) : exc + option Alert :=
  match dates with
  | [] => inr None
  | first :: _ =>
      let dates := sorted dates in
      let last_purchase := last dates first in
      let estimated_due_date := dt_day last_purchase + interval_days dates in
      if date_max <? estimated_due_date then
        inl (Exc OverflowError "date value out of range")
      else if today C <=? estimated_due_date then inr None
      else
        inr (Some (MkAlert medicine_name (datetime_isoformat C last_purchase)
                     (date_isoformat C estimated_due_date)
                     (today C - estimated_due_date)))
  end.

(** A row of the query of lines 71 to 82: medicine id, medicine name and
    the order's creation time, which only counts when it is a datetime. *)
Definition purchase_row : Type := (Z * string * option datetime)%type.

(** [purchases], in the order its keys were first seen. *)
Fixpoint record_purchase (med_id : Z) (med_name : string) (created_at : option datetime)
    (purchases : list (Z * (string * list datetime))) : list (Z * (string * list datetime)) :=
  match purchases with
  | [] =>
      [(med_id, (med_name, match created_at with Some d => [d] | None => [] end))]
  | (k, (name, dates)) :: rest =>
      if k =? med_id then
        (k, (name, (dates ++ match created_at with Some d => [d] | None => [] end)%list)) :: rest
      else (k, (name, dates)) :: record_purchase med_id med_name created_at rest
  end.

Definition group_purchases (rows : list purchase_row) : list (Z * (string * list datetime)) :=
  fold_left (fun purchases row =>
               match row with
               | (med_id, med_name, created_at) =>
                   record_purchase med_id med_name created_at purchases
               end) rows [].

(** The loop of lines 97 to 103; an exception ends it. *)
Fixpoint collect_alerts (C : calendar) (purchases : list (Z * (string * list datetime)))
    : exc + list Alert :=
  match purchases with
  | [] => inr []
  | (_, (name, dates)) :: rest =>
      match _compute_alerts_for_medicine C dates name with
      | inl e => inl e
      | inr alert =>
          match collect_alerts C rest with
          | inl e => inl e
          | inr alerts =>
              inr (match alert with Some a => a :: alerts | None => alerts end)
          end
      end
  end.

(** [alerts.sort(key=..., reverse=True)]: most overdue first, alerts of
    equal key in their original order. *)
Fixpoint insert_alert (a : Alert) (l : list Alert) : list Alert :=
  match l with
  | [] => [a]
  | b :: rest =>
      if a_days_overdue a <? a_days_overdue b then b :: insert_alert a rest
      else a :: b :: rest
  end.

Definition sort_alerts (alerts : list Alert) : list Alert :=
  fold_right insert_alert [] alerts.

(** [get_refill_alerts_for_customer], from the outcome of its query. *)
Definition get_refill_alerts_for_customer (C : calendar) (query : exc + list purchase_row)
    : list Alert :=
  match query with
  | inl _ => []
  | inr [] => []
  | inr rows =>
      match collect_alerts C (group_purchases rows) with
      | inl _ => []
      | inr alerts => sort_alerts alerts
      end
  end.

End Backend.

(** ** Further samples *)

(** The history entry of the registry and an invocation whose arguments
    decode to a JSON array. *)
Definition history_handler (E : env) : pyfun :=
  PyFun ["customer_id"] (fun arg => get_customer_history E (arg "customer_id")).

Definition positional_call : tool_call :=
  ToolCall "call_1" "get_customer_history" (Some "[12]").

(** A text nested beyond what [json.loads] decodes, 100000 opening brackets
    and as many closing ones; a model whose final text it is; an invocation
    of a capability that is not registered with that text as its arguments,
    and the model that requests it; and a model that asks for the customer's
    history with that text as the arguments. *)
Fixpoint repeat_char (c : ascii) (n : nat) : string :=
  match n with
  | O => EmptyString
  | S n' => String c (repeat_char c n')
  end.

Definition deep_text : string :=
  repeat_char "["%char (100 * 1000) ++ repeat_char "]"%char (100 * 1000).

Definition deep_answer_model : nat -> list message -> exc + response :=
  fun _ _ => inr (Response [ChoiceMessage (Some deep_text) None]).

Definition weather_call : tool_call := ToolCall "call_1" "lookup_weather" (Some deep_text).

Definition weather_model : nat -> list message -> exc + response :=
  fun _ _ => inr (Response [ChoiceMessage None (Some [weather_call])]).

Definition deep_history_call : tool_call :=
  ToolCall "call_1" "get_customer_history" (Some deep_text).

Definition deep_history_model : nat -> list message -> exc + response :=
  fun _ _ => inr (Response [ChoiceMessage None (Some [deep_history_call])]).

(** Three backends: one whose body is nested too deep for
    [response.json()], one that reports the stock as the JSON number 1e999,
    which decodes to the float infinity, and one in front of which
    [requests] refuses a payload with a NaN in it with an InvalidJSONError,
    a RequestException, as it does since version 2.26. *)
Definition deep_body_server : nat -> http_request -> http_outcome :=
  fun _ req =>
    Responded (HttpResponse 200 "OK" (req_url req)
                 (inl (Exc RecursionError
                         "maximum recursion depth exceeded while decoding a JSON array from a unicode string"))).

Definition infinite_stock_server : nat -> http_request -> http_outcome :=
  fun _ req =>
    ok_response req
      (VDict [("available", VBool true); ("stock_quantity", VFloat (S754_infinity false));
              ("prescription_required", VBool false)]).

Fixpoint has_nan (fuel : nat) (v : value) : bool :=
  match fuel with
  | O => false
  | S fuel' =>
      match v with
      | VFloat S754_nan => true
      | VList items => existsb (has_nan fuel') items
      | VDict entries => existsb (fun kv => has_nan fuel' (snd kv)) entries
      | _ => false
      end
  end.

Definition nan_refusing_server : nat -> http_request -> http_outcome :=
  fun _ req =>
    match req_json req with
    | Some payload =>
        if has_nan 8 payload
        then Refused (Exc RequestException
                        "Out of range float values are not JSON compliant")
        else ok_response req (VDict [("status", VStr "approved"); ("order_id", VInt 7)])
    | None => ok_response req (VList [])
    end.

(** A trace whose id is known and whose update succeeds, and the reference
    environment with tracing on. *)
Definition sample_trace : observation := Observation (Some "trace-1") false.

Definition traced_env (model : nat -> list message -> exc + response)
    (server : nat -> http_request -> http_outcome) : env :=
  with_langfuse (Some sample_trace) (reference_env model server).

(** A model whose completion has no choice. *)
Definition choiceless_model : nat -> list message -> exc + response :=
  fun _ _ => inr (Response []).

(** A lower-casing of ASCII letters, which SQL's [lower] and Python's
    [strip] and [lower] agree with on ASCII text without surrounding blanks;
    a backend with two medicines and one customer, no webhook URL and a
    database that numbers its orders from 1 and refuses a customer id
    beyond 64 bits as SQLite does; and an order for it. *)
Fixpoint lower_ascii (s : string) : string :=
  match s with
  | EmptyString => EmptyString
  | String c rest =>
      String (if (65 <=? nat_of_ascii c)%nat && (nat_of_ascii c <=? 90)%nat
              then ascii_of_nat (nat_of_ascii c + 32) else c)
        (lower_ascii rest)
  end.

Definition in_int64 (n : Z) : bool := (- 2 ^ 63 <=? n) && (n <? 2 ^ 63).

Definition sqlite_fault (_ : Backend.database) (stmt : Backend.statement) : option exc :=
  match stmt with
  | Backend.SelectCustomer customer_id =>
      if in_int64 customer_id then None
      else Some (Exc OverflowError "Python int too large to convert to SQLite INTEGER")
  | _ => None
  end.

Definition pharmacy : Backend.server :=
  Backend.MkServer lower_ascii lower_ascii
    (fun ids => 1 + fold_right Z.max 0 ids)
    (Backend.MkDatetime 739000 0) None (fun _ _ _ => inr 200) sqlite_fault.

Definition pharmacy_state : Backend.state :=
  Backend.MkState
    (Backend.MkDatabase
       [Backend.MkCustomer 12 "Asha" (Some "asha@example.com")]
       [Backend.MkMedicine 1 "Paracetamol" 50 false;
        Backend.MkMedicine 2 "Amoxicillin" 20 true]
       [] [])
    [] [].

Definition paracetamol_order : Backend.OrderCreate :=
  Backend.MkOrderCreate 12 "paracetamol" 5.

(** A calendar whose texts are the ordinals in decimal, on day 739100, and
    three purchases, 10 and 20 days apart. *)
Definition ordinal_calendar : Backend.calendar :=
  Backend.MkCalendar 739100 (fun d => decimal (Backend.dt_day d)) decimal.

Definition three_purchases : list Backend.datetime :=
  [Backend.MkDatetime 739010 0; Backend.MkDatetime 739030 0; Backend.MkDatetime 739000 0].

(** * Properties *)

(** ** The monad *)

Lemma bind_ok {A B : Type} (m : M A) (f : A -> M B) (w w' : world) (a : A) :
  m w = (inr a, w') -> bind m f w = f a w'.
Proof. intros H. unfold bind. rewrite H. reflexivity. Qed.

Lemma bind_raise {A B : Type} (m : M A) (f : A -> M B) (w w' : world) (e : exc) :
  m w = (inl e, w') -> bind m f w = (inl e, w').
Proof. intros H. unfold bind. rewrite H. reflexivity. Qed.

Lemma try_except_ok {A : Type} (m : M A) (h : exc -> M A) (w w' : world) (a : A) :
  m w = (inr a, w') -> try_except m h w = (inr a, w').
Proof. intros H. unfold try_except. rewrite H. reflexivity. Qed.

Lemma try_except_raise {A : Type} (m : M A) (h : exc -> M A) (w w' : world) (e : exc) :
  m w = (inl e, w') -> try_except m h w = h e w'.
Proof. intros H. unfold try_except. rewrite H. reflexivity. Qed.

Lemma silent_ret {A : Type} (a : A) : silent (ret a).
Proof. intros w. reflexivity. Qed.

Lemma silent_raise {A : Type} (e : exc) : silent (@raise A e).
Proof. intros w. reflexivity. Qed.

Lemma silent_lift {A : Type} (r : exc + A) : silent (lift r).
Proof. intros w. reflexivity. Qed.

Lemma silent_bind {A B : Type} (m : M A) (f : A -> M B) :
  silent m -> (forall a, silent (f a)) -> silent (bind m f).
Proof.
  intros Hm Hf w. unfold bind. specialize (Hm w).
  destruct (m w) as [[e | a] w1]; simpl in *; [assumption |].
  rewrite Hf. assumption.
Qed.

Lemma silent_try_except {A : Type} (m : M A) (h : exc -> M A) :
  silent m -> (forall e, silent (h e)) -> silent (try_except m h).
Proof.
  intros Hm Hh w. unfold try_except. specialize (Hm w).
  destruct (m w) as [[e | a] w1]; simpl in *; [| assumption].
  rewrite Hh. assumption.
Qed.

Lemma silent_record_span (s : span) : silent (record_span s).
Proof. intros w. reflexivity. Qed.

Create HintDb silent_db.
#[local] Hint Resolve silent_ret silent_raise silent_record_span : silent_db.

(** ** Observability never fails *)

Lemma log_tool_call_run (E : env) (tool_name : string) (w : world) :
  log_tool_call E tool_name w = (inr tt, with_tool_span E tool_name w).
Proof. unfold log_tool_call, with_tool_span. destruct (_is_enabled E); reflexivity. Qed.

Lemma end_trace_returns (E : env) (trace : option observation) (output : value)
    (error : option exc) (w : world) :
  exists meta spans,
    end_trace E trace output error w = (inr meta, World (w_model_calls w) (w_http w) spans).
Proof.
  unfold end_trace, bind, ret, record_span.
  destruct trace as [obs |]; [destruct (update_raises obs) |]; simpl;
    destruct w; eauto.
Qed.

Lemma finish_returns (E : env) (trace : option observation) (result : value)
    (error : option exc) (w : world) :
  exists url spans,
    finish E trace result error w
    = (inr (result, url), World (w_model_calls w) (w_http w) spans).
Proof.
  destruct (end_trace_returns E trace result error w) as (meta & spans & H).
  exists (snd meta), spans. unfold finish. rewrite (bind_ok _ _ _ _ _ H). reflexivity.
Qed.

Lemma create_trace_returns (E : env) (customer_id : Z) (user_input : string) (w : world) :
  exists spans,
    create_trace E customer_id user_input w
    = (inr (langfuse E), World (w_model_calls w) (w_http w) spans).
Proof.
  unfold create_trace, bind, ret, record_span.
  destruct (langfuse E); destruct w; simpl; eauto.
Qed.

(** ** The executor *)

(** An error result never triggers the synthetic webhook span. *)
Lemma order_was_created_error_result (func_name msg : string) :
  order_was_created func_name (error_result msg) = ret false.
Proof.
  unfold order_was_created, error_result.
  destruct (negb (func_name =? "create_order")%string); reflexivity.
Qed.

Lemma execute_error_result (E : env) (dispatch : list (string * pyfun)) (tc : tool_call)
    (args : value) (msg : string) (w w1 : world) :
  decode_arguments E tc = inr args ->
  call_tool dispatch (tc_name tc) args w = (inr (error_result msg), w1) ->
  execute_tool_call E dispatch tc w
  = (inr (error_result msg), with_tool_span E (tc_name tc) w1).
Proof.
  intros Hdec H. unfold execute_tool_call. rewrite Hdec.
  rewrite (bind_ok _ _ w w args eq_refl).
  rewrite (bind_ok _ _ _ _ _ H).
  rewrite (bind_ok _ _ _ _ _ (log_tool_call_run E (tc_name tc) w1)).
  rewrite order_was_created_error_result. reflexivity.
Qed.

(** An exception of [json.loads] that line 241 does not catch leaves the
    executor before the registry is looked at. *)
Lemma execute_decode_raises (E : env) (dispatch : list (string * pyfun)) (tc : tool_call)
    (e : exc) (w : world) :
  decode_arguments E tc = inl e -> execute_tool_call E dispatch tc w = (inl e, w).
Proof. intros H. unfold execute_tool_call. rewrite H. reflexivity. Qed.

Lemma run_tool_calls_step (E : env) (dispatch : list (string * pyfun)) (tc : tool_call)
    (rest : list tool_call) (messages : list message) (r : value) (w w1 : world) :
  execute_tool_call E dispatch tc w = (inr r, w1) ->
  run_tool_calls E dispatch (tc :: rest) messages w
  = run_tool_calls E dispatch rest (messages ++ [tool_message E tc r]) w1.
Proof. intros H. simpl. rewrite (bind_ok _ _ _ _ _ H). reflexivity. Qed.

Lemma run_tool_calls_raise (E : env) (dispatch : list (string * pyfun)) (tc : tool_call)
    (rest : list tool_call) (messages : list message) (e : exc) (w w1 : world) :
  execute_tool_call E dispatch tc w = (inl e, w1) ->
  run_tool_calls E dispatch (tc :: rest) messages w = (inl e, w1).
Proof. intros H. simpl. rewrite (bind_raise _ _ _ _ _ H). reflexivity. Qed.

(** A round of the loop once the model has answered with invocations. *)
Lemma agent_loop_round (E : env) (dispatch : list (string * pyfun))
    (trace : option observation) (steps : nat) (messages : list message) (w w1 : world)
    (resp : response) (choice : choice_message) (others : list choice_message)
    (tc : tool_call) (rest : list tool_call) :
  _call_llm E messages trace w = (inr resp, w1) ->
  choices resp = choice :: others ->
  requested_tool_calls choice = tc :: rest ->
  agent_loop E dispatch trace (S steps) messages w
  = (messages' <- run_tool_calls E dispatch (tc :: rest)
                    (messages ++ [AssistantMsg (cm_content choice) (tc :: rest)]) ;;
     agent_loop E dispatch trace steps messages') w1.
Proof.
  intros Hcall Hchoices Hreq. cbn [agent_loop].
  rewrite (bind_ok _ _ _ _ _ Hcall). unfold first_choice. rewrite Hchoices.
  rewrite (bind_ok _ _ w1 w1 choice eq_refl). rewrite Hreq. reflexivity.
Qed.

(** Whatever happens below the prompt, the caller of [run_with_prompt] gets
    a Final Answer: the handler at the loop boundary takes every exception. *)
Lemma run_with_prompt_returns (E : env) (dispatch : list (string * pyfun))
    (system_prompt user_input : string) (customer_id max_steps : Z) (w : world) :
  exists fa url w',
    run_with_prompt E dispatch system_prompt user_input customer_id max_steps w
    = (inr (fa, url), w').
Proof.
  unfold run_with_prompt.
  destruct (create_trace_returns E customer_id user_input w) as (spans & Ht).
  rewrite (bind_ok _ _ _ _ _ Ht).
  set (w0 := World (w_model_calls w) (w_http w) spans).
  destruct (agent_loop E dispatch (langfuse E) (Z.to_nat max_steps)
              [SystemMsg system_prompt; UserMsg user_input] w0)
    as [[e | [fa url]] w1] eqn:Hloop.
  - rewrite (try_except_raise _ _ _ _ _ Hloop).
    destruct (finish_returns E (langfuse E) (unexpected_error_answer e) (Some e) w1)
      as (url & spans' & Hf).
    rewrite Hf. eauto.
  - rewrite (try_except_ok _ _ _ _ _ Hloop). eauto.
Qed.

(** C7: take a round in which the model requests an invocation whose name
    is not in the registry.  When its arguments decode, or fail to with a
    JSONDecodeError, the invocation yields [{"error": "Unknown tool: <name>"}]
    without raising and the run goes on: the tool message answering it is
    appended, the remaining invocations of the round are executed and the
    next round follows.  When [json.loads] raises anything else on them (a
    RecursionError on deeply nested text), line 241 does not catch it: the
    invocation yields no result, the loop raises, and the run ends at once
    with the answer of the loop boundary. *)
Theorem unknown_tool_is_reported (E : env) (dispatch : list (string * pyfun))
    (trace : option observation) (steps : nat) (messages : list message) (w w1 : world)
    (resp : response) (choice : choice_message) (others : list choice_message)
    (tc : tool_call) (rest : list tool_call) :
  _call_llm E messages trace w = (inr resp, w1) ->
  choices resp = choice :: others ->
  requested_tool_calls choice = tc :: rest ->
  dict_lookup (tc_name tc) dispatch = None ->
  (forall args,
      decode_arguments E tc = inr args ->
      execute_tool_call E dispatch tc w1
      = (inr (VDict [("error", VStr ("Unknown tool: " ++ tc_name tc))]),
         with_tool_span E (tc_name tc) w1)
      /\ agent_loop E dispatch trace (S steps) messages w
         = (messages' <- run_tool_calls E dispatch rest
                           (messages
                            ++ [AssistantMsg (cm_content choice) (tc :: rest);
                                ToolMsg (tc_id tc) (tc_name tc)
                                  (json_dumps E
                                     (VDict [("error",
                                              VStr ("Unknown tool: " ++ tc_name tc))]))]) ;;
            agent_loop E dispatch trace steps messages')
             (with_tool_span E (tc_name tc) w1))
  /\ (forall e,
        decode_arguments E tc = inl e ->
        execute_tool_call E dispatch tc w1 = (inl e, w1)
        /\ agent_loop E dispatch trace (S steps) messages w = (inl e, w1)
        /\ try_except (agent_loop E dispatch trace (S steps) messages)
             (fun e' => finish E trace (unexpected_error_answer e') (Some e')) w
           = finish E trace (unexpected_error_answer e) (Some e) w1).
Proof.
  intros Hcall Hchoices Hreq Hmiss.
  pose proof (agent_loop_round E dispatch trace steps messages w w1 resp choice others tc rest
                Hcall Hchoices Hreq) as Hround.
  split.
  - intros args Hdec.
    assert (Hexec : execute_tool_call E dispatch tc w1
                    = (inr (error_result ("Unknown tool: " ++ tc_name tc)),
                       with_tool_span E (tc_name tc) w1)).
    { apply (execute_error_result E dispatch tc args); [exact Hdec |].
      unfold call_tool. rewrite Hmiss. reflexivity. }
    split; [exact Hexec |].
    rewrite Hround. unfold bind at 1.
    rewrite (run_tool_calls_step E dispatch tc rest _ _ _ _ Hexec).
    rewrite <- app_assoc. reflexivity.
  - intros e Hdec.
    pose proof (execute_decode_raises E dispatch tc e w1 Hdec) as Hexec.
    assert (Hloop : agent_loop E dispatch trace (S steps) messages w = (inl e, w1)).
    { rewrite Hround. unfold bind at 1.
      rewrite (run_tool_calls_raise E dispatch tc rest _ _ _ _ Hexec). reflexivity. }
    split; [exact Hexec |]. split; [exact Hloop |].
    rewrite (try_except_raise _ _ _ _ _ Hloop). reflexivity.
Qed.

Lemma unknown_tool_is_reported_witness :
  _call_llm (reference_env weather_model down_server) [UserMsg "Will it rain?"] None
    empty_world
  = (inr (Response [ChoiceMessage None (Some [weather_call])]),
     World [[UserMsg "Will it rain?"]] [] [])
  /\ dict_lookup (tc_name weather_call) (TOOL_DISPATCH (reference_env weather_model down_server))
     = None
  /\ decode_arguments (reference_env weather_model down_server) weather_call
     = inl (Exc RecursionError
              "maximum recursion depth exceeded while decoding a JSON array from a unicode string")
  /\ agent_loop (reference_env weather_model down_server)
       (TOOL_DISPATCH (reference_env weather_model down_server)) None 5
       [UserMsg "Will it rain?"] empty_world
     = (inl (Exc RecursionError
               "maximum recursion depth exceeded while decoding a JSON array from a unicode string"),
        World [[UserMsg "Will it rain?"]] [] [])
  /\ run_with_prompt (reference_env weather_model down_server)
       (TOOL_DISPATCH (reference_env weather_model down_server))
       "You are a pharmacist assistant." "Will it rain?" 12 5 empty_world
     = (inr (VDict [("message",
                     VStr "Unexpected error in agent: maximum recursion depth exceeded while decoding a JSON array from a unicode string");
                    ("status", VStr "error")], None),
        World [[SystemMsg "You are a pharmacist assistant."; UserMsg "Will it rain?"]] [] []).
Proof.
  assert (Hdec : decode_arguments (reference_env weather_model down_server) weather_call
                 = inl (Exc RecursionError
                          "maximum recursion depth exceeded while decoding a JSON array from a unicode string")).
  { vm_compute. reflexivity. }
  split; [reflexivity |]. split; [reflexivity |]. split; [exact Hdec |].
  split; [| vm_compute; reflexivity].
  exact (proj1 (proj2 (proj2 (unknown_tool_is_reported
                                (reference_env weather_model down_server)
                                (TOOL_DISPATCH (reference_env weather_model down_server))
                                None 4 [UserMsg "Will it rain?"] empty_world
                                (World [[UserMsg "Will it rain?"]] [] [])
                                (Response [ChoiceMessage None (Some [weather_call])])
                                (ChoiceMessage None (Some [weather_call])) [] weather_call []
                                eq_refl eq_refl eq_refl eq_refl) _ Hdec))).
Defined.

(** C8, as amended: when the call of a registered handler raises, the
    executor does not raise; it yields exactly one result, whose error field
    is "Invalid arguments for tool <name>" for a TypeError and
    "Tool <name> raised an exception: <description>" for any other
    exception, and the tool message answering the request is appended. *)
Theorem handler_failure_is_reported (E : env) (dispatch : list (string * pyfun))
    (tc : tool_call) (rest : list tool_call) (messages : list message)
    (tool_fn : pyfun) (args : value) (e : exc) (w w1 : world) :
  dict_lookup (tc_name tc) dispatch = Some tool_fn ->
  decode_arguments E tc = inr args ->
  call_kwargs tool_fn args w = (inl e, w1) ->
  execute_tool_call E dispatch tc w
  = (inr (VDict [("error", VStr (handler_failure_text (tc_name tc) e))]),
     with_tool_span E (tc_name tc) w1)
  /\ run_tool_calls E dispatch (tc :: rest) messages w
     = run_tool_calls E dispatch rest
         (messages ++ [ToolMsg (tc_id tc) (tc_name tc)
                         (json_dumps E (VDict [("error", VStr (handler_failure_text (tc_name tc) e))]))])
         (with_tool_span E (tc_name tc) w1)
  /\ (is_TypeError e = false ->
      handler_failure_text (tc_name tc) e
      = "Tool " ++ tc_name tc ++ " raised an exception: " ++ exc_str e).
Proof.
  intros Hfound Hdec Hraise.
  assert (Hexec : execute_tool_call E dispatch tc w
                  = (inr (error_result (handler_failure_text (tc_name tc) e)),
                     with_tool_span E (tc_name tc) w1)).
  { apply (execute_error_result E dispatch tc args); [exact Hdec |].
    unfold call_tool. rewrite Hfound.
    rewrite (try_except_raise _ _ _ _ _ Hraise).
    unfold handler_failure_text. destruct (is_TypeError e); reflexivity. }
  split; [exact Hexec |]. split.
  - apply (run_tool_calls_step E dispatch tc rest messages _ _ _ Hexec).
  - intros Hcls. unfold handler_failure_text. rewrite Hcls. reflexivity.
Qed.

Lemma handler_failure_is_reported_witness :
  dict_lookup (tc_name availability_call)
    (TOOL_DISPATCH (reference_env offline_model array_server))
  = Some (availability_handler (reference_env offline_model array_server))
  /\ decode_arguments (reference_env offline_model array_server) availability_call
     = inr paracetamol_args
  /\ call_kwargs (availability_handler (reference_env offline_model array_server))
       paracetamol_args empty_world
     = (inl (Exc AttributeError "'list' object has no attribute 'get'"),
        World [] [HttpRequest GET "http://localhost:8000/api/medicines/Paracetamol/availability"
                    None] [])
  /\ execute_tool_call (reference_env offline_model array_server)
       (TOOL_DISPATCH (reference_env offline_model array_server))
       availability_call empty_world
     = (inr (VDict [("error",
                     VStr "Tool check_medicine_availability raised an exception: 'list' object has no attribute 'get'")]),
        World [] [HttpRequest GET "http://localhost:8000/api/medicines/Paracetamol/availability"
                    None] []).
Proof.
  split; [reflexivity |]. split; [reflexivity |]. split; [reflexivity |].
  exact (proj1 (handler_failure_is_reported (reference_env offline_model array_server)
                  (TOOL_DISPATCH (reference_env offline_model array_server))
                  availability_call [] []
                  (availability_handler (reference_env offline_model array_server))
                  paracetamol_args
                  (Exc AttributeError "'list' object has no attribute 'get'")
                  empty_world
                  (World [] [HttpRequest GET
                               "http://localhost:8000/api/medicines/Paracetamol/availability"
                               None] [])
                  eq_refl eq_refl eq_refl)).
Defined.

(** C8, counterexample: the registered availability handler raises a
    TypeError while it runs ([int] of a list), and the executor's result reads
    "Invalid arguments for tool check_medicine_availability": the failure's
    description is not in it. *)
Lemma type_error_description_is_dropped :
  dict_lookup "check_medicine_availability"
    (TOOL_DISPATCH (reference_env offline_model odd_stock_server))
  = Some (availability_handler (reference_env offline_model odd_stock_server))
  /\ decode_arguments (reference_env offline_model odd_stock_server) availability_call
     = inr paracetamol_args
  /\ fst (call_kwargs (availability_handler (reference_env offline_model odd_stock_server))
            paracetamol_args empty_world)
     = inl (Exc TypeError int_of_list_text)
  /\ fst (execute_tool_call (reference_env offline_model odd_stock_server)
            (TOOL_DISPATCH (reference_env offline_model odd_stock_server))
            availability_call empty_world)
     = inr (VDict [("error", VStr "Invalid arguments for tool check_medicine_availability")])
  /\ contains int_of_list_text "Invalid arguments for tool check_medicine_availability" = false.
Proof. repeat split; vm_compute; reflexivity. Qed.

(** Every function of the registry has a required parameter, so none accepts
    the empty mapping. *)
Lemma registry_rejects_empty_arguments (E : env) (func_name : string) (tool_fn : pyfun)
    (w : world) :
  dict_lookup func_name (TOOL_DISPATCH E) = Some tool_fn ->
  exists e, call_kwargs tool_fn (VDict []) w = (inl e, w) /\ is_TypeError e = true.
Proof.
  unfold TOOL_DISPATCH. simpl. intros H.
  repeat match type of H with
         | (if ?c then _ else _) = _ => destruct c
         end;
    try discriminate; injection H as <-; eexists; split; reflexivity.
Qed.

(** C5, as amended: when the raw arguments of an invocation are not JSON,
    so that [json.loads] raises a JSONDecodeError, the executor does not
    raise and yields a result with an error field; the undecodable text is
    replaced by the empty mapping, so the error is
    "Invalid arguments for tool <name>" when the name is registered and
    "Unknown tool: <name>" when it is not. *)
Theorem undecodable_arguments_are_reported (E : env) (tc : tool_call) (e : exc) (w : world) :
  json_loads E (raw_arguments tc) = inl e ->
  is_JSONDecodeError e = true ->
  execute_tool_call E (TOOL_DISPATCH E) tc w
  = (inr (VDict [("error",
                  VStr (if is_registered E (tc_name tc)
                        then "Invalid arguments for tool " ++ tc_name tc
                        else "Unknown tool: " ++ tc_name tc))]),
     with_tool_span E (tc_name tc) w).
Proof.
  intros Hdec Hcls.
  apply (execute_error_result E (TOOL_DISPATCH E) tc (VDict [])).
  { unfold decode_arguments. rewrite Hdec, Hcls. reflexivity. }
  unfold call_tool, is_registered.
  destruct (dict_lookup (tc_name tc) (TOOL_DISPATCH E)) as [tool_fn |] eqn:Hlook;
    [| reflexivity].
  destruct (registry_rejects_empty_arguments E _ _ w Hlook) as (e' & Hcall & Hcls').
  rewrite (try_except_raise _ _ _ _ _ Hcall). rewrite Hcls'. reflexivity.
Qed.

Lemma undecodable_arguments_are_reported_witness :
  json_loads (reference_env offline_model down_server) (raw_arguments undecodable_call)
  = inl (Exc JSONDecodeError "Expecting value: line 1 column 1 (char 0)")
  /\ is_JSONDecodeError (Exc JSONDecodeError "Expecting value: line 1 column 1 (char 0)") = true
  /\ execute_tool_call (reference_env offline_model down_server)
       (TOOL_DISPATCH (reference_env offline_model down_server)) undecodable_call empty_world
     = (inr (VDict [("error", VStr "Invalid arguments for tool get_customer_history")]),
        empty_world).
Proof.
  split; [reflexivity |]. split; [reflexivity |].
  exact (undecodable_arguments_are_reported (reference_env offline_model down_server)
           undecodable_call (Exc JSONDecodeError "Expecting value: line 1 column 1 (char 0)")
           empty_world eq_refl eq_refl).
Defined.

(** C5, counterexample: the arguments of this invocation are not JSON and
    its name is not registered; the result reads "Unknown tool: lookup_weather"
    and says nothing of the arguments. *)
Lemma undecodable_arguments_of_unknown_tool :
  is_JSONDecodeError (Exc JSONDecodeError "Expecting value: line 1 column 1 (char 0)") = true
  /\ json_loads (reference_env offline_model down_server)
       (raw_arguments (ToolCall "call_1" "lookup_weather" (Some "{city: Pune")))
     = inl (Exc JSONDecodeError "Expecting value: line 1 column 1 (char 0)")
  /\ execute_tool_call (reference_env offline_model down_server)
       (TOOL_DISPATCH (reference_env offline_model down_server))
       (ToolCall "call_1" "lookup_weather" (Some "{city: Pune")) empty_world
     = (inr (VDict [("error", VStr "Unknown tool: lookup_weather")]), empty_world)
  /\ contains "argument" "Unknown tool: lookup_weather" = false.
Proof. repeat split; vm_compute; reflexivity. Qed.

(** ** The loop *)

Lemma run_with_prompt_passes_answer (E : env) (dispatch : list (string * pyfun))
    (system_prompt user_input : string) (customer_id max_steps : Z) (w : world) :
  exists spans,
    create_trace E customer_id user_input w
    = (inr (langfuse E), World (w_model_calls w) (w_http w) spans)
    /\ forall answer w',
         agent_loop E dispatch (langfuse E) (Z.to_nat max_steps)
           [SystemMsg system_prompt; UserMsg user_input]
           (World (w_model_calls w) (w_http w) spans) = (inr answer, w') ->
         run_with_prompt E dispatch system_prompt user_input customer_id max_steps w
         = (inr answer, w').
Proof.
  destruct (create_trace_returns E customer_id user_input w) as (spans & Ht).
  exists spans. split; [exact Ht |]. intros answer w' Hloop.
  unfold run_with_prompt. rewrite (bind_ok _ _ _ _ _ Ht).
  apply try_except_ok. exact Hloop.
Qed.

(** The loop once the model has answered without invocations. *)
Lemma agent_loop_final (E : env) (dispatch : list (string * pyfun))
    (trace : option observation) (steps : nat) (messages : list message) (w w1 : world)
    (resp : response) (choice : choice_message) (others : list choice_message) :
  _call_llm E messages trace w = (inr resp, w1) ->
  choices resp = choice :: others ->
  requested_tool_calls choice = [] ->
  agent_loop E dispatch trace (S steps) messages w
  = (result <- lift (parse_final_answer E (final_text choice)) ;;
     finish E trace result None) w1.
Proof.
  intros Hcall Hchoices Hnone. cbn [agent_loop].
  rewrite (bind_ok _ _ _ _ _ Hcall). unfold first_choice. rewrite Hchoices.
  rewrite (bind_ok _ _ w1 w1 choice eq_refl). rewrite Hnone. reflexivity.
Qed.

Lemma agent_loop_final_answer (E : env) (dispatch : list (string * pyfun))
    (trace : option observation) (steps : nat) (messages : list message) (w w1 : world)
    (resp : response) (choice : choice_message) (others : list choice_message) (fa : value) :
  _call_llm E messages trace w = (inr resp, w1) ->
  choices resp = choice :: others ->
  requested_tool_calls choice = [] ->
  parse_final_answer E (final_text choice) = inr fa ->
  exists url spans,
    agent_loop E dispatch trace (S steps) messages w
    = (inr (fa, url), World (w_model_calls w1) (w_http w1) spans).
Proof.
  intros Hcall Hchoices Hnone Hparse.
  rewrite (agent_loop_final E dispatch trace steps messages w w1 resp choice others
             Hcall Hchoices Hnone).
  rewrite Hparse. rewrite (bind_ok _ _ w1 w1 fa eq_refl).
  apply finish_returns.
Qed.

(** C6: take a round in which the model's response requests no invocation.
    The loop stops without a further model call.  It returns the decoded
    text when the text decodes to a mapping, and
    [{"message": <raw text>, "status": "unknown"}] when the text decodes to
    anything else or is not JSON ([json.loads] raises a JSONDecodeError); so
    the final text [hello] gives [{"message": "hello", "status": "unknown"}].
    When [json.loads] raises anything else (a RecursionError on deeply
    nested text), line 300 does not catch it: the loop raises and the run
    ends with the answer of the loop boundary, whose status is "error". *)
Theorem final_text_becomes_answer (E : env) (dispatch : list (string * pyfun))
    (trace : option observation) (steps : nat) (messages : list message)
    (w w1 : world) (resp : response) (choice : choice_message) (others : list choice_message) :
  _call_llm E messages trace w = (inr resp, w1) ->
  choices resp = choice :: others ->
  requested_tool_calls choice = [] ->
  (forall d,
      json_loads E (final_text choice) = inr (VDict d) ->
      exists url spans,
        agent_loop E dispatch trace (S steps) messages w
        = (inr (VDict d, url), World (w_model_calls w1) (w_http w1) spans))
  /\ (forall v,
        json_loads E (final_text choice) = inr v -> (forall d, v <> VDict d) ->
        exists url spans,
          agent_loop E dispatch trace (S steps) messages w
          = (inr (VDict [("message", VStr (final_text choice)); ("status", VStr "unknown")],
                  url),
             World (w_model_calls w1) (w_http w1) spans))
  /\ (forall e,
        json_loads E (final_text choice) = inl e -> is_JSONDecodeError e = true ->
        exists url spans,
          agent_loop E dispatch trace (S steps) messages w
          = (inr (VDict [("message", VStr (final_text choice)); ("status", VStr "unknown")],
                  url),
             World (w_model_calls w1) (w_http w1) spans))
  /\ (forall e,
        cm_content choice = Some "hello" ->
        json_loads E "hello" = inl e -> is_JSONDecodeError e = true ->
        exists url spans,
          agent_loop E dispatch trace (S steps) messages w
          = (inr (VDict [("message", VStr "hello"); ("status", VStr "unknown")], url),
             World (w_model_calls w1) (w_http w1) spans))
  /\ (forall e,
        json_loads E (final_text choice) = inl e -> is_JSONDecodeError e = false ->
        agent_loop E dispatch trace (S steps) messages w = (inl e, w1)
        /\ try_except (agent_loop E dispatch trace (S steps) messages)
             (fun e' => finish E trace (unexpected_error_answer e') (Some e')) w
           = finish E trace (unexpected_error_answer e) (Some e) w1).
Proof.
  intros Hcall Hchoices Hnone.
  pose proof (agent_loop_final_answer E dispatch trace steps messages w w1 resp choice others)
    as Hanswer.
  split; [| split; [| split; [| split]]].
  - intros d Hd. apply Hanswer; try assumption.
    unfold parse_final_answer. rewrite Hd. reflexivity.
  - intros v Hv Hnot. apply Hanswer; try assumption.
    unfold parse_final_answer. rewrite Hv.
    destruct v; try reflexivity. exfalso. exact (Hnot _ eq_refl).
  - intros e He Hcls. apply Hanswer; try assumption.
    unfold parse_final_answer. rewrite He, Hcls. reflexivity.
  - intros e Hhello He Hcls.
    assert (Htext : final_text choice = "hello")
      by (unfold final_text; rewrite Hhello; reflexivity).
    apply Hanswer; try assumption.
    unfold parse_final_answer. rewrite Htext, He, Hcls. reflexivity.
  - intros e He Hcls.
    assert (Hloop : agent_loop E dispatch trace (S steps) messages w = (inl e, w1)).
    { rewrite (agent_loop_final E dispatch trace steps messages w w1 resp choice others
                 Hcall Hchoices Hnone).
      unfold parse_final_answer. rewrite He, Hcls. reflexivity. }
    split; [exact Hloop |].
    rewrite (try_except_raise _ _ _ _ _ Hloop). reflexivity.
Qed.

Lemma final_text_becomes_answer_witness :
  _call_llm (reference_env deep_answer_model down_server) [UserMsg "hi"] None empty_world
  = (inr (Response [ChoiceMessage (Some deep_text) None]), World [[UserMsg "hi"]] [] [])
  /\ json_loads (reference_env deep_answer_model down_server) deep_text
     = inl (Exc RecursionError
              "maximum recursion depth exceeded while decoding a JSON array from a unicode string")
  /\ agent_loop (reference_env deep_answer_model down_server)
       (TOOL_DISPATCH (reference_env deep_answer_model down_server)) None 5 [UserMsg "hi"]
       empty_world
     = (inl (Exc RecursionError
               "maximum recursion depth exceeded while decoding a JSON array from a unicode string"),
        World [[UserMsg "hi"]] [] [])
  /\ run_with_prompt (reference_env deep_answer_model down_server)
       (TOOL_DISPATCH (reference_env deep_answer_model down_server))
       "You are a pharmacist assistant." "hi" 12 5 empty_world
     = (inr (VDict [("message",
                     VStr "Unexpected error in agent: maximum recursion depth exceeded while decoding a JSON array from a unicode string");
                    ("status", VStr "error")], None),
        World [[SystemMsg "You are a pharmacist assistant."; UserMsg "hi"]] [] []).
Proof.
  assert (Hdec : json_loads (reference_env deep_answer_model down_server)
                   (final_text (ChoiceMessage (Some deep_text) None))
                 = inl (Exc RecursionError
                          "maximum recursion depth exceeded while decoding a JSON array from a unicode string")).
  { vm_compute. reflexivity. }
  split; [reflexivity |]. split; [exact Hdec |].
  split; [| vm_compute; reflexivity].
  exact (proj1 (proj2 (proj2 (proj2 (proj2
           (final_text_becomes_answer (reference_env deep_answer_model down_server)
              (TOOL_DISPATCH (reference_env deep_answer_model down_server)) None 4
              [UserMsg "hi"] empty_world (World [[UserMsg "hi"]] [] [])
              (Response [ChoiceMessage (Some deep_text) None])
              (ChoiceMessage (Some deep_text) None) [] eq_refl eq_refl eq_refl))))
           _ Hdec eq_refl)).
Defined.

(** ** Tools and tracing never call the model *)

Ltac prove_silent :=
  repeat (intros;
          match goal with
          | |- silent (bind _ _) => apply silent_bind
          | |- silent (try_except _ _) => apply silent_try_except
          | |- silent (ret _) => apply silent_ret
          | |- silent (raise _) => apply silent_raise
          | |- silent (lift _) => apply silent_lift
          | |- silent (record_span _) => apply silent_record_span
          | |- silent (if ?b then _ else _) => destruct b
          | |- silent (match ?x with _ => _ end) => destruct x
          | |- silent _ => solve [auto with silent_db]
          end).

Lemma silent_requests_send (E : env) (req : http_request) : silent (requests_send E req).
Proof.
  intros w. unfold requests_send.
  destruct (backend E (length (w_http w)) req); reflexivity.
Qed.

#[local] Hint Resolve silent_requests_send : silent_db.

Lemma silent_check_medicine_availability (E : env) (medicine_name : value) :
  silent (check_medicine_availability E medicine_name).
Proof.
  unfold check_medicine_availability, except_request_then_value, requests_get,
    raise_for_status, response_json, py_get, py_int.
  prove_silent.
Qed.

Lemma silent_create_order (E : env) (customer_id medicine_name quantity : value) :
  silent (create_order E customer_id medicine_name quantity).
Proof.
  unfold create_order, except_request_then_value, requests_post,
    raise_for_status, response_json, py_get.
  prove_silent.
Qed.

Lemma silent_customer_listing (E : env) (path field : string) :
  silent (customer_listing E path field).
Proof.
  unfold customer_listing, except_request_then_value, requests_get,
    raise_for_status, response_json.
  prove_silent.
Qed.

Lemma TOOL_DISPATCH_silent (E : env) : registry_silent (TOOL_DISPATCH E).
Proof.
  intros func_name tool_fn arg H. unfold TOOL_DISPATCH in H. simpl in H.
  repeat match type of H with
         | (if ?c then _ else _) = _ => destruct c
         end;
    try discriminate; injection H as <-; simpl.
  - apply silent_check_medicine_availability.
  - apply silent_create_order.
  - apply silent_customer_listing.
  - apply silent_customer_listing.
Qed.

(** ** The transcript between two model calls *)


Lemma call_llm_cases (E : env) (messages : list message) (trace : option observation)
    (w : world) :
  (exists e, _call_llm E messages trace w = (inl e, w))
  \/ (exists spans,
        _call_llm E messages trace w
        = (llm E (length (w_model_calls w)) messages,
           World (w_model_calls w ++ [messages]) (w_http w) spans)).
Proof.
  unfold _call_llm, get_client.
  destruct (OPENAI_API_KEY E) as [key |]; [destruct (key =? "")%string eqn:Hkey |].
  - left. eexists. reflexivity.
  - right. unfold bind at 1. unfold ret at 1.
    destruct trace as [obs |].
    + unfold create_span, log_generation, chat_completions_create, bind, ret, record_span.
      destruct (_is_enabled E); simpl;
        destruct (llm E (length (w_model_calls w)) messages); eauto.
    + unfold chat_completions_create. eauto.
  - left. eexists. reflexivity.
Qed.

(** The chain of snapshots, for any registry whose handlers do not call the
    model. *)
Section SilentRegistry.

Variable E : env.
Variable dispatch : list (string * pyfun).
Variable trace : option observation.
Hypothesis Hreg : registry_silent dispatch.

Lemma silent_execute_tool_call (tc : tool_call) :
  silent (execute_tool_call E dispatch tc).
Proof.
  unfold execute_tool_call, call_tool, log_tool_call, order_was_created, py_in_strings.
  destruct (dict_lookup (tc_name tc) dispatch) as [tool_fn |] eqn:Hlook.
  - assert (Hcall : forall args, silent (call_kwargs tool_fn args)).
    { intros args. unfold call_kwargs. prove_silent. eapply Hreg. exact Hlook. }
    prove_silent.
  - prove_silent.
Qed.

Lemma run_tool_calls_appends :
  forall (tool_calls : list tool_call) (messages : list message) (w : world),
    w_model_calls (snd (run_tool_calls E dispatch tool_calls messages w)) = w_model_calls w
    /\ forall messages',
         fst (run_tool_calls E dispatch tool_calls messages w) = inr messages' ->
         exists tool_msgs,
           Forall2 answers tool_calls tool_msgs /\ messages' = (messages ++ tool_msgs)%list.
Proof.
  induction tool_calls as [| tc rest IH]; intros messages w.
  - simpl. split; [reflexivity |]. intros messages' H. injection H as <-.
    exists []. split; [constructor | symmetry; apply app_nil_r].
  - simpl. unfold bind.
    pose proof (silent_execute_tool_call tc w) as Hsil.
    destruct (execute_tool_call E dispatch tc w) as [[e | r] w1]; simpl in Hsil.
    + simpl. split; [exact Hsil | discriminate].
    + destruct (IH (messages ++ [tool_message E tc r])%list w1) as [Hcalls Hmsgs].
      split; [congruence |].
      intros messages' H. destruct (Hmsgs _ H) as (tool_msgs & Hall & ->).
      exists (tool_message E tc r :: tool_msgs). split.
      * constructor; [| exact Hall]. unfold answers, tool_message. eauto.
      * rewrite <- app_assoc. reflexivity.
Qed.


End SilentRegistry.


(** ** Where a Final Answer comes from *)

Lemma system_prompt_format_raises (E : env) (customer_id : Z) :
  str_format E SYSTEM_PROMPT_TEMPLATE [("customer_id", VInt customer_id)]
  = inl (Exc KeyError (py_repr_str missing_key)).
Proof. vm_compute. reflexivity. Qed.

Lemma agent_loop_answer_source (E : env) (dispatch : list (string * pyfun))
    (trace : option observation) :
  forall (steps : nat) (messages : list message) (w w' : world) (fa : value)
         (url : option string),
    agent_loop E dispatch trace steps messages w = (inr (fa, url), w') ->
    fa = step_limit_answer
    \/ exists choice,
         last_model_answer E w' choice
         /\ parse_final_answer E (final_text choice) = inr fa.
Proof.
  induction steps as [| steps IH]; intros messages w w' fa url Hrun.
  - cbn [agent_loop] in Hrun.
    destruct (finish_returns E trace step_limit_answer None w) as (u & spans & Hf).
    rewrite Hf in Hrun. injection Hrun as <- _ _. left. reflexivity.
  - cbn [agent_loop] in Hrun.
    destruct (call_llm_cases E messages trace w) as [(e & Hcall) | (spans & Hcall)].
    { rewrite (bind_raise _ _ _ _ _ Hcall) in Hrun. discriminate. }
    set (w1 := World (w_model_calls w ++ [messages]) (w_http w) spans) in *.
    destruct (llm E (length (w_model_calls w)) messages) as [e | resp] eqn:Hllm.
    { rewrite (bind_raise _ _ _ _ _ Hcall) in Hrun. discriminate. }
    rewrite (bind_ok _ _ _ _ _ Hcall) in Hrun. unfold first_choice in Hrun.
    destruct (choices resp) as [| choice others] eqn:Hchoices.
    { discriminate. }
    rewrite (bind_ok _ _ w1 w1 choice eq_refl) in Hrun.
    destruct (requested_tool_calls choice) as [| tc tcs] eqn:Hreq.
    { destruct (parse_final_answer E (final_text choice)) as [e | fa'] eqn:Hparse.
      - discriminate.
      - rewrite (bind_ok _ _ w1 w1 fa' eq_refl) in Hrun.
        destruct (finish_returns E trace fa' None w1) as (u & spans' & Hf).
        rewrite Hf in Hrun. injection Hrun as <- _ <-.
        right. exists choice. split; [| exact Hparse].
        exists (w_model_calls w), messages, resp, others.
        repeat split; assumption. }
    destruct (run_tool_calls E dispatch (tc :: tcs)
                (messages ++ [AssistantMsg (cm_content choice) (tc :: tcs)])%list w1)
      as [[e | messages'] w2] eqn:Htools.
    { rewrite (bind_raise _ _ _ _ _ Htools) in Hrun. discriminate. }
    rewrite (bind_ok _ _ _ _ _ Htools) in Hrun.
    exact (IH _ _ _ _ _ Hrun).
Qed.

Lemma parse_final_answer_cases (E : env) (content : string) (fa : value) :
  parse_final_answer E content = inr fa ->
  (exists d, json_loads E content = inr (VDict d) /\ fa = VDict d)
  \/ (fa = wrapped_text content /\ forall d, json_loads E content <> inr (VDict d)).
Proof.
  unfold parse_final_answer.
  destruct (json_loads E content) as [e | v] eqn:Hdec.
  - destruct (is_JSONDecodeError e); [| discriminate].
    intros H. injection H as <-. right. split; [reflexivity | discriminate].
  - destruct v; intros H; injection H as <-;
      try (right; split; [reflexivity | discriminate]).
    left. eauto.
Qed.

(** C2: [run_agent] returns no Final Answer, whatever its input: it raises
    KeyError on the prompt template.  Below the prompt a Final Answer is
    always returned.  Either it is the mapping that the final text of the
    last model call decodes to, returned as the model wrote it, whatever
    status it carries; or it is one of the loop's own answers, a message
    with a status of the closed set: "unknown" around the final text of the
    last model call when that text does not decode to a mapping, "error"
    when the step limit is reached or a failure is caught at the loop
    boundary. *)
Theorem final_answer_status (E : env) (dispatch : list (string * pyfun))
    (system_prompt user_input : string) (customer_id max_steps : Z) (w : world) :
  run_agent E user_input customer_id max_steps w
  = (inl (Exc KeyError ("' " ++ quoted "message" ++ "'")), w)
  /\ exists fa url w',
       run_with_prompt E dispatch system_prompt user_input customer_id max_steps w
       = (inr (fa, url), w')
       /\ ((exists choice d,
               last_model_answer E w' choice
               /\ json_loads E (final_text choice) = inr (VDict d)
               /\ fa = VDict d)
           \/ (exists text status,
                 fa = VDict [("message", VStr text); ("status", VStr status)]
                 /\ In status closed_statuses
                 /\ ((status = "unknown"
                      /\ exists choice,
                           last_model_answer E w' choice
                           /\ text = final_text choice
                           /\ forall d, json_loads E text <> inr (VDict d))
                     \/ (status = "error"
                         /\ (fa = step_limit_answer
                             \/ exists e, fa = unexpected_error_answer e))))).
Proof.
  split.
  { unfold run_agent. unfold bind, lift.
    rewrite system_prompt_format_raises. reflexivity. }
  unfold run_with_prompt.
  destruct (create_trace_returns E customer_id user_input w) as (spans & Ht).
  rewrite (bind_ok _ _ _ _ _ Ht).
  set (w0 := World (w_model_calls w) (w_http w) spans).
  destruct (agent_loop E dispatch (langfuse E) (Z.to_nat max_steps)
              [SystemMsg system_prompt; UserMsg user_input] w0)
    as [[e | [fa url]] w1] eqn:Hloop.
  - rewrite (try_except_raise _ _ _ _ _ Hloop).
    destruct (finish_returns E (langfuse E) (unexpected_error_answer e) (Some e) w1)
      as (url & spans' & Hf).
    rewrite Hf. do 3 eexists. split; [reflexivity |].
    right. exists ("Unexpected error in agent: " ++ exc_str e), "error".
    split; [reflexivity |]. split; [simpl; tauto |].
    right. split; [reflexivity |]. right. exists e. reflexivity.
  - rewrite (try_except_ok _ _ _ _ _ Hloop). do 3 eexists. split; [reflexivity |].
    destruct (agent_loop_answer_source E dispatch _ _ _ _ _ _ _ Hloop)
      as [-> | (choice & Hlast & Hparse)].
    + right. do 2 eexists. split; [reflexivity |]. split; [simpl; tauto |].
      right. split; [reflexivity |]. left. reflexivity.
    + destruct (parse_final_answer_cases E _ _ Hparse) as [(d & Hdec & ->) | [-> Hnot]].
      * left. exists choice, d. repeat split; assumption.
      * right. exists (final_text choice), "unknown".
        split; [reflexivity |]. split; [simpl; tauto |].
        left. split; [reflexivity |]. exists choice. repeat split; assumption.
Qed.

(** Below the prompt, a final text that decodes to a mapping whose status is
    "shipped" is returned unchanged, and "shipped" is not in the closed
    set. *)
Example shipped_answer_is_returned :
  fst (run_with_prompt (reference_env shipped_model down_server)
         (TOOL_DISPATCH (reference_env shipped_model down_server))
         "You are a pharmacist assistant." "Where is my order?" 12 5 empty_world)
  = inr (VDict [("message", VStr "Your order is on its way."); ("status", VStr "shipped")],
         None)
  /\ mem_string "shipped" closed_statuses = false.
Proof. split; vm_compute; reflexivity. Qed.

(** ** The requests of the capability functions *)

Lemma requests_send_run (E : env) (req : http_request) (w : world) :
  requests_send E req w
  = (match backend E (length (w_http w)) req with
     | Refused e => inl e
     | Unreachable description => inl (Exc RequestException description)
     | Responded resp => inr resp
     end,
     after_outcome w req (backend E (length (w_http w)) req)).
Proof.
  unfold requests_send, after_outcome, after_request.
  destruct (backend E (length (w_http w)) req); reflexivity.
Qed.

Lemma checked_json_bind {A : Type} (E : env) (resp : http_response) (K : value -> M A)
    (w : world) :
  (raise_for_status E resp ;;; data <- response_json resp ;; K data) w
  = match decoded_body E (Responded resp) with
    | inl e => (inl e, w)
    | inr data => K data w
    end.
Proof.
  unfold raise_for_status, decoded_body, is_http_error, status_error, response_json,
    bind, raise, ret, lift.
  destruct (Z.leb_spec 400 (resp_status_code resp)),
    (Z.ltb_spec (resp_status_code resp) 500),
    (Z.leb_spec 500 (resp_status_code resp)),
    (Z.ltb_spec (resp_status_code resp) 600);
    simpl; try reflexivity; try lia;
    destruct (resp_json resp); reflexivity.
Qed.

Lemma customer_listing_run (E : env) (path field : string) (w : world) :
  customer_listing E path field w
  = (listing_outcome E field
       (backend E (length (w_http w)) (HttpRequest GET (_build_url E path) None)),
     after_outcome w (HttpRequest GET (_build_url E path) None)
       (backend E (length (w_http w)) (HttpRequest GET (_build_url E path) None))).
Proof.
  unfold customer_listing, except_request_then_value, try_except, requests_get.
  unfold bind at 1. rewrite requests_send_run.
  unfold listing_outcome, listing_failure, tool_error_text, is_not_found.
  destruct (backend E (length (w_http w)) _) as [e | description | resp].
  - cbn [decoded_body after_outcome].
    destruct (is_RequestException e); [| destruct (is_ValueError e)]; reflexivity.
  - reflexivity.
  - cbn [after_outcome].
    destruct (resp_status_code resp =? 404); [reflexivity |].
    rewrite checked_json_bind.
    destruct (decoded_body E (Responded resp)) as [e | data]; [| reflexivity].
    destruct (is_RequestException e); [| destruct (is_ValueError e)]; reflexivity.
Qed.

Lemma create_order_run (E : env) (customer_id medicine_name quantity : value) (w : world) :
  create_order E customer_id medicine_name quantity w
  = (order_outcome E
       (backend E (length (w_http w)) (order_request E customer_id medicine_name quantity)),
     after_outcome w (order_request E customer_id medicine_name quantity)
       (backend E (length (w_http w)) (order_request E customer_id medicine_name quantity))).
Proof.
  unfold create_order, except_request_then_value, try_except, requests_post, order_request.
  unfold bind at 1. rewrite requests_send_run.
  unfold order_outcome, order_failure.
  destruct (backend E (length (w_http w)) _) as [e | description | resp].
  - cbn [decoded_body after_outcome].
    destruct (is_RequestException e); [| destruct (is_ValueError e)]; reflexivity.
  - reflexivity.
  - cbn [after_outcome].
    rewrite checked_json_bind.
    destruct (decoded_body E (Responded resp)) as [e | data].
    + destruct (is_RequestException e); [| destruct (is_ValueError e)]; reflexivity.
    + destruct data; reflexivity.
Qed.

Lemma check_medicine_availability_run (E : env) (medicine_name : value) (w : world) :
  check_medicine_availability E medicine_name w
  = (availability_outcome E
       (backend E (length (w_http w)) (availability_request E medicine_name)),
     after_outcome w (availability_request E medicine_name)
       (backend E (length (w_http w)) (availability_request E medicine_name))).
Proof.
  unfold check_medicine_availability, except_request_then_value, try_except, requests_get,
    availability_request.
  unfold bind at 1. rewrite requests_send_run.
  unfold availability_outcome, availability_failure, tool_error_text, is_not_found.
  destruct (backend E (length (w_http w)) _) as [e | description | resp].
  - cbn [decoded_body after_outcome].
    destruct (is_RequestException e); [| destruct (is_ValueError e)]; reflexivity.
  - reflexivity.
  - cbn [after_outcome].
    destruct (resp_status_code resp =? 404); [reflexivity |].
    rewrite checked_json_bind.
    destruct (decoded_body E (Responded resp)) as [e | data].
    + destruct (is_RequestException e); [| destruct (is_ValueError e)]; reflexivity.
    + destruct data; try reflexivity.
      unfold bind, lift, py_get, ret.
      destruct (py_int E _) as [e | stock]; [| reflexivity].
      destruct (is_RequestException e); [| destruct (is_ValueError e)]; reflexivity.
Qed.

(** ** The step budget *)

Lemma call_llm_with_key (E : env) (messages : list message) (trace : option observation)
    (w : world) :
  api_key_configured E = true ->
  exists spans,
    _call_llm E messages trace w
    = (llm E (length (w_model_calls w)) messages,
       World (w_model_calls w ++ [messages]) (w_http w) spans).
Proof.
  intros Hkey.
  destruct (call_llm_cases E messages trace w) as [(e & Hcall) | Hcall]; [| exact Hcall].
  exfalso. unfold _call_llm, get_client, api_key_configured in *.
  destruct (OPENAI_API_KEY E) as [key |]; [| discriminate].
  destruct (key =? "")%string; [discriminate |].
  unfold bind at 1 in Hcall. unfold ret at 1 in Hcall.
  destruct trace.
  - unfold create_span, log_generation, chat_completions_create, bind, ret, record_span
      in Hcall.
    destruct (_is_enabled E); simpl in Hcall;
      destruct (llm E (length (w_model_calls w)) messages); injection Hcall as _ Hw;
      apply (f_equal w_model_calls) in Hw; simpl in Hw;
      apply (f_equal (@length _)) in Hw; rewrite length_app in Hw; simpl in Hw; lia.
  - unfold chat_completions_create in Hcall. injection Hcall as _ Hw.
    apply (f_equal w_model_calls) in Hw; simpl in Hw.
    apply (f_equal (@length _)) in Hw; rewrite length_app in Hw; simpl in Hw; lia.
Qed.

Lemma call_tool_returns (dispatch : list (string * pyfun)) (func_name : string)
    (args : value) (w : world) :
  exists r w', call_tool dispatch func_name args w = (inr r, w').
Proof.
  unfold call_tool. destruct (dict_lookup func_name dispatch) as [tool_fn |].
  - unfold try_except. destruct (call_kwargs tool_fn args w) as [[e | r] w1].
    + destruct (is_TypeError e); unfold ret; eauto.
    + eauto.
  - unfold ret. eauto.
Qed.

Lemma order_result_is_safe (status order_id reason error : value) (w : world) :
  hashable status = true ->
  exists b, order_was_created "create_order" (order_result status order_id reason error) w
            = (inr b, w).
Proof.
  intros Hh. unfold order_was_created, order_result, py_in_strings, dict_get, ret. simpl.
  destruct (is_none order_id); [eauto |].
  destruct status; simpl in *; try discriminate; eauto.
Qed.

Lemma create_order_result (E : env) (customer_id medicine_name quantity : value)
    (w w' : world) (r : value) :
  statuses_hashable E ->
  create_order E customer_id medicine_name quantity w = (inr r, w') ->
  exists status order_id reason error,
    r = order_result status order_id reason error /\ hashable status = true.
Proof.
  intros Hhash. rewrite create_order_run.
  unfold order_outcome, order_failure, decoded_body.
  destruct (backend E (length (w_http w)) _) as [e | description | resp] eqn:Hb.
  - destruct (is_RequestException e); [| destruct (is_ValueError e)];
      intros H; try discriminate; injection H as <- _; do 4 eexists; split; reflexivity.
  - intros H. injection H as <- _. do 4 eexists. split; reflexivity.
  - destruct (is_http_error (resp_status_code resp)).
    { intros H. injection H as <- _. do 4 eexists. split; reflexivity. }
    destruct (resp_json resp) as [e | data] eqn:Hjson.
    + destruct (is_RequestException e); [| destruct (is_ValueError e)];
        intros H; try discriminate; injection H as <- _; do 4 eexists; split; reflexivity.
    + destruct data; intros H; try discriminate.
      injection H as <- _. do 4 eexists. split; [reflexivity |].
      exact (Hhash _ _ _ _ Hb Hjson).
Qed.

Lemma execute_tool_call_returns (E : env) (tc : tool_call) (args : value) (w : world) :
  statuses_hashable E ->
  decode_arguments E tc = inr args ->
  exists r w', execute_tool_call E (TOOL_DISPATCH E) tc w = (inr r, w').
Proof.
  intros Hhash Hdec. unfold execute_tool_call. rewrite Hdec.
  rewrite (bind_ok _ _ w w args eq_refl).
  destruct (call_tool_returns (TOOL_DISPATCH E) (tc_name tc) args w)
    as (r & w1 & Hcall).
  rewrite (bind_ok _ _ _ _ _ Hcall).
  rewrite (bind_ok _ _ _ _ _ (log_tool_call_run E (tc_name tc) w1)).
  assert (Hsafe : exists b, order_was_created (tc_name tc) r (with_tool_span E (tc_name tc) w1)
                            = (inr b, with_tool_span E (tc_name tc) w1)).
  { destruct (tc_name tc =? "create_order")%string eqn:Hname.
    - apply String.eqb_eq in Hname. rewrite Hname in *.
      unfold call_tool in Hcall. simpl in Hcall. unfold try_except in Hcall.
      destruct (call_kwargs _ args w) as [[e | r0] w0] eqn:Hk.
      + destruct (is_TypeError e); injection Hcall as <- _;
          rewrite order_was_created_error_result; exists false; reflexivity.
      + injection Hcall as <- _.
        unfold call_kwargs in Hk.
        destruct args; try discriminate.
        repeat match type of Hk with
               | (if ?c then _ else _) _ = _ => destruct c; try discriminate
               end.
        simpl in Hk.
        destruct (create_order_result E _ _ _ _ _ _ Hhash Hk)
          as (status & order_id & reason & error & -> & Hh).
        apply order_result_is_safe. exact Hh.
    - unfold order_was_created. rewrite Hname. simpl. exists false. reflexivity. }
  destruct Hsafe as (b & Hsafe). rewrite (bind_ok _ _ _ _ _ Hsafe).
  destruct b.
  - rewrite (bind_ok _ _ _ _ _ (log_tool_call_run E "warehouse_webhook" _)).
    unfold ret. eauto.
  - unfold bind, ret. eauto.
Qed.

Lemma run_tool_calls_returns (E : env) :
  statuses_hashable E ->
  forall (tool_calls : list tool_call) (messages : list message) (w : world),
    (forall tc, In tc tool_calls -> exists args, decode_arguments E tc = inr args) ->
    exists messages' w',
      run_tool_calls E (TOOL_DISPATCH E) tool_calls messages w = (inr messages', w').
Proof.
  intros Hhash. induction tool_calls as [| tc rest IH]; intros messages w Hdec.
  - simpl. unfold ret. eauto.
  - destruct (Hdec tc (or_introl eq_refl)) as (args & Hargs).
    destruct (execute_tool_call_returns E tc args w Hhash Hargs) as (r & w1 & Hexec).
    rewrite (run_tool_calls_step _ _ _ _ _ _ _ _ Hexec). apply IH.
    intros tc' Hin. apply Hdec. right. exact Hin.
Qed.

Lemma agent_loop_budget (E : env) (trace : option observation) :
  api_key_configured E = true ->
  forall (steps : nat) (messages : list message) (w : world),
    (forall k msgs,
        (length (w_model_calls w) <= k < length (w_model_calls w) + steps)%nat ->
        requests_tools (llm E k msgs) = true) ->
    exists r w',
      agent_loop E (TOOL_DISPATCH E) trace steps messages w = (r, w')
      /\ (((exists url, r = inr (step_limit_answer, url))
           /\ length (w_model_calls w') = (length (w_model_calls w) + steps)%nat)
          \/ (exists e k msgs0 resp choice others msgs w0,
                r = inl e
                /\ llm E k msgs0 = inr resp
                /\ choices resp = choice :: others
                /\ fst (run_tool_calls E (TOOL_DISPATCH E) (requested_tool_calls choice)
                          msgs w0) = inl e
                /\ (length (w_model_calls w') <= length (w_model_calls w) + steps)%nat)).
Proof.
  intros Hkey. induction steps as [| steps IH]; intros messages w Hmodel.
  - cbn [agent_loop].
    destruct (finish_returns E trace step_limit_answer None w) as (url & spans & ->).
    do 2 eexists. split; [reflexivity |]. left. split; [eauto | simpl; lia].
  - cbn [agent_loop].
    destruct (call_llm_with_key E messages trace w Hkey) as (spans & Hcall).
    pose proof (Hmodel (length (w_model_calls w)) messages ltac:(lia)) as Hreq.
    set (w1 := World (w_model_calls w ++ [messages]) (w_http w) spans) in *.
    destruct (llm E (length (w_model_calls w)) messages) as [e | [[| choice others]]] eqn:Hllm;
      try discriminate.
    rewrite (bind_ok _ _ _ _ _ Hcall). unfold first_choice.
    cbn [choices]. rewrite (bind_ok _ _ w1 w1 choice eq_refl).
    cbn [requests_tools] in Hreq.
    destruct (requested_tool_calls choice) as [| tc tcs] eqn:Htcs; [discriminate |].
    destruct (run_tool_calls_appends E (TOOL_DISPATCH E) (TOOL_DISPATCH_silent E) (tc :: tcs)
                (messages ++ [AssistantMsg (cm_content choice) (tc :: tcs)])%list w1)
      as [Hsame _].
    destruct (run_tool_calls E (TOOL_DISPATCH E) (tc :: tcs)
                (messages ++ [AssistantMsg (cm_content choice) (tc :: tcs)])%list w1)
      as [[e | messages'] w2] eqn:Hrun; simpl in Hsame.
    + rewrite (bind_raise _ _ _ _ _ Hrun). do 2 eexists. split; [reflexivity |].
      right. exists e, (length (w_model_calls w)), messages,
        (Response (choice :: others)), choice, others,
        (messages ++ [AssistantMsg (cm_content choice) (tc :: tcs)])%list, w1.
      rewrite Htcs, Hrun. split; [reflexivity |]. split; [exact Hllm |].
      split; [reflexivity |]. split; [reflexivity |].
      rewrite Hsame. rewrite length_app. simpl. lia.
    + rewrite (bind_ok _ _ _ _ _ Hrun).
      assert (Hlen : length (w_model_calls w2) = S (length (w_model_calls w))).
      { rewrite Hsame. rewrite length_app. simpl. lia. }
      destruct (IH messages' w2) as (r & w' & Hloop & Hcases).
      { intros k msgs Hk. apply Hmodel. lia. }
      exists r, w'. split; [exact Hloop |].
      destruct Hcases
        as [[Hr Hn] | (e & k & msgs0 & resp & choice' & others' & msgs & w0
                       & Hr & Hllm' & Hch & Hfail & Hn)].
      * left. split; [exact Hr | lia].
      * right. exists e, k, msgs0, resp, choice', others', msgs, w0.
        repeat split; try assumption; lia.
Qed.

(** C4: when the model's response carries at least one requested invocation
    on each of the first max-steps rounds, the run makes at most max-steps
    model calls and ends with a Final Answer whose status is "error" and
    which has no order id.  It is the fixed step-limit answer, after exactly
    max-steps model calls, when every round runs to completion.  A round
    that raises outside the guarded call of the handler ends the run at
    once with the answer of the loop boundary instead: [json.loads] raising
    on the arguments something line 241 does not catch, or the status test
    of line 271 raising on a status that cannot be hashed.  Without those
    two, every round completes. *)
Theorem step_budget_exhausted (E : env) (system_prompt user_input : string)
    (customer_id max_steps : Z) :
  api_key_configured E = true ->
  (forall k msgs, (k < Z.to_nat max_steps)%nat -> requests_tools (llm E k msgs) = true) ->
  exists fa url w',
    run_with_prompt E (TOOL_DISPATCH E) system_prompt user_input customer_id max_steps
      empty_world
    = (inr (fa, url), w')
    /\ (length (w_model_calls w') <= Z.to_nat max_steps)%nat
    /\ dict_field "status" fa = Some (VStr "error")
    /\ dict_field "order_id" fa = None
    /\ ((fa = step_limit_answer /\ length (w_model_calls w') = Z.to_nat max_steps)
        \/ (exists e tool_calls msgs w0,
              fa = unexpected_error_answer e
              /\ fst (run_tool_calls E (TOOL_DISPATCH E) tool_calls msgs w0) = inl e))
    /\ (statuses_hashable E -> arguments_decode E ->
        fa = step_limit_answer /\ length (w_model_calls w') = Z.to_nat max_steps).
Proof.
  intros Hkey Hmodel. unfold run_with_prompt.
  destruct (create_trace_returns E customer_id user_input empty_world) as (spans & Ht).
  rewrite (bind_ok _ _ _ _ _ Ht). cbn [empty_world w_model_calls w_http].
  set (w0 := World [] [] spans).
  destruct (agent_loop_budget E (langfuse E) Hkey (Z.to_nat max_steps)
              [SystemMsg system_prompt; UserMsg user_input] w0)
    as (r & w1 & Hloop & Hcases).
  { intros k msgs Hk. apply Hmodel. simpl in Hk. lia. }
  simpl in Hcases.
  destruct Hcases
    as [[(url & ->) Hn] | (e & k & msgs0 & resp & choice & others & msgs & wf
                           & -> & Hllm & Hch & Hfail & Hn)].
  - rewrite (try_except_ok _ _ _ _ _ Hloop).
    exists step_limit_answer, url, w1.
    split; [reflexivity |]. split; [lia |]. split; [reflexivity |].
    split; [reflexivity |]. split; [left; split; [reflexivity | lia] |].
    intros _ _. split; [reflexivity | lia].
  - rewrite (try_except_raise _ _ _ _ _ Hloop).
    destruct (finish_returns E (langfuse E) (unexpected_error_answer e) (Some e) w1)
      as (url & spans' & ->).
    exists (unexpected_error_answer e), url, (World (w_model_calls w1) (w_http w1) spans').
    split; [reflexivity |]. split; [simpl; lia |]. split; [reflexivity |].
    split; [reflexivity |]. split; [right; eauto 6 |].
    intros Hhash Hdecode.
    destruct (run_tool_calls_returns E Hhash (requested_tool_calls choice) msgs wf)
      as (m' & w' & Hok).
    { intros tc Hin. exact (Hdecode _ _ _ _ _ _ Hllm Hch Hin). }
    rewrite Hok in Hfail. discriminate.
Qed.

Lemma step_budget_exhausted_witness :
  api_key_configured (reference_env deep_history_model down_server) = true
  /\ (forall k msgs, (k < Z.to_nat 5)%nat ->
        requests_tools (llm (reference_env deep_history_model down_server) k msgs) = true)
  /\ run_with_prompt (reference_env deep_history_model down_server)
       (TOOL_DISPATCH (reference_env deep_history_model down_server))
       "You are a pharmacist assistant." "What did I order?" 12 5 empty_world
     = (inr (VDict [("message",
                     VStr "Unexpected error in agent: maximum recursion depth exceeded while decoding a JSON array from a unicode string");
                    ("status", VStr "error")], None),
        World [[SystemMsg "You are a pharmacist assistant."; UserMsg "What did I order?"]]
          [] [])
  /\ exists fa url w',
       run_with_prompt (reference_env deep_history_model down_server)
         (TOOL_DISPATCH (reference_env deep_history_model down_server))
         "You are a pharmacist assistant." "What did I order?" 12 5 empty_world
       = (inr (fa, url), w')
       /\ (length (w_model_calls w') <= Z.to_nat 5)%nat
       /\ dict_field "status" fa = Some (VStr "error")
       /\ dict_field "order_id" fa = None.
Proof.
  split; [reflexivity |]. split; [intros; reflexivity |].
  split; [vm_compute; reflexivity |].
  destruct (step_budget_exhausted (reference_env deep_history_model down_server)
              "You are a pharmacist assistant." "What did I order?" 12 5
              eq_refl (fun _ _ _ => eq_refl))
    as (fa & url & w' & Hrun & Hcalls & Hstatus & Horder & _).
  exists fa, url, w'. repeat split; assumption.
Defined.

(** The budget is used up when nothing cuts a round short: the model asks
    for the customer's history on both rounds of a run with max-steps 2, and
    the run ends with the step-limit answer after two model calls. *)
Example step_budget_used_up :
  exists url w',
    run_with_prompt (reference_env history_model down_server)
      (TOOL_DISPATCH (reference_env history_model down_server))
      "You are a pharmacist assistant." "What did I order?" 12 2 empty_world
    = (inr (step_limit_answer, url), w')
    /\ length (w_model_calls w') = 2%nat.
Proof. do 2 eexists. split; vm_compute; reflexivity. Qed.

(** The model requests an invocation on the only round of a run with
    max-steps 1, and the run does not end with the step-limit answer:
    testing the order's status, a list, against the set of created statuses
    raises TypeError after the handler has returned, and the loop boundary
    answers with that failure. *)
Example step_budget_cut_short :
  (forall k msgs, requests_tools (llm (reference_env ordering_model list_status_server) k msgs)
                  = true)
  /\ fst (run_with_prompt (reference_env ordering_model list_status_server)
            (TOOL_DISPATCH (reference_env ordering_model list_status_server))
            "You are a pharmacist assistant." "I need 5 Paracetamol" 12 1 empty_world)
     = inr (VDict [("message", VStr "Unexpected error in agent: unhashable type: 'list'");
                   ("status", VStr "error")], None)
  /\ step_limit_answer
     <> VDict [("message", VStr "Unexpected error in agent: unhashable type: 'list'");
               ("status", VStr "error")].
Proof.
  split; [intros; reflexivity |]. split; [vm_compute; reflexivity | discriminate].
Qed.

(** ** The prompt *)

(** C1, at the failing input (which is every input): [run_agent] raises
    KeyError while it formats the system prompt, before the trace is opened
    and before the [try] of the loop, and leaves the world as it was. *)
Theorem run_agent_raises_key_error (E : env) (user_input : string)
    (customer_id max_steps : Z) (w : world) :
  run_agent E user_input customer_id max_steps w
  = (inl (Exc KeyError ("' " ++ quoted "message" ++ "'")), w).
Proof.
  unfold run_agent. unfold bind, lift.
  rewrite system_prompt_format_raises. reflexivity.
Qed.

Lemma agent_loop_zero (E : env) (dispatch : list (string * pyfun))
    (trace : option observation) (messages : list message) (w : world) :
  exists url spans,
    agent_loop E dispatch trace 0 messages w
    = (inr (step_limit_answer, url), World (w_model_calls w) (w_http w) spans).
Proof. cbn [agent_loop]. apply finish_returns. Qed.

(** C10, at the failing input: with a non-positive max-steps,
    [run_agent] raises the KeyError of the prompt, so no answer is returned;
    the world is untouched, so there is no model call and no tool invocation.
    Below the prompt the run does what the claim says: it returns the
    step-limit answer and adds nothing to the model-call and request logs. *)
Theorem run_agent_without_steps (E : env) (user_input : string)
    (customer_id max_steps : Z) (w : world) :
  max_steps <= 0 ->
  run_agent E user_input customer_id max_steps w
  = (inl (Exc KeyError ("' " ++ quoted "message" ++ "'")), w)
  /\ forall dispatch system_prompt,
       exists url spans,
         run_with_prompt E dispatch system_prompt user_input customer_id max_steps w
         = (inr (step_limit_answer, url), World (w_model_calls w) (w_http w) spans).
Proof.
  intros Hsteps. split.
  - unfold run_agent. unfold bind, lift.
    rewrite system_prompt_format_raises. reflexivity.
  - intros dispatch system_prompt.
    destruct (run_with_prompt_passes_answer E dispatch system_prompt user_input
                customer_id max_steps w) as (spans & _ & Hpass).
    replace (Z.to_nat max_steps) with 0%nat in Hpass by lia.
    destruct (agent_loop_zero E dispatch (langfuse E)
                [SystemMsg system_prompt; UserMsg user_input]
                (World (w_model_calls w) (w_http w) spans)) as (url & spans' & Hzero).
    exists url, spans'. apply Hpass. exact Hzero.
Qed.

Lemma run_agent_without_steps_witness :
  0 <= 0
  /\ fst (run_agent (reference_env hello_model down_server) "I need 5 Paracetamol" 12 0
            empty_world)
     = inl (Exc KeyError ("' " ++ quoted "message" ++ "'")).
Proof.
  split; [lia |].
  exact (f_equal fst
           (proj1 (run_agent_without_steps (reference_env hello_model down_server)
                     "I need 5 Paracetamol" 12 0 empty_world (Z.le_refl 0)))).
Defined.

(** ** The capability functions *)

(** C9, at the failing input: when the backend answers the availability
    request with a success status and a JSON body that is not an object,
    [check_medicine_availability] raises AttributeError from [data.get];
    neither of its [except] clauses takes it. *)
Theorem availability_raises_on_non_mapping (E : env) (medicine_name : value) (w : world)
    (resp : http_response) (data : value) :
  backend E (length (w_http w)) (availability_request E medicine_name) = Responded resp ->
  resp_status_code resp <> 404 ->
  (400 <=? resp_status_code resp) && (resp_status_code resp <? 600) = false ->
  resp_json resp = inr data ->
  (forall d, data <> VDict d) ->
  check_medicine_availability E medicine_name w
  = (inl (Exc AttributeError ("'" ++ type_name data ++ "' object has no attribute 'get'")),
     after_request w (availability_request E medicine_name)).
Proof.
  intros Hb Hcode Hrange Hjson Hdata.
  rewrite check_medicine_availability_run, Hb.
  unfold availability_outcome, is_not_found, decoded_body, is_http_error.
  apply Z.eqb_neq in Hcode. rewrite Hcode, Hrange, Hjson.
  destruct data; try reflexivity. exfalso. apply (Hdata entries). reflexivity.
Qed.

Lemma availability_raises_on_non_mapping_witness :
  backend (reference_env offline_model array_server) 0
    (availability_request (reference_env offline_model array_server) (VStr "Paracetamol"))
  = Responded (HttpResponse 200 "OK"
                 "http://localhost:8000/api/medicines/Paracetamol/availability"
                 (inr (VList [])))
  /\ fst (check_medicine_availability (reference_env offline_model array_server)
            (VStr "Paracetamol") empty_world)
     = inl (Exc AttributeError "'list' object has no attribute 'get'").
Proof.
  split; [reflexivity |].
  exact (f_equal fst
           (availability_raises_on_non_mapping (reference_env offline_model array_server)
              (VStr "Paracetamol") empty_world
              (HttpResponse 200 "OK"
                 "http://localhost:8000/api/medicines/Paracetamol/availability"
                 (inr (VList [])))
              (VList []) eq_refl
              ltac:(discriminate) eq_refl eq_refl ltac:(discriminate))).
Defined.

(** What the capability functions do keep of their contract: an unreachable
    backend gives the safe defaults with the failure in the error field. *)
Lemma check_medicine_availability_unreachable (E : env) (medicine_name : value) (w : world)
    (description : string) :
  backend E (length (w_http w)) (availability_request E medicine_name)
  = Unreachable description ->
  check_medicine_availability E medicine_name w
  = (inr (VDict [("available", VBool false); ("stock_quantity", VInt 0);
                 ("prescription_required", VBool false);
                 ("error", VStr ("Request error: " ++ description))]),
     after_request w (availability_request E medicine_name)).
Proof. intros Hb. rewrite check_medicine_availability_run, Hb. reflexivity. Qed.

Lemma create_order_unreachable (E : env) (customer_id medicine_name quantity : value)
    (w : world) (description : string) :
  (forall req, backend E (length (w_http w)) req = Unreachable description) ->
  fst (create_order E customer_id medicine_name quantity w)
  = inr (VDict [("status", VStr "rejected"); ("order_id", VNone);
                ("reason", VStr "Failed to contact backend service");
                ("error", VStr ("Request error: " ++ description))]).
Proof. intros Hb. rewrite create_order_run, Hb. reflexivity. Qed.

Lemma customer_listing_unreachable (E : env) (path field : string) (w : world)
    (description : string) :
  backend E (length (w_http w)) (HttpRequest GET (_build_url E path) None)
  = Unreachable description ->
  fst (customer_listing E path field w)
  = inr (VDict [(field, VList []); ("error", VStr ("Request error: " ++ description))]).
Proof. intros Hb. rewrite customer_listing_run, Hb. reflexivity. Qed.

(** What the boundary of the loop does keep of C1: a failure of the loop
    becomes an answer with the status "error" and the failure's description
    in the message. *)
Lemma loop_failure_becomes_answer (E : env) (dispatch : list (string * pyfun))
    (system_prompt user_input : string) (customer_id max_steps : Z) (w : world) :
  exists spans,
    forall e w1,
      agent_loop E dispatch (langfuse E) (Z.to_nat max_steps)
        [SystemMsg system_prompt; UserMsg user_input]
        (World (w_model_calls w) (w_http w) spans) = (inl e, w1) ->
      exists url spans',
        run_with_prompt E dispatch system_prompt user_input customer_id max_steps w
        = (inr (VDict [("message", VStr ("Unexpected error in agent: " ++ exc_str e));
                       ("status", VStr "error")], url),
           World (w_model_calls w1) (w_http w1) spans').
Proof.
  destruct (create_trace_returns E customer_id user_input w) as (spans & Ht).
  exists spans. intros e w1 Hloop.
  unfold run_with_prompt. rewrite (bind_ok _ _ _ _ _ Ht).
  rewrite (try_except_raise _ _ _ _ _ Hloop).
  apply finish_returns.
Qed.

(** A model that cannot be reached: the failure of the first model call is
    the message of the answer. *)
Example model_failure_becomes_answer :
  fst (run_with_prompt (reference_env offline_model down_server)
         (TOOL_DISPATCH (reference_env offline_model down_server))
         "You are a pharmacist assistant." "I need 5 Paracetamol" 12 5 empty_world)
  = inr (VDict [("message", VStr "Unexpected error in agent: Connection error.");
                ("status", VStr "error")], None).
Proof. vm_compute. reflexivity. Qed.

(** The worked example of the specification, below the prompt: availability
    is confirmed, the order is approved with id 7, and the model's final
    text is returned as the answer. *)
Example paracetamol_order_is_approved :
  fst (run_with_prompt (reference_env ordering_then_answering_model pharmacy_server)
         (TOOL_DISPATCH (reference_env ordering_then_answering_model pharmacy_server))
         "You are a pharmacist assistant." "I need 5 Paracetamol" 12 5 empty_world)
  = inr (VDict [("message", VStr "Your order for 5 Paracetamol has been approved.");
                ("order_id", VInt 7); ("status", VStr "approved")], None)
  /\ w_http (snd (run_with_prompt (reference_env ordering_then_answering_model pharmacy_server)
         (TOOL_DISPATCH (reference_env ordering_then_answering_model pharmacy_server))
         "You are a pharmacist assistant." "I need 5 Paracetamol" 12 5 empty_world))
     = [HttpRequest GET "http://localhost:8000/api/medicines/Paracetamol/availability" None;
        HttpRequest POST "http://localhost:8000/api/orders"
          (Some (VDict [("customer_id", VInt 12); ("medicine_name", VStr "Paracetamol");
                        ("quantity", VInt 5)]))].
Proof. split; vm_compute; reflexivity. Qed.


(** The other worked example of the specification, below the prompt: the
    final text [hello] is wrapped with the status "unknown" after one model
    call. *)
Example hello_is_wrapped :
  run_with_prompt (reference_env hello_model down_server)
    (TOOL_DISPATCH (reference_env hello_model down_server))
    "You are a pharmacist assistant." "hi" 12 5 empty_world
  = (inr (VDict [("message", VStr "hello"); ("status", VStr "unknown")], None),
     World [[SystemMsg "You are a pharmacist assistant."; UserMsg "hi"]] [] []).
Proof. vm_compute. reflexivity. Qed.

(** * Further properties *)

(** ** [_build_url] *)

Lemma rstrip_slash_no_trailing (s : string) : ends_with_slash (rstrip_slash s) = false.
Proof.
  induction s as [| c s IH]; [reflexivity |]. simpl.
  destruct (rstrip_slash s) as [| c' r] eqn:Hr.
  - destruct (Ascii.eqb c ch_slash) eqn:Hc; simpl; [reflexivity | exact Hc].
  - exact IH.
Qed.

Lemma lstrip_slash_no_leading (s : string) : starts_with_slash (lstrip_slash s) = false.
Proof.
  induction s as [| c s IH]; [reflexivity |]. simpl.
  destruct (Ascii.eqb c ch_slash) eqn:Hc; [exact IH | simpl; exact Hc].
Qed.

Lemma rstrip_slash_app_slash (s : string) : rstrip_slash (s ++ "/") = rstrip_slash s.
Proof.
  induction s as [| c s IH]; [reflexivity |]. simpl. rewrite IH. reflexivity.
Qed.

Lemma rstrip_slash_clean (s : string) : ends_with_slash s = false -> rstrip_slash s = s.
Proof.
  induction s as [| c s IH]; [reflexivity |]. intros H. simpl in *.
  destruct s as [| c' s'].
  - simpl. rewrite H. reflexivity.
  - rewrite (IH H). reflexivity.
Qed.

Lemma lstrip_slash_clean (s : string) : starts_with_slash s = false -> lstrip_slash s = s.
Proof. destruct s as [| c s]; [reflexivity |]. simpl. intros ->. reflexivity. Qed.

(** X1: [_build_url] joins the base URL and the path with exactly one slash:
    the left part never ends and the right part never starts with one,
    a further slash at the end of the base or at the start of the path
    changes nothing, and a base and a path without such slashes are joined
    as they are. *)
Theorem build_url_joins_with_one_slash (E : env) (base path : string) :
  (exists left right,
      _build_url (with_backend_url base E) path = left ++ "/" ++ right
      /\ ends_with_slash left = false /\ starts_with_slash right = false)
  /\ _build_url (with_backend_url (base ++ "/") E) path
     = _build_url (with_backend_url base E) path
  /\ _build_url (with_backend_url base E) ("/" ++ path)
     = _build_url (with_backend_url base E) path
  /\ (ends_with_slash base = false -> starts_with_slash path = false ->
      _build_url (with_backend_url base E) path = base ++ "/" ++ path).
Proof.
  unfold _build_url. simpl. repeat split.
  - exists (rstrip_slash base), (lstrip_slash path).
    split; [reflexivity |].
    split; [apply rstrip_slash_no_trailing | apply lstrip_slash_no_leading].
  - rewrite rstrip_slash_app_slash. reflexivity.
  - intros Hb Hp. rewrite (rstrip_slash_clean _ Hb), (lstrip_slash_clean _ Hp). reflexivity.
Qed.

(** ** The capability functions, case by case *)

Lemma listing_contract (E : env) (field : string) (out : http_outcome) :
  match listing_outcome E field out with
  | inr r =>
      exists items error,
        r = VDict [(field, VList items); ("error", error)]
        /\ (error <> VNone -> items = [])
        /\ (error = VNone \/ exists text, error = VStr text)
        /\ (forall resp,
              out = Responded resp -> resp_status_code resp = 404 ->
              items = [] /\ error = VStr "Customer not found")
        /\ (forall resp data,
              out = Responded resp -> resp_status_code resp <> 404 ->
              is_http_error (resp_status_code resp) = false ->
              resp_json resp = inr data ->
              VList items = list_or_empty data /\ error = VNone)
  | inl e =>
      is_RequestException e = false
      /\ is_ValueError e = false
      /\ (out = Refused e
          \/ exists resp,
               out = Responded resp
               /\ resp_status_code resp <> 404
               /\ is_http_error (resp_status_code resp) = false
               /\ resp_json resp = inl e)
  end.
Proof.
  unfold listing_outcome, listing_failure, tool_error_text, listing_result, is_not_found,
    decoded_body.
  destruct out as [e | description | resp].
  - destruct (is_RequestException e) eqn:Hreq; [| destruct (is_ValueError e) eqn:Hval].
    + do 2 eexists. split; [reflexivity |]. split; [reflexivity |].
      split; [right; eauto |]. split; discriminate.
    + do 2 eexists. split; [reflexivity |]. split; [reflexivity |].
      split; [right; eauto |]. split; discriminate.
    + repeat split; try assumption. left. reflexivity.
  - do 2 eexists. split; [reflexivity |]. split; [reflexivity |].
    split; [right; eauto |]. split; discriminate.
  - destruct (resp_status_code resp =? 404) eqn:H404.
    { apply Z.eqb_eq in H404.
      do 2 eexists. split; [reflexivity |]. split; [reflexivity |].
      split; [right; eauto |]. split.
      - intros resp' _ _. split; reflexivity.
      - intros resp' data H Hne. injection H as <-. contradiction. }
    apply Z.eqb_neq in H404.
    destruct (is_http_error (resp_status_code resp)) eqn:Herr.
    { do 2 eexists. split; [reflexivity |]. split; [reflexivity |].
      split; [right; eauto |]. split.
      - intros resp' H Hc. injection H as <-. contradiction.
      - intros resp' data H _ Hok. injection H as <-. congruence. }
    destruct (resp_json resp) as [e | data] eqn:Hjson.
    + destruct (is_RequestException e) eqn:Hreq; [| destruct (is_ValueError e) eqn:Hval].
      * do 2 eexists. split; [reflexivity |]. split; [reflexivity |].
        split; [right; eauto |]. split.
        -- intros resp' H Hc. injection H as <-. contradiction.
        -- intros resp' data H _ _ Hd. injection H as <-. congruence.
      * do 2 eexists. split; [reflexivity |]. split; [reflexivity |].
        split; [right; eauto |]. split.
        -- intros resp' H Hc. injection H as <-. contradiction.
        -- intros resp' data H _ _ Hd. injection H as <-. congruence.
      * repeat split; try assumption. right. exists resp. repeat split; assumption.
    + assert (Hlist : exists items, list_or_empty data = VList items).
      { destruct data; simpl; eauto. }
      destruct Hlist as (items & Hitems). rewrite Hitems.
      exists items, VNone. split; [reflexivity |]. split; [congruence |].
      split; [left; reflexivity |]. split.
      * intros resp' H Hc. injection H as <-. contradiction.
      * intros resp' data' H _ _ Hd. injection H as <-.
        rewrite Hjson in Hd. injection Hd as <-. split; [symmetry; exact Hitems | reflexivity].
Qed.

(** X2: [get_customer_history] sends at most one GET request, one unless
    [requests.get] raises before anything is sent.  When it returns, the
    result is [{"history": <list>, "error": <text or None>}]; the history is
    empty whenever the error is set; status 404 is reported as
    "Customer not found"; a success body that is a JSON list is returned as
    it is, and any other JSON body silently gives the empty history with no
    error.  It raises only an exception that is neither a RequestException
    nor a ValueError and that [requests.get] raised before sending or
    [response.json()] raised on a success status, such as the RecursionError
    of a deeply nested body. *)
Theorem get_customer_history_contract (E : env) (customer_id : value) (w : world) :
  snd (get_customer_history E customer_id w)
  = after_outcome w (history_request E customer_id)
      (backend E (length (w_http w)) (history_request E customer_id))
  /\ match fst (get_customer_history E customer_id w) with
     | inr r =>
         exists items error,
           r = VDict [("history", VList items); ("error", error)]
           /\ (error <> VNone -> items = [])
           /\ (error = VNone \/ exists text, error = VStr text)
           /\ (forall resp,
                 backend E (length (w_http w)) (history_request E customer_id)
                 = Responded resp ->
                 resp_status_code resp = 404 ->
                 items = [] /\ error = VStr "Customer not found")
           /\ (forall resp data,
                 backend E (length (w_http w)) (history_request E customer_id)
                 = Responded resp ->
                 resp_status_code resp <> 404 ->
                 is_http_error (resp_status_code resp) = false ->
                 resp_json resp = inr data ->
                 VList items = list_or_empty data /\ error = VNone)
     | inl e =>
         is_RequestException e = false
         /\ is_ValueError e = false
         /\ (backend E (length (w_http w)) (history_request E customer_id) = Refused e
             \/ exists resp,
                  backend E (length (w_http w)) (history_request E customer_id)
                  = Responded resp
                  /\ resp_status_code resp <> 404
                  /\ is_http_error (resp_status_code resp) = false
                  /\ resp_json resp = inl e)
     end.
Proof.
  unfold get_customer_history, history_request. rewrite customer_listing_run.
  split; [reflexivity |]. cbn [fst]. apply listing_contract.
Qed.

(** X3: [get_refill_alerts] sends at most one GET request, one unless
    [requests.get] raises before anything is sent.  When it returns, the
    result is [{"alerts": <list>, "error": <text or None>}]; the list is
    empty whenever the error is set; status 404 is reported as
    "Customer not found", and a success body that is not a JSON list gives
    the empty list with no error.  It raises only an exception that is
    neither a RequestException nor a ValueError and that [requests.get]
    raised before sending or [response.json()] raised on a success
    status. *)
Theorem get_refill_alerts_contract (E : env) (customer_id : value) (w : world) :
  snd (get_refill_alerts E customer_id w)
  = after_outcome w (refill_request E customer_id)
      (backend E (length (w_http w)) (refill_request E customer_id))
  /\ match fst (get_refill_alerts E customer_id w) with
     | inr r =>
         exists items error,
           r = VDict [("alerts", VList items); ("error", error)]
           /\ (error <> VNone -> items = [])
           /\ (error = VNone \/ exists text, error = VStr text)
           /\ (forall resp,
                 backend E (length (w_http w)) (refill_request E customer_id)
                 = Responded resp ->
                 resp_status_code resp = 404 ->
                 items = [] /\ error = VStr "Customer not found")
           /\ (forall resp data,
                 backend E (length (w_http w)) (refill_request E customer_id)
                 = Responded resp ->
                 resp_status_code resp <> 404 ->
                 is_http_error (resp_status_code resp) = false ->
                 resp_json resp = inr data ->
                 VList items = list_or_empty data /\ error = VNone)
     | inl e =>
         is_RequestException e = false
         /\ is_ValueError e = false
         /\ (backend E (length (w_http w)) (refill_request E customer_id) = Refused e
             \/ exists resp,
                  backend E (length (w_http w)) (refill_request E customer_id)
                  = Responded resp
                  /\ resp_status_code resp <> 404
                  /\ is_http_error (resp_status_code resp) = false
                  /\ resp_json resp = inl e)
     end.
Proof.
  unfold get_refill_alerts, refill_request. rewrite customer_listing_run.
  split; [reflexivity |]. cbn [fst]. apply listing_contract.
Qed.

(** X4: [create_order] sends at most one POST request, with the three
    arguments as its JSON payload, and none when [requests.post] raises
    before sending, as it does on a payload it cannot encode.  When it
    returns, the result has the four declared keys; an error in it always
    comes with the status "rejected", no order id and a reason, and a result
    without error repeats the status, order id and reason of the backend's
    JSON object (status "rejected" when the object has none).  It raises
    AttributeError when the backend answers a success status with JSON that
    is not an object, and otherwise only an exception that is neither a
    RequestException nor a ValueError and that [requests.post] raised before
    sending or [response.json()] raised on a success status. *)
Theorem create_order_tool_contract (E : env) (customer_id medicine_name quantity : value)
    (w : world) :
  snd (create_order E customer_id medicine_name quantity w)
  = after_outcome w (order_request E customer_id medicine_name quantity)
      (backend E (length (w_http w)) (order_request E customer_id medicine_name quantity))
  /\ match fst (create_order E customer_id medicine_name quantity w) with
     | inr r =>
         exists status order_id reason error,
           r = VDict [("status", status); ("order_id", order_id); ("reason", reason);
                      ("error", error)]
           /\ (error <> VNone ->
               status = VStr "rejected" /\ order_id = VNone /\ exists text, reason = VStr text)
           /\ (error = VNone ->
               exists resp d,
                 backend E (length (w_http w))
                   (order_request E customer_id medicine_name quantity)
                 = Responded resp
                 /\ is_http_error (resp_status_code resp) = false
                 /\ resp_json resp = inr (VDict d)
                 /\ status = dict_get "status" (VStr "rejected") d
                 /\ order_id = dict_get "order_id" VNone d
                 /\ reason = dict_get "reason" VNone d)
     | inl e =>
         (exc_cls e = AttributeError
          /\ exists resp data,
               backend E (length (w_http w))
                 (order_request E customer_id medicine_name quantity)
               = Responded resp
               /\ is_http_error (resp_status_code resp) = false
               /\ resp_json resp = inr data
               /\ forall d, data <> VDict d)
         \/ (is_RequestException e = false
             /\ is_ValueError e = false
             /\ (backend E (length (w_http w))
                   (order_request E customer_id medicine_name quantity) = Refused e
                 \/ exists resp,
                      backend E (length (w_http w))
                        (order_request E customer_id medicine_name quantity)
                      = Responded resp
                      /\ is_http_error (resp_status_code resp) = false
                      /\ resp_json resp = inl e))
     end.
Proof.
  rewrite create_order_run. split; [reflexivity |]. cbn [fst].
  unfold order_outcome, order_failure, decoded_body.
  destruct (backend E (length (w_http w)) _) as [e | description | resp].
  - destruct (is_RequestException e) eqn:Hreq; [| destruct (is_ValueError e) eqn:Hval].
    + do 4 eexists. split; [reflexivity |].
      split; [intros _; repeat split; eauto | discriminate].
    + do 4 eexists. split; [reflexivity |].
      split; [intros _; repeat split; eauto | discriminate].
    + right. repeat split; try assumption. left. reflexivity.
  - do 4 eexists. split; [reflexivity |].
    split; [intros _; repeat split; eauto | discriminate].
  - destruct (is_http_error (resp_status_code resp)) eqn:Herr.
    { do 4 eexists. split; [reflexivity |].
      split; [intros _; repeat split; eauto | discriminate]. }
    destruct (resp_json resp) as [e | data] eqn:Hjson.
    + destruct (is_RequestException e) eqn:Hreq; [| destruct (is_ValueError e) eqn:Hval].
      * do 4 eexists. split; [reflexivity |].
        split; [intros _; repeat split; eauto | discriminate].
      * do 4 eexists. split; [reflexivity |].
        split; [intros _; repeat split; eauto | discriminate].
      * right. repeat split; try assumption. right. exists resp. repeat split; assumption.
    + destruct data;
        try (left; split; [reflexivity |]; exists resp; eexists;
             split; [reflexivity |]; split; [exact Herr |];
             split; [exact Hjson | discriminate]).
      do 4 eexists. split; [reflexivity |]. split; [congruence |].
      intros _. exists resp, entries. repeat split; assumption.
Qed.

Lemma py_int_raises (E : env) (v : value) (e : exc) :
  py_int E v = inl e ->
  exc_cls e = ValueError \/ exc_cls e = TypeError \/ exc_cls e = OverflowError.
Proof.
  unfold py_int.
  destruct v as [| b | n | f | s | l | d]; try discriminate;
    try (intros H; injection H as <-; simpl; tauto).
  - destruct f; intros H; try discriminate; injection H as <-; simpl; tauto.
  - destruct (int_of_str E s); intros H; try discriminate; injection H as <-; simpl; tauto.
Qed.

(** X5: [check_medicine_availability] sends at most one GET request, one
    unless [requests.get] raises before anything is sent.  When it returns,
    the result has the four declared keys with a boolean, an integer and a
    boolean; whenever the error is set (status 404, an HTTP error status, an
    unreachable backend, a body that is not JSON, a stock quantity that is
    not a number) the other three are false, 0 and false, and status 404 is
    reported as "Medicine not found".  It raises AttributeError on a success
    body that is not a JSON object, the TypeError or OverflowError of [int]
    on the stock quantity (a list, an infinite float), and otherwise only an
    exception that is neither a RequestException nor a ValueError and that
    [requests.get] raised before sending or [response.json()] raised on a
    success status. *)
Theorem check_medicine_availability_contract (E : env) (medicine_name : value) (w : world) :
  snd (check_medicine_availability E medicine_name w)
  = after_outcome w (availability_request E medicine_name)
      (backend E (length (w_http w)) (availability_request E medicine_name))
  /\ match fst (check_medicine_availability E medicine_name w) with
     | inr r =>
         exists available stock prescription error,
           r = VDict [("available", VBool available); ("stock_quantity", VInt stock);
                      ("prescription_required", VBool prescription); ("error", error)]
           /\ (error <> VNone -> available = false /\ stock = 0 /\ prescription = false)
           /\ (error = VNone \/ exists text, error = VStr text)
           /\ (forall resp,
                 backend E (length (w_http w)) (availability_request E medicine_name)
                 = Responded resp ->
                 resp_status_code resp = 404 ->
                 error = VStr "Medicine not found")
     | inl e =>
         (exists resp data,
             backend E (length (w_http w)) (availability_request E medicine_name)
             = Responded resp
             /\ resp_status_code resp <> 404
             /\ is_http_error (resp_status_code resp) = false
             /\ resp_json resp = inr data
             /\ ((exc_cls e = AttributeError /\ forall d, data <> VDict d)
                 \/ (exists d,
                       data = VDict d
                       /\ py_int E (py_or (dict_get "stock_quantity" (VInt 0) d) (VInt 0))
                          = inl e
                       /\ (exc_cls e = TypeError \/ exc_cls e = OverflowError))))
         \/ (is_RequestException e = false
             /\ is_ValueError e = false
             /\ (backend E (length (w_http w)) (availability_request E medicine_name)
                 = Refused e
                 \/ exists resp,
                      backend E (length (w_http w)) (availability_request E medicine_name)
                      = Responded resp
                      /\ resp_status_code resp <> 404
                      /\ is_http_error (resp_status_code resp) = false
                      /\ resp_json resp = inl e))
     end.
Proof.
  rewrite check_medicine_availability_run. split; [reflexivity |]. cbn [fst].
  unfold availability_outcome, availability_failure, tool_error_text, is_not_found,
    decoded_body, availability_result.
  destruct (backend E (length (w_http w)) _) as [e | description | resp].
  - destruct (is_RequestException e) eqn:Hreq; [| destruct (is_ValueError e) eqn:Hval].
    + do 4 eexists. split; [reflexivity |]. split; [intros _; repeat split |].
      split; [right; eauto | discriminate].
    + do 4 eexists. split; [reflexivity |]. split; [intros _; repeat split |].
      split; [right; eauto | discriminate].
    + right. repeat split; try assumption. left. reflexivity.
  - do 4 eexists. split; [reflexivity |]. split; [intros _; repeat split |].
    split; [right; eauto | discriminate].
  - destruct (resp_status_code resp =? 404) eqn:H404.
    { do 4 eexists. split; [reflexivity |]. split; [intros _; repeat split |].
      split; [right; eauto | reflexivity]. }
    apply Z.eqb_neq in H404.
    assert (Hnot : forall resp', Responded resp = Responded resp' ->
                                 resp_status_code resp' = 404 -> False).
    { intros resp' H Hc. injection H as <-. contradiction. }
    destruct (is_http_error (resp_status_code resp)) eqn:Herr.
    { do 4 eexists. split; [reflexivity |]. split; [intros _; repeat split |].
      split; [right; eauto |]. intros resp' H Hc. exfalso. exact (Hnot _ H Hc). }
    destruct (resp_json resp) as [e | data] eqn:Hjson.
    + destruct (is_RequestException e) eqn:Hreq; [| destruct (is_ValueError e) eqn:Hval].
      * do 4 eexists. split; [reflexivity |]. split; [intros _; repeat split |].
        split; [right; eauto |]. intros resp' H Hc. exfalso. exact (Hnot _ H Hc).
      * do 4 eexists. split; [reflexivity |]. split; [intros _; repeat split |].
        split; [right; eauto |]. intros resp' H Hc. exfalso. exact (Hnot _ H Hc).
      * right. repeat split; try assumption. right. exists resp. repeat split; assumption.
    + destruct data;
        try (left; exists resp; eexists; split; [reflexivity |];
             split; [exact H404 |]; split; [exact Herr |]; split; [exact Hjson |];
             left; split; [reflexivity | discriminate]).
      destruct (py_int E (py_or (dict_get "stock_quantity" (VInt 0) entries) (VInt 0)))
        as [e | stock] eqn:Hint.
      * destruct (py_int_raises E _ e Hint) as [Hcls | Hcls].
        { assert (Hreq : is_RequestException e = false)
            by (unfold is_RequestException; rewrite Hcls; reflexivity).
          assert (Hval : is_ValueError e = true)
            by (unfold is_ValueError; rewrite Hcls; reflexivity).
          rewrite Hreq, Hval.
          do 4 eexists. split; [reflexivity |]. split; [intros _; repeat split |].
          split; [right; eauto |]. intros resp' H Hc. exfalso. exact (Hnot _ H Hc). }
        assert (Hreq : is_RequestException e = false)
          by (unfold is_RequestException; destruct Hcls as [-> | ->]; reflexivity).
        assert (Hval : is_ValueError e = false)
          by (unfold is_ValueError; destruct Hcls as [-> | ->]; reflexivity).
        rewrite Hreq, Hval.
        left. exists resp, (VDict entries). split; [reflexivity |].
        split; [exact H404 |]. split; [exact Herr |]. split; [exact Hjson |].
        right. exists entries. split; [reflexivity |]. split; [exact Hint | exact Hcls].
      * do 4 eexists. split; [reflexivity |]. split; [congruence |].
        split; [left; reflexivity |]. intros resp' H Hc. exfalso. exact (Hnot _ H Hc).
Qed.

(** A body nested too deep for [response.json()]: the RecursionError leaves
    [get_customer_history]. *)
Example history_of_deep_body :
  get_customer_history (reference_env offline_model deep_body_server) (VInt 12) empty_world
  = (inl (Exc RecursionError
            "maximum recursion depth exceeded while decoding a JSON array from a unicode string"),
     World [] [HttpRequest GET "http://localhost:8000/api/customers/12/history" None] []).
Proof. vm_compute. reflexivity. Qed.

(** A stock of 1e999: [int] raises OverflowError, which leaves
    [check_medicine_availability]. *)
Example availability_of_infinite_stock :
  check_medicine_availability (reference_env offline_model infinite_stock_server)
    (VStr "Paracetamol") empty_world
  = (inl (Exc OverflowError "cannot convert float infinity to integer"),
     World [] [HttpRequest GET "http://localhost:8000/api/medicines/Paracetamol/availability"
                 None] []).
Proof. vm_compute. reflexivity. Qed.

(** A quantity of NaN: [requests.post] refuses the payload, nothing is sent
    and [create_order] reports the refusal. *)
Example order_of_nan_quantity :
  create_order (reference_env offline_model nan_refusing_server) (VInt 12)
    (VStr "Paracetamol") (VFloat S754_nan) empty_world
  = (inr (VDict [("status", VStr "rejected"); ("order_id", VNone);
                 ("reason", VStr "Failed to contact backend service");
                 ("error",
                  VStr "Request error: Out of range float values are not JSON compliant")]),
     empty_world).
Proof. vm_compute. reflexivity. Qed.

(** ** The executor, once more *)

Lemma unbound_call_raises (f : pyfun) (args : value) (w : world) :
  binds (fn_params f) args = false ->
  exists e, call_kwargs f args w = (inl e, w) /\ is_TypeError e = true.
Proof.
  unfold binds, call_kwargs. intros H.
  destruct args; try (eexists; split; reflexivity).
  destruct (forallb (fun kv => mem_string (fst kv) (fn_params f)) entries); simpl in *.
  - rewrite H. simpl. eexists; split; reflexivity.
  - eexists; split; reflexivity.
Qed.

(** X6: when the decoded arguments of an invocation do not bind to the
    parameters of the registered function (they are not a mapping, name a
    parameter the function does not have, or miss one), the function's body
    never runs: the result is "Invalid arguments for tool <name>" and the
    world is unchanged but for the invocation's span, so no request reaches
    the backend. *)
Theorem unbindable_arguments_are_rejected (E : env) (dispatch : list (string * pyfun))
    (tc : tool_call) (tool_fn : pyfun) (args : value) (w : world) :
  dict_lookup (tc_name tc) dispatch = Some tool_fn ->
  decode_arguments E tc = inr args ->
  binds (fn_params tool_fn) args = false ->
  execute_tool_call E dispatch tc w
  = (inr (VDict [("error", VStr ("Invalid arguments for tool " ++ tc_name tc))]),
     with_tool_span E (tc_name tc) w).
Proof.
  intros Hfound Hdec Hbind.
  apply (execute_error_result E dispatch tc args); [exact Hdec |].
  unfold call_tool. rewrite Hfound.
  destruct (unbound_call_raises tool_fn _ w Hbind) as (e & Hcall & Hcls).
  rewrite (try_except_raise _ _ _ _ _ Hcall). rewrite Hcls. reflexivity.
Qed.

Lemma order_was_created_cases (func_name : string) (tool_result : value) (w : world) :
  order_was_created func_name tool_result w = (inr (webhook_due func_name tool_result), w)
  \/ exists e, order_was_created func_name tool_result w = (inl e, w).
Proof.
  unfold order_was_created, webhook_due, py_in_strings, ret, raise.
  destruct (func_name =? "create_order")%string; simpl; [| left; reflexivity].
  destruct tool_result as [| | | | | | d]; try (left; reflexivity).
  destruct (is_none (dict_get "order_id" VNone d)); simpl; [left; reflexivity |].
  destruct (dict_get "status" VNone d); simpl; try (left; reflexivity); right; eauto.
Qed.

(** X7: when the executor returns, its result is the one the guarded
    call produced, untouched, and the world is the one that call left plus
    the invocation's spans: with tracing on, one span for the tool and, for
    [create_order] with an order id and the status "approved" or "pending",
    the synthetic [warehouse_webhook] span; with tracing off, nothing. *)
Theorem executor_keeps_result_and_adds_spans (E : env) (dispatch : list (string * pyfun))
    (tc : tool_call) (w w' : world) (r : value) :
  execute_tool_call E dispatch tc w = (inr r, w') ->
  exists args w1,
    decode_arguments E tc = inr args
    /\ call_tool dispatch (tc_name tc) args w = (inr r, w1)
    /\ w' = World (w_model_calls w1) (w_http w1)
              (w_spans w1 ++ invocation_spans E (tc_name tc) r).
Proof.
  unfold execute_tool_call. intros H.
  destruct (decode_arguments E tc) as [e | args]; [discriminate |].
  rewrite (bind_ok _ _ w w args eq_refl) in H.
  destruct (call_tool_returns dispatch (tc_name tc) args w)
    as (r0 & w1 & Hcall).
  rewrite (bind_ok _ _ _ _ _ Hcall) in H.
  rewrite (bind_ok _ _ _ _ _ (log_tool_call_run E (tc_name tc) w1)) in H.
  destruct (order_was_created_cases (tc_name tc) r0 (with_tool_span E (tc_name tc) w1))
    as [Hdue | (e & Hdue)].
  2: { rewrite (bind_raise _ _ _ _ _ Hdue) in H. discriminate. }
  rewrite (bind_ok _ _ _ _ _ Hdue) in H.
  exists args, w1. split; [reflexivity |]. unfold invocation_spans, with_tool_span in *.
  destruct (webhook_due (tc_name tc) r0) eqn:Hweb.
  - rewrite (bind_ok _ _ _ _ _ (log_tool_call_run E "warehouse_webhook" _)) in H.
    injection H as <- <-. split; [exact Hcall |]. rewrite Hweb.
    unfold with_tool_span. destruct (_is_enabled E); destruct w1; simpl.
    + rewrite <- app_assoc. reflexivity.
    + rewrite app_nil_r. reflexivity.
  - unfold bind, ret in H. injection H as <- <-. split; [exact Hcall |]. rewrite Hweb.
    destruct (_is_enabled E); destruct w1; simpl; rewrite ?app_nil_r; reflexivity.
Qed.

Lemma unbindable_arguments_are_rejected_witness :
  dict_lookup (tc_name positional_call) (TOOL_DISPATCH (reference_env offline_model down_server))
  = Some (history_handler (reference_env offline_model down_server))
  /\ decode_arguments (reference_env offline_model down_server) positional_call
     = inr (VList [VInt 12])
  /\ binds (fn_params (history_handler (reference_env offline_model down_server)))
       (VList [VInt 12]) = false
  /\ execute_tool_call (reference_env offline_model down_server)
       (TOOL_DISPATCH (reference_env offline_model down_server)) positional_call empty_world
     = (inr (VDict [("error", VStr "Invalid arguments for tool get_customer_history")]),
        empty_world).
Proof.
  split; [reflexivity |]. split; [vm_compute; reflexivity |]. split; [reflexivity |].
  apply (unbindable_arguments_are_rejected (reference_env offline_model down_server)
           (TOOL_DISPATCH (reference_env offline_model down_server)) positional_call
           (history_handler (reference_env offline_model down_server)) (VList [VInt 12])
           empty_world).
  - reflexivity.
  - vm_compute. reflexivity.
  - reflexivity.
Defined.

Lemma executor_keeps_result_and_adds_spans_witness :
  execute_tool_call (traced_env ordering_model pharmacy_server)
    (TOOL_DISPATCH (traced_env ordering_model pharmacy_server)) order_call empty_world
  = (inr (VDict [("status", VStr "approved"); ("order_id", VInt 7); ("reason", VNone);
                 ("error", VNone)]),
     World [] [order_request (traced_env ordering_model pharmacy_server) (VInt 12)
                 (VStr "Paracetamol") (VInt 5)]
       [Span "tool:create_order"; Span "tool:warehouse_webhook"])
  /\ exists args w1,
       decode_arguments (traced_env ordering_model pharmacy_server) order_call = inr args
       /\ call_tool (TOOL_DISPATCH (traced_env ordering_model pharmacy_server))
            (tc_name order_call) args empty_world
          = (inr (VDict [("status", VStr "approved"); ("order_id", VInt 7); ("reason", VNone);
                         ("error", VNone)]), w1)
       /\ World [] [order_request (traced_env ordering_model pharmacy_server) (VInt 12)
                      (VStr "Paracetamol") (VInt 5)]
            [Span "tool:create_order"; Span "tool:warehouse_webhook"]
          = World (w_model_calls w1) (w_http w1)
              (w_spans w1
               ++ invocation_spans (traced_env ordering_model pharmacy_server)
                    (tc_name order_call)
                    (VDict [("status", VStr "approved"); ("order_id", VInt 7);
                            ("reason", VNone); ("error", VNone)])).
Proof.
  assert (H : execute_tool_call (traced_env ordering_model pharmacy_server)
                (TOOL_DISPATCH (traced_env ordering_model pharmacy_server)) order_call
                empty_world
              = (inr (VDict [("status", VStr "approved"); ("order_id", VInt 7);
                             ("reason", VNone); ("error", VNone)]),
                 World [] [order_request (traced_env ordering_model pharmacy_server) (VInt 12)
                             (VStr "Paracetamol") (VInt 5)]
                   [Span "tool:create_order"; Span "tool:warehouse_webhook"])).
  { vm_compute. reflexivity. }
  split; [exact H |].
  exact (executor_keeps_result_and_adds_spans _ _ _ _ _ _ H).
Defined.

(** ** What a run adds to the world *)

Lemma grown_nothing (w : world) : grown w [] [] [] = w.
Proof. destruct w. unfold grown. simpl. rewrite !app_nil_r. reflexivity. Qed.

Lemma grown_grown (w : world) (calls calls' : list (list message))
    (reqs reqs' : list http_request) (spans spans' : list span) :
  grown (grown w calls reqs spans) calls' reqs' spans'
  = grown w (calls ++ calls') (reqs ++ reqs') (spans ++ spans').
Proof. unfold grown. simpl. rewrite <- !app_assoc. reflexivity. Qed.

Lemma after_request_grown (w : world) (req : http_request) :
  after_request w req = grown w [] [req] [].
Proof. unfold after_request, grown. rewrite !app_nil_r. reflexivity. Qed.

Lemma with_tool_span_grown (E : env) (tool_name : string) (w : world) :
  with_tool_span E tool_name w
  = grown w [] [] (if _is_enabled E then [Span ("tool:" ++ tool_name)] else []).
Proof.
  unfold with_tool_span, grown. destruct (_is_enabled E); destruct w; simpl;
    rewrite !app_nil_r; reflexivity.
Qed.

Lemma run_traffic_nil (E : env) : run_traffic E [] [].
Proof. repeat split. Qed.

Lemma run_traffic_app (E : env) (reqs reqs' : list http_request) (spans spans' : list span) :
  run_traffic E reqs spans -> run_traffic E reqs' spans' ->
  run_traffic E (reqs ++ reqs') (spans ++ spans').
Proof.
  intros (Hr & Hs & Hoff) (Hr' & Hs' & Hoff'). unfold run_traffic.
  rewrite !forallb_app, Hr, Hr', Hs, Hs'. repeat split.
  intros H. rewrite (Hoff H), (Hoff' H). reflexivity.
Qed.

Lemma create_trace_run (E : env) (customer_id : Z) (user_input : string) (w : world) :
  create_trace E customer_id user_input w = (inr (langfuse E), grown w [] [] (opening_spans E)).
Proof.
  unfold create_trace, opening_spans.
  destruct (langfuse E); [| unfold ret; rewrite grown_nothing; reflexivity].
  unfold bind, record_span, ret, grown. rewrite !app_nil_r. reflexivity.
Qed.

Lemma finish_run (E : env) (trace : option observation) (result : value)
    (error : option exc) (w : world) :
  finish E trace result error w
  = (inr (result, trace_url_of E trace), grown w [] [] (closing_spans trace result error)).
Proof.
  unfold finish, end_trace, trace_url_of, closing_spans, bind, ret, record_span.
  destruct trace as [obs |]; [destruct (update_raises obs) |]; simpl;
    rewrite ?grown_nothing; try reflexivity.
  unfold grown. simpl. rewrite !app_nil_r. reflexivity.
Qed.

Lemma call_llm_run (E : env) (messages : list message) (trace : option observation)
    (w : world) :
  _call_llm E messages trace w
  = if api_key_configured E
    then (llm E (length (w_model_calls w)) messages,
          grown w [messages] [] (generation_spans E trace))
    else (inl api_key_error, w).
Proof.
  unfold _call_llm, get_client, api_key_configured, api_key_error, generation_spans.
  destruct (OPENAI_API_KEY E) as [key |]; [destruct (key =? "")%string |]; simpl;
    try reflexivity.
  unfold bind at 1. unfold ret at 1.
  destruct trace as [obs |].
  - unfold create_span, log_generation, chat_completions_create, bind, ret, record_span, grown.
    destruct (_is_enabled E); simpl; rewrite ?app_nil_r;
      destruct (llm E (length (w_model_calls w)) messages); reflexivity.
  - unfold chat_completions_create, grown. rewrite !app_nil_r. reflexivity.
Qed.

Lemma prefix_of_joined (base rest : string) :
  String.prefix (base ++ "/") (base ++ "/" ++ rest) = true.
Proof.
  induction base as [| c base IH]; simpl.
  - destruct (ascii_dec "/" "/"); [destruct rest; reflexivity | contradiction].
  - destruct (ascii_dec c c); [exact IH | contradiction].
Qed.

Lemma build_url_to_backend (E : env) (method : http_method) (path : string)
    (payload : option value) :
  to_backend E (HttpRequest method (_build_url E path) payload) = true.
Proof. unfold to_backend, _build_url. simpl. apply prefix_of_joined. Qed.

Lemma after_outcome_grown (w : world) (req : http_request) (out : http_outcome) :
  exists reqs,
    after_outcome w req out = grown w [] reqs []
    /\ (length reqs <= 1)%nat
    /\ (forall r, In r reqs -> r = req).
Proof.
  destruct out as [e | description | resp]; simpl.
  - exists []. rewrite grown_nothing. split; [reflexivity |].
    split; [simpl; lia | intros r []].
  - exists [req]. rewrite after_request_grown. split; [reflexivity |].
    split; [simpl; lia | intros r [<- | []]; reflexivity].
  - exists [req]. rewrite after_request_grown. split; [reflexivity |].
    split; [simpl; lia | intros r [<- | []]; reflexivity].
Qed.

(** A registered function sends at most one request, to the backend. *)
Lemma registry_body_world (E : env) (func_name : string) (tool_fn : pyfun)
    (arg : string -> value) (w : world) :
  dict_lookup func_name (TOOL_DISPATCH E) = Some tool_fn ->
  exists reqs,
    snd (fn_body tool_fn arg w) = grown w [] reqs []
    /\ (length reqs <= 1)%nat
    /\ forallb (to_backend E) reqs = true.
Proof.
  intros H.
  assert (Hsent : forall method path payload out,
             exists reqs,
               after_outcome w (HttpRequest method (_build_url E path) payload) out
               = grown w [] reqs []
               /\ (length reqs <= 1)%nat
               /\ forallb (to_backend E) reqs = true).
  { intros method path payload out.
    destruct (after_outcome_grown w (HttpRequest method (_build_url E path) payload) out)
      as (reqs & Hw & Hlen & Hall).
    exists reqs. split; [exact Hw |]. split; [exact Hlen |].
    apply forallb_forall. intros r Hin. rewrite (Hall r Hin).
    apply build_url_to_backend. }
  unfold TOOL_DISPATCH in H. simpl in H.
  repeat match type of H with
         | (if ?c then _ else _) = _ => destruct c
         end;
    try discriminate; injection H as <-; simpl.
  - rewrite check_medicine_availability_run. apply Hsent.
  - rewrite create_order_run. apply Hsent.
  - unfold get_customer_history. rewrite customer_listing_run. apply Hsent.
  - unfold get_refill_alerts. rewrite customer_listing_run. apply Hsent.
Qed.

Lemma call_tool_world (E : env) (func_name : string) (args : value) (w : world) :
  exists reqs,
    snd (call_tool (TOOL_DISPATCH E) func_name args w) = grown w [] reqs []
    /\ (length reqs <= 1)%nat
    /\ forallb (to_backend E) reqs = true.
Proof.
  unfold call_tool.
  destruct (dict_lookup func_name (TOOL_DISPATCH E)) as [tool_fn |] eqn:Hlook.
  - assert (Hcall : exists reqs,
               snd (call_kwargs tool_fn args w) = grown w [] reqs []
               /\ (length reqs <= 1)%nat /\ forallb (to_backend E) reqs = true).
    { unfold call_kwargs.
      destruct args;
        try (exists []; simpl; rewrite grown_nothing; repeat split; lia).
      destruct (negb (forallb _ entries));
        [exists []; simpl; rewrite grown_nothing; repeat split; lia |].
      destruct (negb (forallb _ (fn_params tool_fn)));
        [exists []; simpl; rewrite grown_nothing; repeat split; lia |].
      exact (registry_body_world E func_name tool_fn
               (fun p => dict_get p VNone entries) w Hlook). }
    destruct Hcall as (reqs & Hw & Hlen & Hto). exists reqs.
    unfold try_except.
    destruct (call_kwargs tool_fn args w) as [[e | r] w1]; simpl in *;
      [destruct (is_TypeError e) |]; simpl; repeat split; assumption.
  - exists []. simpl. rewrite grown_nothing. repeat split; lia.
Qed.

Lemma tool_spans_traffic (E : env) (reqs : list http_request) (names : list string) :
  forallb (to_backend E) reqs = true ->
  run_traffic E reqs (if _is_enabled E then map Span names else []).
Proof.
  intros Hto. unfold run_traffic. split; [exact Hto |].
  destruct (_is_enabled E); [| repeat split].
  split; [| discriminate]. induction names; [reflexivity | exact IHnames].
Qed.

Lemma execute_tool_call_world (E : env) (tc : tool_call) (w : world) :
  exists reqs spans,
    snd (execute_tool_call E (TOOL_DISPATCH E) tc w) = grown w [] reqs spans
    /\ (length reqs <= 1)%nat
    /\ (length spans <= 2)%nat
    /\ run_traffic E reqs spans.
Proof.
  unfold execute_tool_call.
  destruct (decode_arguments E tc) as [e | args].
  { exists [], []. simpl. rewrite grown_nothing.
    split; [reflexivity |]. split; [lia |]. split; [lia | apply run_traffic_nil]. }
  rewrite (bind_ok _ _ w w args eq_refl).
  destruct (call_tool_world E (tc_name tc) args w)
    as (reqs & Hw & Hlen & Hto).
  destruct (call_tool_returns (TOOL_DISPATCH E) (tc_name tc) args w)
    as (r0 & w1 & Hcall).
  rewrite Hcall in Hw. simpl in Hw. subst w1.
  rewrite (bind_ok _ _ _ _ _ Hcall).
  rewrite (bind_ok _ _ _ _ _ (log_tool_call_run E (tc_name tc) _)).
  rewrite with_tool_span_grown, grown_grown. simpl.
  set (w1 := grown w [] (reqs ++ []) _).
  destruct (order_was_created_cases (tc_name tc) r0 w1) as [Hdue | (e & Hdue)].
  - rewrite (bind_ok _ _ _ _ _ Hdue).
    destruct (webhook_due (tc_name tc) r0).
    + rewrite (bind_ok _ _ _ _ _ (log_tool_call_run E "warehouse_webhook" _)).
      unfold ret. simpl. subst w1. rewrite with_tool_span_grown, grown_grown. simpl.
      rewrite !app_nil_r.
      exists reqs, (if _is_enabled E
                    then map Span ["tool:" ++ tc_name tc; "tool:warehouse_webhook"] else []).
      split; [destruct (_is_enabled E); reflexivity |].
      split; [exact Hlen |].
      split; [destruct (_is_enabled E); simpl; lia | apply tool_spans_traffic; exact Hto].
    + unfold bind, ret. simpl. subst w1. rewrite !app_nil_r.
      exists reqs, (if _is_enabled E then map Span ["tool:" ++ tc_name tc] else []).
      split; [destruct (_is_enabled E); reflexivity |].
      split; [exact Hlen |].
      split; [destruct (_is_enabled E); simpl; lia | apply tool_spans_traffic; exact Hto].
  - rewrite (bind_raise _ _ _ _ _ Hdue). simpl. subst w1. rewrite !app_nil_r.
    exists reqs, (if _is_enabled E then map Span ["tool:" ++ tc_name tc] else []).
    split; [destruct (_is_enabled E); reflexivity |].
    split; [exact Hlen |].
    split; [destruct (_is_enabled E); simpl; lia | apply tool_spans_traffic; exact Hto].
Qed.

Lemma run_tool_calls_world (E : env) :
  forall (tool_calls : list tool_call) (messages : list message) (w : world),
  exists reqs spans,
    snd (run_tool_calls E (TOOL_DISPATCH E) tool_calls messages w) = grown w [] reqs spans
    /\ (length reqs <= length tool_calls)%nat
    /\ (length spans <= 2 * length tool_calls)%nat
    /\ run_traffic E reqs spans.
Proof.
  induction tool_calls as [| tc rest IH]; intros messages w.
  - exists [], []. simpl. rewrite grown_nothing.
    repeat split; lia.
  - cbn [run_tool_calls]. unfold bind.
    destruct (execute_tool_call_world E tc w) as (reqs & spans & Hw & Hlen & Hslen & Htr).
    destruct (execute_tool_call E (TOOL_DISPATCH E) tc w) as [[e | r] w1]; simpl in Hw;
      subst w1.
    + exists reqs, spans. simpl. repeat split; try lia; apply Htr.
    + destruct (IH (messages ++ [tool_message E tc r])%list (grown w [] reqs spans))
        as (reqs' & spans' & Hw' & Hlen' & Hslen' & Htr').
      exists (reqs ++ reqs')%list, (spans ++ spans')%list.
      rewrite Hw', grown_grown. simpl.
      split; [reflexivity |]. rewrite !length_app. simpl.
      split; [lia |]. split; [lia |]. apply run_traffic_app; assumption.
Qed.

Lemma generation_spans_traffic (E : env) (trace : option observation) :
  run_traffic E [] (generation_spans E trace).
Proof.
  unfold run_traffic, generation_spans.
  destruct trace; [destruct (_is_enabled E) |]; repeat split; discriminate.
Qed.

(** The loop only appends to the logs: at most one model call for each
    step, the traffic of the tools, and the closing update when it returns. *)
Lemma agent_loop_run (E : env) (trace : option observation) :
  forall (steps : nat) (messages : list message) (w : world),
  exists calls reqs mid,
    (length calls <= steps)%nat
    /\ run_traffic E reqs mid
    /\ match agent_loop E (TOOL_DISPATCH E) trace steps messages w with
       | (inr (fa, url), w') =>
           url = trace_url_of E trace
           /\ w' = grown w calls reqs (mid ++ closing_spans trace fa None)
       | (inl e, w') => w' = grown w calls reqs mid
       end.
Proof.
  induction steps as [| steps IH]; intros messages w.
  - cbn [agent_loop]. rewrite finish_run. exists [], [], []. simpl.
    split; [lia |]. split; [apply run_traffic_nil |]. split; reflexivity.
  - cbn [agent_loop]. unfold bind at 1. rewrite call_llm_run.
    destruct (api_key_configured E).
    2: { exists [], [], []. rewrite grown_nothing.
         split; [simpl; lia |]. split; [apply run_traffic_nil | reflexivity]. }
    set (w1 := grown w [messages] [] (generation_spans E trace)).
    assert (Hone : forall fa,
               exists calls reqs mid,
                 (length calls <= S steps)%nat
                 /\ run_traffic E reqs mid
                 /\ grown w1 [] [] (closing_spans trace fa None)
                    = grown w calls reqs (mid ++ closing_spans trace fa None)).
    { intros fa. exists [messages], [], (generation_spans E trace).
      split; [simpl; lia |]. split; [apply generation_spans_traffic |].
      subst w1. rewrite grown_grown. reflexivity. }
    assert (Hstop : exists calls reqs mid,
               (length calls <= S steps)%nat
               /\ run_traffic E reqs mid /\ w1 = grown w calls reqs mid).
    { exists [messages], [], (generation_spans E trace).
      split; [simpl; lia |]. split; [apply generation_spans_traffic | reflexivity]. }
    destruct (llm E (length (w_model_calls w)) messages) as [e | resp]; [exact Hstop |].
    unfold bind at 1. unfold first_choice.
    destruct (choices resp) as [| choice others]; [exact Hstop |].
    unfold ret at 1.
    destruct (requested_tool_calls choice) as [| tc tcs].
    { destruct (parse_final_answer E (final_text choice)) as [e | fa]; [exact Hstop |].
      rewrite (bind_ok _ _ w1 w1 fa eq_refl). rewrite finish_run.
      destruct (Hone fa) as (calls & reqs & mid & Hlen & Htr & Hw).
      exists calls, reqs, mid. split; [exact Hlen |]. split; [exact Htr |].
      split; [reflexivity | exact Hw]. }
    unfold bind at 1.
    destruct (run_tool_calls_world E (tc :: tcs)
                (messages ++ [AssistantMsg (cm_content choice) (tc :: tcs)])%list w1)
      as (reqs & spans & Hw & _ & _ & Htr).
    destruct (run_tool_calls E (TOOL_DISPATCH E) (tc :: tcs)
                (messages ++ [AssistantMsg (cm_content choice) (tc :: tcs)])%list w1)
      as [[e | messages'] w2]; simpl in Hw; subst w2.
    { exists [messages], reqs, (generation_spans E trace ++ spans)%list.
      split; [simpl; lia |].
      split; [apply (run_traffic_app E [] reqs); [apply generation_spans_traffic | exact Htr] |].
      unfold w1. rewrite grown_grown. reflexivity. }
    destruct (IH messages' (grown w1 [] reqs spans)) as (calls & reqs' & mid & Hlen & Htr' & Hres).
    exists (messages :: calls), (reqs ++ reqs')%list,
      ((generation_spans E trace ++ spans) ++ mid)%list.
    split; [simpl; lia |].
    split.
    { apply run_traffic_app; [| exact Htr'].
      apply (run_traffic_app E [] reqs); [apply generation_spans_traffic | exact Htr]. }
    destruct (agent_loop E (TOOL_DISPATCH E) trace steps messages' (grown w1 [] reqs spans))
      as [[e | [fa url]] w3].
    + rewrite Hres. unfold w1. rewrite !grown_grown. simpl.
      rewrite <- ?app_assoc. reflexivity.
    + destruct Hres as [Hurl Hw3]. split; [exact Hurl |].
      rewrite Hw3. unfold w1. rewrite !grown_grown. simpl.
      rewrite <- !app_assoc. reflexivity.
Qed.

Lemma run_with_prompt_run (E : env) (system_prompt user_input : string)
    (customer_id max_steps : Z) (w : world) :
  exists calls reqs mid fa error,
    (length calls <= Z.to_nat max_steps)%nat
    /\ run_traffic E reqs mid
    /\ run_with_prompt E (TOOL_DISPATCH E) system_prompt user_input customer_id max_steps w
       = (inr (fa, trace_url_of E (langfuse E)),
          grown w calls reqs
            (opening_spans E ++ mid ++ closing_spans (langfuse E) fa error))
    /\ match error with
       | Some e => fa = unexpected_error_answer e
       | None =>
           fa = step_limit_answer \/ exists content, parse_final_answer E content = inr fa
       end.
Proof.
  unfold run_with_prompt.
  rewrite (bind_ok _ _ _ _ _ (create_trace_run E customer_id user_input w)).
  set (w0 := grown w [] [] (opening_spans E)).
  set (messages := [SystemMsg system_prompt; UserMsg user_input]).
  destruct (agent_loop_run E (langfuse E) (Z.to_nat max_steps) messages w0)
    as (calls & reqs & mid & Hlen & Htr & Hres).
  exists calls, reqs, mid.
  destruct (agent_loop E (TOOL_DISPATCH E) (langfuse E) (Z.to_nat max_steps) messages w0)
    as [[e | [fa url]] w1] eqn:Hloop.
  - exists (unexpected_error_answer e), (Some e).
    split; [exact Hlen |]. split; [exact Htr |].
    rewrite (try_except_raise _ _ _ _ _ Hloop), finish_run, Hres.
    unfold w0. rewrite !grown_grown. simpl. rewrite ?app_nil_r, <- ?app_assoc.
    split; reflexivity.
  - destruct Hres as [-> ->]. exists fa, None.
    split; [exact Hlen |]. split; [exact Htr |].
    rewrite (try_except_ok _ _ _ _ _ Hloop).
    unfold w0. rewrite !grown_grown. simpl. rewrite ?app_nil_r, <- ?app_assoc.
    split; [reflexivity |].
    destruct (agent_loop_answer_source E (TOOL_DISPATCH E) (langfuse E) _ _ _ _ _ _ Hloop)
      as [Hlimit | (choice & _ & Hparse)]; [left; exact Hlimit | right; eauto].
Qed.

(** X8: a run only appends to the logs of the world, whatever the
    model and the backend do: at most [max_steps] model calls, and requests
    to URLs under the configured backend only. *)
Theorem run_stays_within_budget (E : env) (system_prompt user_input : string)
    (customer_id max_steps : Z) (w : world) :
  exists calls reqs spans,
    snd (run_with_prompt E (TOOL_DISPATCH E) system_prompt user_input customer_id max_steps w)
    = grown w calls reqs spans
    /\ (length calls <= Z.to_nat max_steps)%nat
    /\ Forall (fun req => String.prefix (rstrip_slash (BACKEND_BASE_URL E) ++ "/") (req_url req)
                          = true) reqs.
Proof.
  destruct (run_with_prompt_run E system_prompt user_input customer_id max_steps w)
    as (calls & reqs & mid & fa & error & Hlen & (Hto & _) & Hrun & _).
  exists calls, reqs. eexists. rewrite Hrun. simpl.
  split; [reflexivity |]. split; [exact Hlen |].
  apply Forall_forall. intros req Hin.
  rewrite forallb_forall in Hto. exact (Hto req Hin).
Qed.

(** X9: the invocations of one round call no model and send at most one
    request each, all of them to the backend, and leave at most two spans
    each. *)
Theorem tool_round_sends_one_request_each (E : env) (tool_calls : list tool_call)
    (messages : list message) (w : world) :
  exists reqs spans,
    snd (run_tool_calls E (TOOL_DISPATCH E) tool_calls messages w) = grown w [] reqs spans
    /\ (length reqs <= length tool_calls)%nat
    /\ (length spans <= 2 * length tool_calls)%nat
    /\ forallb (to_backend E) reqs = true
    /\ (langfuse E = None -> spans = []).
Proof.
  destruct (run_tool_calls_world E tool_calls messages w)
    as (reqs & spans & Hw & Hlen & Hslen & Hto & _ & Hoff).
  exists reqs, spans. repeat split; try assumption.
  intros Hnone. apply Hoff. unfold _is_enabled. rewrite Hnone. reflexivity.
Qed.

(** X10: every run returns, with the trace URL that the settings alone
    determine.  Its spans are the opening span, plain spans of model calls
    and tools, and, last, the update that closes the trace with the very
    answer returned (and the failure, when the answer reports one); a trace
    is updated once.  With tracing off no span is left and no URL returned. *)
Theorem run_closes_its_trace (E : env) (system_prompt user_input : string)
    (customer_id max_steps : Z) (w : world) :
  exists fa mid error w',
    run_with_prompt E (TOOL_DISPATCH E) system_prompt user_input customer_id max_steps w
    = (inr (fa, trace_url_of E (langfuse E)), w')
    /\ w_spans w'
       = (w_spans w ++ opening_spans E ++ mid ++ closing_spans (langfuse E) fa error)%list
    /\ forallb is_plain_span mid = true
    /\ (forall e, error = Some e -> fa = unexpected_error_answer e)
    /\ (error = None ->
        fa = step_limit_answer \/ exists content, parse_final_answer E content = inr fa)
    /\ (langfuse E = None -> w_spans w' = w_spans w /\ trace_url_of E (langfuse E) = None).
Proof.
  destruct (run_with_prompt_run E system_prompt user_input customer_id max_steps w)
    as (calls & reqs & mid & fa & error & Hlen & (Hto & Hplain & Hoff) & Hrun & Hshape).
  exists fa, mid, error. eexists. split; [exact Hrun |]. simpl.
  split; [reflexivity |]. split; [exact Hplain |].
  split; [intros e ->; exact Hshape |].
  split; [intros ->; exact Hshape |].
  intros Hnone.
  assert (Hmid : mid = []) by (apply Hoff; unfold _is_enabled; rewrite Hnone; reflexivity).
  unfold opening_spans, closing_spans. rewrite Hmid, Hnone. simpl.
  split; [apply app_nil_r | reflexivity].
Qed.

(** X11: [end_trace] never raises and records at most one update.  It
    returns a trace URL only with a trace whose update succeeded and whose
    id is not empty, and the URL is then the host without trailing slashes,
    [/trace/] and the id. *)
Theorem end_trace_never_raises (E : env) (trace : option observation) (output : value)
    (error : option exc) (w : world) :
  exists tid url,
    end_trace E trace output error w
    = (inr (tid, url), grown w [] [] (closing_spans trace output error))
    /\ (length (closing_spans trace output error) <= 1)%nat
    /\ url = trace_url_of E trace
    /\ (forall address,
          url = Some address ->
          exists obs t host,
            trace = Some obs /\ update_raises obs = false
            /\ tid = Some t /\ t <> ""
            /\ address = host ++ "/trace/" ++ t
            /\ ends_with_slash host = false)
    /\ (url = None -> tid = None \/ tid = Some "")
    /\ (forall obs, trace = Some obs -> update_raises obs = true -> tid = None).
Proof.
  unfold end_trace, trace_url_of, closing_spans, bind, ret, record_span.
  destruct trace as [obs |].
  - destruct (update_raises obs) eqn:Hup; simpl.
    + do 2 eexists. rewrite grown_nothing. split; [reflexivity |].
      split; [lia |]. split; [reflexivity |].
      split; [discriminate |]. split; [left; reflexivity | reflexivity].
    + do 2 eexists. split.
      { unfold grown. simpl. rewrite !app_nil_r. reflexivity. }
      split; [simpl; lia |]. split; [reflexivity |].
      split.
      * intros address Haddr.
        destruct (trace_id obs) as [t |]; [| discriminate].
        destruct (String.eqb t "") eqn:Ht; [discriminate |].
        injection Haddr as <-. apply String.eqb_neq in Ht.
        exists obs, t. eexists.
        split; [reflexivity |]. split; [exact Hup |]. split; [reflexivity |].
        split; [exact Ht |]. split; [reflexivity | apply rstrip_slash_no_trailing].
      * split.
        -- intros Hnone. destruct (trace_id obs) as [t |]; [| left; reflexivity].
           destruct (String.eqb t "") eqn:Ht; [| discriminate].
           apply String.eqb_eq in Ht. subst t. right. reflexivity.
        -- intros obs' H. injection H as <-. congruence.
  - simpl. do 2 eexists. rewrite grown_nothing. split; [reflexivity |].
    split; [lia |]. split; [reflexivity |].
    split; [discriminate |]. split; [left; reflexivity | discriminate].
Qed.

(** ** Failures of the first round *)

(** X12: without an API key (unset or empty) a run with at least one step
    calls no model and sends no request: it answers with the status "error"
    and the message of [get_client]'s RuntimeError, and the trace, when
    there is one, is opened and closed with that failure. *)
Theorem missing_api_key_is_reported (E : env) (dispatch : list (string * pyfun))
    (system_prompt user_input : string) (customer_id max_steps : Z) (w : world) :
  api_key_configured E = false ->
  0 < max_steps ->
  run_with_prompt E dispatch system_prompt user_input customer_id max_steps w
  = (inr (VDict [("message",
                  VStr "Unexpected error in agent: OPENAI_API_KEY is not set. Please configure it in the .env file before running the agent.");
                 ("status", VStr "error")],
          trace_url_of E (langfuse E)),
     grown w [] []
       (opening_spans E
        ++ closing_spans (langfuse E) (unexpected_error_answer api_key_error)
             (Some api_key_error))).
Proof.
  intros Hkey Hsteps. unfold run_with_prompt.
  rewrite (bind_ok _ _ _ _ _ (create_trace_run E customer_id user_input w)).
  destruct (Z.to_nat max_steps) as [| steps] eqn:Hnat; [lia |].
  assert (Hloop : agent_loop E dispatch (langfuse E) (S steps)
                    [SystemMsg system_prompt; UserMsg user_input]
                    (grown w [] [] (opening_spans E))
                  = (inl api_key_error, grown w [] [] (opening_spans E))).
  { cbn [agent_loop]. unfold bind at 1. rewrite call_llm_run, Hkey. reflexivity. }
  rewrite (try_except_raise _ _ _ _ _ Hloop), finish_run, grown_grown.
  reflexivity.
Qed.

Lemma missing_api_key_is_reported_witness :
  api_key_configured (with_api_key (Some "") (reference_env hello_model pharmacy_server)) = false
  /\ 0 < 5
  /\ run_with_prompt (with_api_key (Some "") (reference_env hello_model pharmacy_server))
       (TOOL_DISPATCH (with_api_key (Some "") (reference_env hello_model pharmacy_server)))
       "You are a pharmacist assistant." "I need 5 Paracetamol" 12 5 empty_world
     = (inr (VDict [("message",
                     VStr "Unexpected error in agent: OPENAI_API_KEY is not set. Please configure it in the .env file before running the agent.");
                    ("status", VStr "error")], None),
        empty_world).
Proof.
  split; [reflexivity |]. split; [lia |].
  apply (missing_api_key_is_reported
           (with_api_key (Some "") (reference_env hello_model pharmacy_server))
           (TOOL_DISPATCH (with_api_key (Some "") (reference_env hello_model pharmacy_server)))
           "You are a pharmacist assistant." "I need 5 Paracetamol" 12 5 empty_world);
    [reflexivity | lia].
Defined.

(** X13: when the first model call of a run fails, because the client
    raises or because the completion has no choice, the run stops after that
    one call without any request to the backend and answers with the status
    "error" and the failure's description in the message. *)
Theorem first_model_failure_is_reported (E : env) (dispatch : list (string * pyfun))
    (system_prompt user_input : string) (customer_id max_steps : Z) (w : world) (e : exc) :
  api_key_configured E = true ->
  0 < max_steps ->
  first_round_fails E w [SystemMsg system_prompt; UserMsg user_input] e ->
  run_with_prompt E dispatch system_prompt user_input customer_id max_steps w
  = (inr (VDict [("message", VStr ("Unexpected error in agent: " ++ exc_str e));
                 ("status", VStr "error")],
          trace_url_of E (langfuse E)),
     grown w [[SystemMsg system_prompt; UserMsg user_input]] []
       (opening_spans E ++ generation_spans E (langfuse E)
        ++ closing_spans (langfuse E) (unexpected_error_answer e) (Some e))).
Proof.
  intros Hkey Hsteps Hfail. unfold run_with_prompt.
  rewrite (bind_ok _ _ _ _ _ (create_trace_run E customer_id user_input w)).
  destruct (Z.to_nat max_steps) as [| steps] eqn:Hnat; [lia |].
  set (messages := [SystemMsg system_prompt; UserMsg user_input]) in *.
  assert (Hloop : agent_loop E dispatch (langfuse E) (S steps) messages
                    (grown w [] [] (opening_spans E))
                  = (inl e, grown (grown w [] [] (opening_spans E)) [messages] []
                              (generation_spans E (langfuse E)))).
  { cbn [agent_loop]. unfold bind at 1. rewrite call_llm_run, Hkey.
    assert (Hlen : length (w_model_calls (grown w [] [] (opening_spans E)))
                   = length (w_model_calls w)).
    { simpl. rewrite app_nil_r. reflexivity. }
    rewrite Hlen.
    destruct Hfail as [Hllm | [Hllm ->]]; rewrite Hllm; reflexivity. }
  rewrite (try_except_raise _ _ _ _ _ Hloop), finish_run, !grown_grown. simpl.
  rewrite <- ?app_assoc. reflexivity.
Qed.

Lemma first_model_failure_is_reported_witness :
  api_key_configured (traced_env choiceless_model pharmacy_server) = true
  /\ 0 < 5
  /\ first_round_fails (traced_env choiceless_model pharmacy_server) empty_world
       [SystemMsg "You are a pharmacist assistant."; UserMsg "I need 5 Paracetamol"]
       (Exc IndexError "list index out of range")
  /\ run_with_prompt (traced_env choiceless_model pharmacy_server)
       (TOOL_DISPATCH (traced_env choiceless_model pharmacy_server))
       "You are a pharmacist assistant." "I need 5 Paracetamol" 12 5 empty_world
     = (inr (VDict [("message", VStr "Unexpected error in agent: list index out of range");
                    ("status", VStr "error")],
             Some "https://cloud.langfuse.com/trace/trace-1"),
        World [[SystemMsg "You are a pharmacist assistant."; UserMsg "I need 5 Paracetamol"]]
          []
          [Span "pharmacy-agent-run"; Span "llm-generation";
           TraceUpdate
             (VDict [("message", VStr "Unexpected error in agent: list index out of range");
                     ("status", VStr "error")])
             (Some "list index out of range")]).
Proof.
  split; [reflexivity |]. split; [lia |].
  split; [right; split; reflexivity |].
  apply (first_model_failure_is_reported (traced_env choiceless_model pharmacy_server)
           (TOOL_DISPATCH (traced_env choiceless_model pharmacy_server))
           "You are a pharmacist assistant." "I need 5 Paracetamol" 12 5 empty_world
           (Exc IndexError "list index out of range"));
    [reflexivity | lia | right; split; reflexivity].
Defined.

(** ** The callers of [run_agent] *)

Lemma run_agent_stops_at_the_prompt (E : env) (user_input : string)
    (customer_id max_steps : Z) (w : world) :
  run_agent E user_input customer_id max_steps w
  = (inl (Exc KeyError (py_repr_str missing_key)), w).
Proof.
  unfold run_agent. unfold bind, lift.
  rewrite system_prompt_format_raises. reflexivity.
Qed.

(** X14: the chat endpoint answers every request with status 500 and
    the detail [' "message"'], the text of the KeyError of the prompt
    template; no model is called and no request reaches the backend. *)
Theorem chat_endpoint_always_fails (E : env) (invalid : value -> string)
    (request : ChatRequest) (w : world) :
  chat_with_agent E invalid request w
  = (HTTPException 500 ("' " ++ quoted "message" ++ "'"), w).
Proof.
  unfold chat_with_agent. rewrite run_agent_stops_at_the_prompt. reflexivity.
Qed.

Lemma cli_requests_run (E : env) (strip : string -> string) (dumps_indent : value -> string)
    (customer_id : Z) :
  forall (events : list console_event) (out : list console_output) (w : world),
    forallb is_cli_notice out = true ->
    exists out',
      cli_requests E strip dumps_indent customer_id events out w
      = (if has_ctrl_c events then Exited else RaisedEOFError, out', w)
      /\ forallb is_cli_notice out' = true.
Proof.
  induction events as [| [line |] rest IH]; intros out w Hout.
  - eexists. split; [reflexivity |]. rewrite forallb_app, Hout. reflexivity.
  - cbn [cli_requests has_ctrl_c existsb orb].
    destruct (String.eqb (strip line) "").
    + apply IH. rewrite !forallb_app, Hout. reflexivity.
    + rewrite run_agent_stops_at_the_prompt. cbn [is_RuntimeError exc_cls].
      apply IH. rewrite !forallb_app, Hout. reflexivity.
  - eexists. split; [reflexivity |]. rewrite forallb_app, Hout. reflexivity.
Qed.

Lemma cli_customer_run (E : env) (strip : string -> string) (dumps_indent : value -> string) :
  forall (events : list console_event) (out : list console_output) (w : world),
    forallb is_cli_notice out = true ->
    exists out',
      cli_customer E strip dumps_indent events out w
      = (if has_ctrl_c events then Exited else RaisedEOFError, out', w)
      /\ forallb is_cli_notice out' = true.
Proof.
  induction events as [| [line |] rest IH]; intros out w Hout.
  - eexists. split; [reflexivity |]. rewrite forallb_app, Hout. reflexivity.
  - cbn [cli_customer has_ctrl_c existsb orb].
    destruct (String.eqb (strip line) "").
    + apply IH. rewrite !forallb_app, Hout. reflexivity.
    + destruct (int_of_str E (strip line)) as [customer_id |].
      * apply cli_requests_run. rewrite forallb_app, Hout. reflexivity.
      * apply IH. rewrite !forallb_app, Hout. reflexivity.
  - eexists. split; [reflexivity |]. rewrite forallb_app, Hout. reflexivity.
Qed.

(** X15: whatever is typed, the command-line loop never shows an answer of
    the agent: it writes only its banner, its prompts, the notices about the
    customer id and empty input, the line
    [Unexpected error while running agent: ' "message"'] and the farewell;
    it calls no model and sends no request; and it ends only on Ctrl+C or,
    with EOFError, at the end of the input, never through the branch for a
    RuntimeError of the agent. *)
Theorem cli_loop_never_shows_an_answer (E : env) (strip : string -> string)
    (dumps_indent : value -> string) (events : list console_event) (w : world) :
  exists out,
    _cli_loop E strip dumps_indent events w
    = (if has_ctrl_c events then Exited else RaisedEOFError, out, w)
    /\ forallb is_cli_notice out = true.
Proof. unfold _cli_loop. apply cli_customer_run. reflexivity. Qed.

(** * The backend *)

Lemma webhook_keeps_database (S : Backend.server) (order : Backend.Order)
    (medicine : Backend.Medicine) (quantity : Z) (customer : Backend.Customer)
    (st : Backend.state) :
  Backend.st_db (Backend.trigger_warehouse_webhook S order medicine quantity customer st)
  = Backend.st_db st.
Proof.
  unfold Backend.trigger_warehouse_webhook, Backend.send_mock_webhook,
    Backend.send_mock_confirmation_email, Backend.say.
  destruct (Backend.WAREHOUSE_WEBHOOK_URL S) as [url |];
    [destruct (String.eqb url "") |];
    try (destruct (Backend.warehouse S _ url _) as [e | code];
         [destruct (is_RequestException e) |]);
    simpl; destruct (Backend.c_email customer) as [email |];
    try destruct (String.eqb email ""); reflexivity.
Qed.

(** The three ways [create_order] ends: it raises with nothing recorded, it
    turns the request down, or it commits the order and goes on to answer. *)
Lemma order_cases (S : Backend.server) (payload : Backend.OrderCreate) (st : Backend.state) :
  (exists e,
      Backend.create_order S payload st = (inl e, st)
      /\ (Backend.query_fault S payload (Backend.st_db st) = Some e
          \/ (Backend.query_fault S payload (Backend.st_db st) = None
              /\ Backend.write_fault S (Backend.st_db st) = Some e)))
  \/ (exists reason,
        Backend.create_order S payload st = (inr (Backend.rejected reason), st)
        /\ In reason ["Customer not found"; "Medicine not found";
                      "Quantity must be greater than zero"; "Insufficient stock"]
        /\ (Backend.find_customer (Backend.st_db st) (Backend.oc_customer_id payload) = None
            \/ Backend.find_medicine S (Backend.st_db st) (Backend.oc_medicine_name payload)
               = None
            \/ exists medicine,
                 Backend.find_medicine S (Backend.st_db st) (Backend.oc_medicine_name payload)
                 = Some medicine
                 /\ ~ 0 < Backend.oc_quantity payload <= Backend.m_stock_quantity medicine))
  \/ (exists customer medicine,
        Backend.find_customer (Backend.st_db st) (Backend.oc_customer_id payload)
        = Some customer
        /\ Backend.find_medicine S (Backend.st_db st) (Backend.oc_medicine_name payload)
           = Some medicine
        /\ 0 < Backend.oc_quantity payload <= Backend.m_stock_quantity medicine
        /\ Backend.create_order S payload st
           = Backend.answer_order S
               (Backend.new_order S (Backend.st_db st) customer medicine)
               (Backend.sold medicine (Backend.oc_quantity payload))
               (Backend.oc_quantity payload) customer
               (Backend.MkState
                  (Backend.record_order (Backend.st_db st)
                     (Backend.new_order S (Backend.st_db st) customer medicine) medicine
                     (Backend.oc_quantity payload))
                  (Backend.st_posts st) (Backend.st_log st))).
Proof.
  unfold Backend.create_order, Backend.query_fault, Backend.write_fault, Backend.execute.
  destruct (Backend.db_fault S (Backend.st_db st)
              (Backend.SelectCustomer (Backend.oc_customer_id payload))) as [e |].
  { left. exists e. split; [reflexivity | left; reflexivity]. }
  destruct (Backend.find_customer _ _) as [customer |];
    [| right; left; eexists; split; [reflexivity |]; split; [simpl; auto | left; reflexivity]].
  destruct (Backend.db_fault S (Backend.st_db st)
              (Backend.SelectMedicine (Backend.oc_medicine_name payload))) as [e |].
  { left. exists e. split; [reflexivity | left; reflexivity]. }
  destruct (Backend.find_medicine S _ _) as [medicine |];
    [| right; left; eexists; split; [reflexivity |]; split;
       [simpl; auto | right; left; reflexivity]].
  destruct (Backend.oc_quantity payload <=? 0) eqn:H0.
  { right; left; eexists; split; [reflexivity |]. split; [simpl; auto |].
    right; right. exists medicine. split; [reflexivity |]. apply Z.leb_le in H0. lia. }
  destruct (Backend.m_stock_quantity medicine <? Backend.oc_quantity payload) eqn:H1.
  { right; left; eexists; split; [reflexivity |]. split; [simpl; auto 6 |].
    right; right. exists medicine. split; [reflexivity |]. apply Z.ltb_lt in H1. lia. }
  apply Z.leb_gt in H0. apply Z.ltb_ge in H1.
  destruct (Backend.db_fault S (Backend.st_db st) Backend.Flush) as [e |].
  { left. exists e. split; [reflexivity | right; split; reflexivity]. }
  destruct (Backend.db_fault S (Backend.st_db st) Backend.Commit) as [e |].
  { left. exists e. split; [reflexivity | right; split; reflexivity]. }
  right; right. exists customer, medicine.
  split; [reflexivity |]. split; [reflexivity |]. split; [lia | reflexivity].
Qed.

(** The answer after the commit: the committed database stays as it is. *)
Lemma answer_order_cases (S : Backend.server) (order : Backend.Order)
    (medicine : Backend.Medicine) (quantity : Z) (customer : Backend.Customer)
    (st : Backend.state) :
  Backend.st_db (snd (Backend.answer_order S order medicine quantity customer st))
  = Backend.st_db st
  /\ ((exists e,
          Backend.db_fault S (Backend.st_db st) (Backend.Refresh (Backend.o_id order)) = Some e
          /\ Backend.answer_order S order medicine quantity customer st = (inl e, st))
      \/ (Backend.db_fault S (Backend.st_db st) (Backend.Refresh (Backend.o_id order)) = None
          /\ Backend.answer_order S order medicine quantity customer st
             = (inr (Backend.MkOrderResponse (Backend.o_status order)
                       (Some (Backend.o_id order)) None),
                Backend.trigger_warehouse_webhook S order medicine quantity customer st))).
Proof.
  unfold Backend.answer_order, Backend.execute.
  destruct (Backend.db_fault S (Backend.st_db st) (Backend.Refresh (Backend.o_id order)))
    as [e |]; simpl.
  - split; [reflexivity |]. left. exists e. split; reflexivity.
  - split; [apply webhook_keeps_database |]. right. split; reflexivity.
Qed.

(** The database after [create_order]: untouched, or with the order
    recorded. *)
Lemma order_database (S : Backend.server) (payload : Backend.OrderCreate)
    (st : Backend.state) :
  Backend.st_db (snd (Backend.create_order S payload st)) = Backend.st_db st
  \/ exists customer medicine,
       Backend.find_customer (Backend.st_db st) (Backend.oc_customer_id payload)
       = Some customer
       /\ Backend.find_medicine S (Backend.st_db st) (Backend.oc_medicine_name payload)
          = Some medicine
       /\ 0 < Backend.oc_quantity payload <= Backend.m_stock_quantity medicine
       /\ Backend.st_db (snd (Backend.create_order S payload st))
          = Backend.record_order (Backend.st_db st)
              (Backend.new_order S (Backend.st_db st) customer medicine) medicine
              (Backend.oc_quantity payload).
Proof.
  destruct (order_cases S payload st)
    as [(e & -> & _) | [(reason & -> & _) | (customer & medicine & Hc & Hm & Hq & ->)]].
  - left. reflexivity.
  - left. reflexivity.
  - right. exists customer, medicine. repeat split; try assumption; try lia.
    apply (answer_order_cases S).
Qed.

Lemma send_mock_webhook_posts (S : Backend.server) (order_id : Z) (payload : value)
    (st : Backend.state) :
  Backend.st_posts (snd (Backend.send_mock_webhook S order_id payload st))
  = (Backend.st_posts st ++ Backend.webhook_posts S order_id payload)%list
  /\ Backend.st_db (snd (Backend.send_mock_webhook S order_id payload st)) = Backend.st_db st.
Proof.
  unfold Backend.send_mock_webhook, Backend.webhook_posts, Backend.say.
  destruct (Backend.WAREHOUSE_WEBHOOK_URL S) as [url |];
    [destruct (String.eqb url "") |];
    try (destruct (Backend.warehouse S _ url _) as [e | code];
         [destruct (is_RequestException e) |]);
    simpl; rewrite ?app_nil_r; split; reflexivity.
Qed.

(** X16: [send_mock_webhook] posts at most once, to the configured URL
    and with the order id in the body, and not at all when no URL is
    configured.  It raises exactly when the post raises something that is not
    a RequestException, which the docstring rules out.  The database is not
    touched. *)
Theorem webhook_posts_at_most_once (S : Backend.server) (order_id : Z) (payload : value)
    (st : Backend.state) :
  Backend.st_posts (snd (Backend.send_mock_webhook S order_id payload st))
  = (Backend.st_posts st ++ Backend.webhook_posts S order_id payload)%list
  /\ (length (Backend.webhook_posts S order_id payload) <= 1)%nat
  /\ Backend.st_db (snd (Backend.send_mock_webhook S order_id payload st)) = Backend.st_db st
  /\ (forall e,
        fst (Backend.send_mock_webhook S order_id payload st) = inl e <->
        exists url,
          Backend.WAREHOUSE_WEBHOOK_URL S = Some url /\ url <> ""
          /\ Backend.warehouse S (length (Backend.st_posts st)) url
               (VDict [("order_id", VInt order_id); ("payload", payload)]) = inl e
          /\ is_RequestException e = false).
Proof.
  destruct (send_mock_webhook_posts S order_id payload st) as [Hposts Hdb].
  split; [exact Hposts |]. split.
  { unfold Backend.webhook_posts.
    destruct (Backend.WAREHOUSE_WEBHOOK_URL S) as [url |];
      [destruct (String.eqb url "") |]; simpl; lia. }
  split; [exact Hdb |].
  intros e. unfold Backend.send_mock_webhook.
  destruct (Backend.WAREHOUSE_WEBHOOK_URL S) as [url |].
  - destruct (String.eqb url "") eqn:Hurl.
    + apply String.eqb_eq in Hurl. split; [discriminate |].
      intros (url' & Hsome & Hne & _). injection Hsome as <-. contradiction.
    + apply String.eqb_neq in Hurl.
      destruct (Backend.warehouse S _ url _) as [e' | code] eqn:Hpost.
      * destruct (is_RequestException e') eqn:Hreq; simpl.
        -- split; [discriminate |].
           intros (url' & Hsome & _ & Hw & Hcls). injection Hsome as <-.
           rewrite Hpost in Hw. injection Hw as <-. congruence.
        -- split.
           ++ intros H. injection H as <-. exists url. repeat split; assumption.
           ++ intros (url' & Hsome & _ & Hw & _). injection Hsome as <-.
              rewrite Hpost in Hw. injection Hw as <-. reflexivity.
      * simpl. split; [discriminate |].
        intros (url' & Hsome & _ & Hw & _). injection Hsome as <-.
        rewrite Hpost in Hw. discriminate.
  - split; [discriminate |]. intros (url' & Hsome & _). discriminate.
Qed.

(** X17: [trigger_warehouse_webhook] leaves the database alone and
    posts what [send_mock_webhook] posts.  The confirmation e-mail is logged
    last, and exactly when the customer has an e-mail address and
    [send_mock_webhook] did not raise: an exception of the webhook that is
    not a RequestException is swallowed together with the e-mail. *)
Theorem confirmation_follows_webhook (S : Backend.server) (order : Backend.Order)
    (medicine : Backend.Medicine) (quantity : Z) (customer : Backend.Customer)
    (st : Backend.state) :
  exists payload,
    Backend.st_db (Backend.trigger_warehouse_webhook S order medicine quantity customer st)
    = Backend.st_db st
    /\ Backend.st_posts (Backend.trigger_warehouse_webhook S order medicine quantity customer st)
       = (Backend.st_posts st ++ Backend.webhook_posts S (Backend.o_id order) payload)%list
    /\ Backend.st_log (Backend.trigger_warehouse_webhook S order medicine quantity customer st)
       = (Backend.st_log (snd (Backend.send_mock_webhook S (Backend.o_id order) payload st))
          ++ if Backend.webhook_raises S (Backend.o_id order) payload st then []
             else match Backend.c_email customer with
                  | Some email =>
                      if String.eqb email "" then []
                      else [Backend.ConfirmationEmail email payload]
                  | None => []
                  end)%list.
Proof.
  eexists. split; [apply webhook_keeps_database |].
  unfold Backend.trigger_warehouse_webhook, Backend.webhook_raises.
  split.
  - pose proof (send_mock_webhook_posts S (Backend.o_id order)
                  (VDict [("customer_id", VInt (Backend.c_id customer));
                          ("customer_email", Backend.email_value (Backend.c_email customer));
                          ("medicine_name", VStr (Backend.m_name medicine));
                          ("quantity", VInt quantity);
                          ("order_status", VStr (Backend.o_status order));
                          ("order_id", VInt (Backend.o_id order))]) st) as [Hposts _].
    destruct (Backend.send_mock_webhook S _ _ st) as [[e | u] st']; simpl in Hposts.
    + exact Hposts.
    + unfold Backend.send_mock_confirmation_email, Backend.say.
      destruct (Backend.c_email customer) as [email |];
        [destruct (String.eqb email "") |]; exact Hposts.
  - destruct (Backend.send_mock_webhook S _ _ st) as [[e | u] st']; simpl.
    + rewrite app_nil_r. reflexivity.
    + unfold Backend.send_mock_confirmation_email, Backend.say.
      destruct (Backend.c_email customer) as [email |];
        [destruct (String.eqb email "") |]; simpl; rewrite ?app_nil_r; reflexivity.
Qed.

Lemma trigger_posts (S : Backend.server) (order : Backend.Order) (medicine : Backend.Medicine)
    (quantity : Z) (customer : Backend.Customer) (st : Backend.state) :
  exists payload,
    Backend.st_posts (Backend.trigger_warehouse_webhook S order medicine quantity customer st)
    = (Backend.st_posts st ++ Backend.webhook_posts S (Backend.o_id order) payload)%list.
Proof.
  unfold Backend.trigger_warehouse_webhook. eexists.
  pose proof (send_mock_webhook_posts S (Backend.o_id order)
                (VDict [("customer_id", VInt (Backend.c_id customer));
                        ("customer_email", Backend.email_value (Backend.c_email customer));
                        ("medicine_name", VStr (Backend.m_name medicine));
                        ("quantity", VInt quantity);
                        ("order_status", VStr (Backend.o_status order));
                        ("order_id", VInt (Backend.o_id order))]) st) as [Hposts _].
  destruct (Backend.send_mock_webhook S _ _ st) as [[e | u] st']; simpl in Hposts.
  - exact Hposts.
  - unfold Backend.send_mock_confirmation_email, Backend.say.
    destruct (Backend.c_email customer) as [email |];
      [destruct (String.eqb email "") |]; exact Hposts.
Qed.

(** X18: the order route ends in one of three ways.  It raises with the
    state of the backend untouched, when one of its two queries raises
    (SQLite refuses a customer id beyond 64 bits with an OverflowError) or
    when the writing of the order does.  It turns the request down, with one
    of four reasons, no order id and the state untouched.  Or it records the
    order: then the customer and the medicine exist, the quantity is positive
    and within the stock, the status is "pending" exactly when the medicine
    needs a prescription and "approved" otherwise, and one order and one
    order item with the same id are added; the route then answers with that
    status and id and the warehouse is posted to at most once, unless a read
    after the commit raises, in which case the route raises and the
    warehouse is not notified. *)
Theorem order_is_rejected_or_recorded (S : Backend.server) (payload : Backend.OrderCreate)
    (st : Backend.state) :
  (exists e,
      Backend.create_order S payload st = (inl e, st)
      /\ (Backend.query_fault S payload (Backend.st_db st) = Some e
          \/ (Backend.query_fault S payload (Backend.st_db st) = None
              /\ Backend.write_fault S (Backend.st_db st) = Some e)))
  \/ (exists reason,
        Backend.create_order S payload st
        = (inr (Backend.MkOrderResponse "rejected" None (Some reason)), st)
        /\ In reason ["Customer not found"; "Medicine not found";
                      "Quantity must be greater than zero"; "Insufficient stock"])
  \/ (exists id medicine order hook,
        Backend.find_customer (Backend.st_db st) (Backend.oc_customer_id payload) <> None
        /\ Backend.find_medicine S (Backend.st_db st) (Backend.oc_medicine_name payload)
           = Some medicine
        /\ 0 < Backend.oc_quantity payload <= Backend.m_stock_quantity medicine
        /\ Backend.orders (Backend.st_db (snd (Backend.create_order S payload st)))
           = (Backend.orders (Backend.st_db st) ++ [order])%list
        /\ Backend.o_id order = id
        /\ Backend.o_customer_id order = Backend.oc_customer_id payload
        /\ Backend.o_status order
           = (if Backend.m_prescription_required medicine then "pending" else "approved")
        /\ Backend.order_items (Backend.st_db (snd (Backend.create_order S payload st)))
           = (Backend.order_items (Backend.st_db st)
              ++ [Backend.MkOrderItem id (Backend.m_id medicine) (Backend.oc_quantity payload)])%list
        /\ Backend.customers (Backend.st_db (snd (Backend.create_order S payload st)))
           = Backend.customers (Backend.st_db st)
        /\ ((fst (Backend.create_order S payload st)
             = inr (Backend.MkOrderResponse (Backend.o_status order) (Some id) None)
             /\ Backend.st_posts (snd (Backend.create_order S payload st))
                = (Backend.st_posts st ++ Backend.webhook_posts S id hook)%list)
            \/ (exists e,
                  Backend.db_fault S (Backend.st_db (snd (Backend.create_order S payload st)))
                    (Backend.Refresh id) = Some e
                  /\ fst (Backend.create_order S payload st) = inl e
                  /\ Backend.st_posts (snd (Backend.create_order S payload st))
                     = Backend.st_posts st
                  /\ Backend.st_log (snd (Backend.create_order S payload st))
                     = Backend.st_log st))).
Proof.
  destruct (order_cases S payload st)
    as [(e & Hrun & Hwhy) | [(reason & Hrun & Hin & _)
                            | (customer & medicine & Hc & Hm & Hq & Hrun)]].
  - left. exists e. split; assumption.
  - right; left. exists reason. split; assumption.
  - right; right.
    assert (Hcid : Backend.c_id customer = Backend.oc_customer_id payload).
    { unfold Backend.find_customer in Hc. apply find_some in Hc. lia. }
    set (order := Backend.new_order S (Backend.st_db st) customer medicine) in *.
    set (st' := Backend.MkState _ (Backend.st_posts st) (Backend.st_log st)) in *.
    destruct (trigger_posts S order (Backend.sold medicine (Backend.oc_quantity payload))
                (Backend.oc_quantity payload) customer st') as (hook & Hhook).
    exists (Backend.o_id order), medicine, order, hook.
    destruct (answer_order_cases S order (Backend.sold medicine (Backend.oc_quantity payload))
                (Backend.oc_quantity payload) customer st')
      as [Hdb [(e & Hfault & Hanswer) | (Hfault & Hanswer)]];
      rewrite Hrun, Hanswer; cbn [fst snd].
    + split; [congruence |]. split; [exact Hm |]. split; [exact Hq |].
      split; [reflexivity |]. split; [reflexivity |]. split; [exact Hcid |].
      split; [reflexivity |]. split; [reflexivity |]. split; [reflexivity |].
      right. exists e. repeat split. exact Hfault.
    + rewrite webhook_keeps_database.
      split; [congruence |]. split; [exact Hm |]. split; [exact Hq |].
      split; [reflexivity |]. split; [reflexivity |]. split; [exact Hcid |].
      split; [reflexivity |]. split; [reflexivity |]. split; [reflexivity |].
      left. split; [reflexivity | exact Hhook].
Qed.

Lemma take_stock_nonnegative (medicine : Backend.Medicine) (quantity : Z)
    (rows : list Backend.Medicine) :
  quantity <= Backend.m_stock_quantity medicine ->
  Forall (fun m => 0 <= Backend.m_stock_quantity m) rows ->
  Forall (fun m => 0 <= Backend.m_stock_quantity m) (Backend.take_stock medicine quantity rows).
Proof.
  intros Hle Hall. unfold Backend.take_stock. induction Hall as [| m rows Hm _ IH]; simpl.
  - constructor.
  - constructor; [| exact IH].
    destruct (Backend.m_id m =? Backend.m_id medicine); simpl; lia.
Qed.

(** X19: the order route never oversells: when no medicine has a
    negative stock before a request, none has one after it, whatever the
    request. *)
Theorem stock_never_goes_negative (S : Backend.server) (payload : Backend.OrderCreate)
    (st : Backend.state) :
  Forall (fun m => 0 <= Backend.m_stock_quantity m) (Backend.medicines (Backend.st_db st)) ->
  Forall (fun m => 0 <= Backend.m_stock_quantity m)
    (Backend.medicines (Backend.st_db (snd (Backend.create_order S payload st)))).
Proof.
  intros Hall.
  destruct (order_database S payload st)
    as [-> | (customer & medicine & Hc & Hm & Hq & ->)]; [exact Hall |].
  simpl. apply take_stock_nonnegative; [lia | exact Hall].
Qed.

Lemma take_stock_absent (medicine : Backend.Medicine) (quantity : Z)
    (rows : list Backend.Medicine) :
  ~ In (Backend.m_id medicine) (map Backend.m_id rows) ->
  Backend.take_stock medicine quantity rows = rows.
Proof.
  unfold Backend.take_stock. induction rows as [| m rows IH]; intros Hnot; simpl.
  - reflexivity.
  - simpl in Hnot.
    destruct (Backend.m_id m =? Backend.m_id medicine) eqn:Heq.
    + apply Z.eqb_eq in Heq. exfalso. apply Hnot. left. exact Heq.
    + rewrite IH; [reflexivity |]. intros H. apply Hnot. right. exact H.
Qed.

Lemma take_stock_total (medicine : Backend.Medicine) (quantity : Z)
    (rows : list Backend.Medicine) :
  NoDup (map Backend.m_id rows) ->
  In medicine rows ->
  fold_right Z.add 0 (map Backend.m_stock_quantity (Backend.take_stock medicine quantity rows))
  = fold_right Z.add 0 (map Backend.m_stock_quantity rows) - quantity.
Proof.
  induction rows as [| m rows IH]; intros Hnodup Hin; [contradiction |].
  simpl in Hnodup. inversion Hnodup as [| ? ? Hfresh Hrest]; subst.
  destruct Hin as [-> | Hin].
  - change (Backend.take_stock medicine quantity (medicine :: rows))
      with ((if Backend.m_id medicine =? Backend.m_id medicine
             then Backend.MkMedicine (Backend.m_id medicine) (Backend.m_name medicine)
                    (Backend.m_stock_quantity medicine - quantity)
                    (Backend.m_prescription_required medicine)
             else medicine) :: Backend.take_stock medicine quantity rows).
    rewrite Z.eqb_refl, (take_stock_absent medicine quantity rows Hfresh). simpl. lia.
  - assert (Hne : (Backend.m_id m =? Backend.m_id medicine) = false).
    { apply Z.eqb_neq. intros Heq. apply Hfresh. rewrite Heq.
      apply in_map. exact Hin. }
    change (Backend.take_stock medicine quantity (m :: rows))
      with ((if Backend.m_id m =? Backend.m_id medicine
             then Backend.MkMedicine (Backend.m_id m) (Backend.m_name m)
                    (Backend.m_stock_quantity medicine - quantity)
                    (Backend.m_prescription_required m)
             else m) :: Backend.take_stock medicine quantity rows).
    rewrite Hne. simpl. rewrite (IH Hrest Hin). lia.
Qed.

(** X20: with unique medicine ids, as the primary key has them, the
    order route conserves units: whatever the request, the units in stock
    and the units sold add up to what they were. *)
Theorem units_are_conserved (S : Backend.server) (payload : Backend.OrderCreate)
    (st : Backend.state) :
  NoDup (map Backend.m_id (Backend.medicines (Backend.st_db st))) ->
  Backend.total_stock (Backend.st_db (snd (Backend.create_order S payload st)))
  + Backend.total_sold (Backend.st_db (snd (Backend.create_order S payload st)))
  = Backend.total_stock (Backend.st_db st) + Backend.total_sold (Backend.st_db st).
Proof.
  intros Hnodup.
  destruct (order_database S payload st)
    as [-> | (customer & medicine & Hc & Hm & Hq & ->)]; [reflexivity |].
  - unfold Backend.total_stock, Backend.total_sold. simpl.
    unfold Backend.find_medicine in Hm. apply find_some in Hm. destruct Hm as [Hin _].
    rewrite (take_stock_total medicine _ _ Hnodup Hin).
    rewrite map_app, fold_right_app. simpl.
    assert (Hshift : forall l a,
               fold_right Z.add a l = fold_right Z.add 0 l + a).
    { induction l as [| x l IHl]; intros a; simpl; [lia | rewrite IHl; lia]. }
    rewrite (Hshift _ (Backend.oc_quantity payload + 0)). lia.
Qed.

Lemma find_medicine_after_order (S : Backend.server) (medicine_name : string)
    (medicine : Backend.Medicine) (quantity : Z) (rows : list Backend.Medicine) :
  find (fun m => String.eqb (Backend.sql_lower S (Backend.m_name m))
                   (Backend.strip_lower S medicine_name)) rows = Some medicine ->
  find (fun m => String.eqb (Backend.sql_lower S (Backend.m_name m))
                   (Backend.strip_lower S medicine_name))
    (Backend.take_stock medicine quantity rows)
  = Some (Backend.MkMedicine (Backend.m_id medicine) (Backend.m_name medicine)
            (Backend.m_stock_quantity medicine - quantity)
            (Backend.m_prescription_required medicine)).
Proof.
  unfold Backend.take_stock. induction rows as [| m rows IH]; simpl; [discriminate |].
  destruct (String.eqb (Backend.sql_lower S (Backend.m_name m))
              (Backend.strip_lower S medicine_name)) eqn:Hname.
  - intros H. injection H as ->. rewrite Z.eqb_refl. simpl. rewrite Hname. reflexivity.
  - intros H. destruct (Backend.m_id m =? Backend.m_id medicine); simpl; rewrite Hname;
      exact (IH H).
Qed.

(** X21: the availability route and the order route agree whenever both
    answer.  When the availability route reports no such medicine, or raises
    on its query, the order route records nothing and any response it gives
    is a refusal.  For a medicine the availability route finds, [available]
    says whether the stock is positive; a response of the order route to a
    known customer is "pending" when a prescription is required and
    "approved" otherwise for a positive quantity within the reported stock,
    and a refusal for any other quantity; and after an order that was not
    refused the availability route, when it answers, reports the stock less
    the quantity.  When the database raises on no statement the order route
    does respond. *)
Theorem availability_agrees_with_ordering (S : Backend.server)
    (payload : Backend.OrderCreate) (st : Backend.state) :
  match Backend.check_medicine_availability S (Backend.oc_medicine_name payload)
          (Backend.st_db st) with
  | inr (Some a) =>
      Backend.ma_available a = (0 <? Backend.ma_stock_quantity a)
      /\ (forall r,
            fst (Backend.create_order S payload st) = inr r ->
            (Backend.find_customer (Backend.st_db st) (Backend.oc_customer_id payload)
             <> None ->
             (0 < Backend.oc_quantity payload <= Backend.ma_stock_quantity a ->
              Backend.or_status r
              = (if Backend.ma_prescription_required a then "pending" else "approved"))
             /\ (~ 0 < Backend.oc_quantity payload <= Backend.ma_stock_quantity a ->
                 Backend.or_status r = "rejected"))
            /\ (Backend.or_status r <> "rejected" ->
                Backend.db_fault S (Backend.st_db (snd (Backend.create_order S payload st)))
                  (Backend.SelectMedicine (Backend.oc_medicine_name payload)) = None ->
                Backend.check_medicine_availability S (Backend.oc_medicine_name payload)
                  (Backend.st_db (snd (Backend.create_order S payload st)))
                = inr (Some (Backend.MkMedicineAvailability
                               (0 <? Backend.ma_stock_quantity a - Backend.oc_quantity payload)
                               (Backend.ma_stock_quantity a - Backend.oc_quantity payload)
                               (Backend.ma_prescription_required a)))))
  | _ =>
      snd (Backend.create_order S payload st) = st
      /\ forall r,
           fst (Backend.create_order S payload st) = inr r -> Backend.or_status r = "rejected"
  end
  /\ ((forall db stmt, Backend.db_fault S db stmt = None) ->
      exists r, fst (Backend.create_order S payload st) = inr r).
Proof.
  split.
  - unfold Backend.check_medicine_availability.
    destruct (Backend.db_fault S (Backend.st_db st)
                (Backend.SelectMedicine (Backend.oc_medicine_name payload)))
      as [e |] eqn:Hfault.
    { destruct (order_cases S payload st)
        as [(e' & -> & _) | [(reason & -> & _)
                            | (customer & medicine & Hc & Hm & Hq & Hrun)]].
      - split; [reflexivity | discriminate].
      - split; [reflexivity |]. intros r H. injection H as <-. reflexivity.
      - exfalso. unfold Backend.create_order, Backend.execute in Hrun.
        destruct (Backend.db_fault S (Backend.st_db st)
                    (Backend.SelectCustomer (Backend.oc_customer_id payload))) as [e' |].
        + unfold Backend.answer_order, Backend.execute in Hrun.
          destruct (Backend.db_fault S _ (Backend.Refresh _)); [| discriminate].
          injection Hrun as _ Hst. apply (f_equal Backend.st_db) in Hst.
          apply (f_equal Backend.orders) in Hst. simpl in Hst.
          apply (f_equal (@length _)) in Hst. rewrite length_app in Hst. simpl in Hst. lia.
        + rewrite Hc, Hfault in Hrun.
          unfold Backend.answer_order, Backend.execute in Hrun.
          destruct (Backend.db_fault S _ (Backend.Refresh _)); [| discriminate].
          injection Hrun as _ Hst. apply (f_equal Backend.st_db) in Hst.
          apply (f_equal Backend.orders) in Hst. simpl in Hst.
          apply (f_equal (@length _)) in Hst. rewrite length_app in Hst. simpl in Hst. lia. }
    destruct (Backend.find_medicine S (Backend.st_db st) (Backend.oc_medicine_name payload))
      as [medicine |] eqn:Hm.
    + cbn [Backend.ma_available Backend.ma_stock_quantity Backend.ma_prescription_required].
      split; [reflexivity |]. intros r Hr.
      destruct (order_cases S payload st)
        as [(e' & Hrun & _) | [(reason & Hrun & _ & Hwhy)
                              | (customer & medicine' & Hc & Hm' & Hq & Hrun)]].
      * rewrite Hrun in Hr. discriminate.
      * rewrite Hrun in Hr. injection Hr as <-. split.
        -- intros Hcust. split; [| reflexivity].
           intros Hq. exfalso.
           destruct Hwhy as [Hnone | [Hnone | (medicine' & Hm' & Hnot)]].
           ++ contradiction.
           ++ congruence.
           ++ rewrite Hm in Hm'. injection Hm' as <-. contradiction.
        -- intros Hacc. exfalso. apply Hacc. reflexivity.
      * rewrite Hm in Hm'. injection Hm' as <-.
        destruct (answer_order_cases S
                    (Backend.new_order S (Backend.st_db st) customer medicine)
                    (Backend.sold medicine (Backend.oc_quantity payload))
                    (Backend.oc_quantity payload) customer
                    (Backend.MkState
                       (Backend.record_order (Backend.st_db st)
                          (Backend.new_order S (Backend.st_db st) customer medicine) medicine
                          (Backend.oc_quantity payload))
                       (Backend.st_posts st) (Backend.st_log st)))
          as [Hdb [(e' & _ & Hanswer) | (_ & Hanswer)]].
        { rewrite Hrun, Hanswer in Hr. discriminate. }
        rewrite Hrun in *. rewrite Hanswer in Hr. injection Hr as <-.
        split.
        -- intros _. split; [reflexivity |]. intros Hnot. contradiction.
        -- intros _ Hquiet. rewrite Hdb in *. cbn [Backend.st_db] in *.
           rewrite Hquiet.
           unfold Backend.find_medicine, Backend.record_order in *. cbn [Backend.medicines].
           rewrite (find_medicine_after_order S _ medicine _ _ Hm). reflexivity.
    + destruct (order_cases S payload st)
        as [(e' & -> & _) | [(reason & -> & _)
                            | (customer & medicine & Hc & Hm' & Hq & Hrun)]].
      * split; [reflexivity | discriminate].
      * split; [reflexivity |]. intros r H. injection H as <-. reflexivity.
      * congruence.
  - intros Hquiet.
    destruct (order_cases S payload st)
      as [(e' & _ & [Hq | [_ Hw]]) | [(reason & -> & _)
                                     | (customer & medicine & Hc & Hm' & Hq & ->)]].
    + exfalso. unfold Backend.query_fault in Hq. rewrite !Hquiet in Hq.
      destruct (Backend.find_customer _ _); discriminate.
    + exfalso. unfold Backend.write_fault in Hw. rewrite !Hquiet in Hw. discriminate.
    + eexists. reflexivity.
    + unfold Backend.answer_order, Backend.execute. rewrite Hquiet. eexists. reflexivity.
Qed.

(** SQLite refuses a customer id of 2 ^ 63: the order route raises and
    records nothing. *)
Example order_with_huge_customer_id :
  Backend.create_order pharmacy (Backend.MkOrderCreate (2 ^ 63) "paracetamol" 5)
    pharmacy_state
  = (inl (Exc OverflowError "Python int too large to convert to SQLite INTEGER"),
     pharmacy_state).
Proof. vm_compute. reflexivity. Qed.

Lemma stock_never_goes_negative_witness :
  Forall (fun m => 0 <= Backend.m_stock_quantity m)
    (Backend.medicines (Backend.st_db pharmacy_state))
  /\ Backend.create_order pharmacy paracetamol_order pharmacy_state
     = (inr (Backend.MkOrderResponse "approved" (Some 1) None),
        Backend.MkState
          (Backend.MkDatabase
             [Backend.MkCustomer 12 "Asha" (Some "asha@example.com")]
             [Backend.MkMedicine 1 "Paracetamol" 45 false;
              Backend.MkMedicine 2 "Amoxicillin" 20 true]
             [Backend.MkOrder 1 12 "approved" (Backend.MkDatetime 739000 0)]
             [Backend.MkOrderItem 1 1 5])
          []
          [Backend.WebhookSkipped 1;
           Backend.ConfirmationEmail "asha@example.com"
             (VDict [("customer_id", VInt 12); ("customer_email", VStr "asha@example.com");
                     ("medicine_name", VStr "Paracetamol"); ("quantity", VInt 5);
                     ("order_status", VStr "approved"); ("order_id", VInt 1)])])
  /\ Forall (fun m => 0 <= Backend.m_stock_quantity m)
       (Backend.medicines
          (Backend.st_db (snd (Backend.create_order pharmacy paracetamol_order pharmacy_state)))).
Proof.
  assert (H : Forall (fun m => 0 <= Backend.m_stock_quantity m)
                (Backend.medicines (Backend.st_db pharmacy_state))).
  { repeat constructor; simpl; lia. }
  split; [exact H |]. split; [vm_compute; reflexivity |].
  exact (stock_never_goes_negative pharmacy paracetamol_order pharmacy_state H).
Defined.

Lemma units_are_conserved_witness :
  NoDup (map Backend.m_id (Backend.medicines (Backend.st_db pharmacy_state)))
  /\ Backend.total_stock (Backend.st_db pharmacy_state) = 70
  /\ Backend.total_stock
       (Backend.st_db (snd (Backend.create_order pharmacy paracetamol_order pharmacy_state)))
     + Backend.total_sold
         (Backend.st_db (snd (Backend.create_order pharmacy paracetamol_order pharmacy_state)))
     = Backend.total_stock (Backend.st_db pharmacy_state)
       + Backend.total_sold (Backend.st_db pharmacy_state).
Proof.
  assert (H : NoDup (map Backend.m_id (Backend.medicines (Backend.st_db pharmacy_state)))).
  { simpl. repeat constructor; simpl; intuition lia. }
  split; [exact H |]. split; [reflexivity |].
  exact (units_are_conserved pharmacy paracetamol_order pharmacy_state H).
Defined.

(** ** The refill service *)

Lemma datetime_leb_total (a b : Backend.datetime) :
  Backend.datetime_leb a b = false -> Backend.datetime_leb b a = true.
Proof.
  unfold Backend.datetime_leb. intros H.
  apply orb_false_iff in H. destruct H as [Hlt Hrest].
  apply Z.ltb_ge in Hlt.
  destruct (Backend.dt_day b <? Backend.dt_day a) eqn:Hlt'; [reflexivity |].
  apply Z.ltb_ge in Hlt'.
  assert (Heq : Backend.dt_day a = Backend.dt_day b) by lia.
  rewrite Heq, Z.eqb_refl in *. simpl in *.
  apply Z.leb_gt in Hrest. apply Z.leb_le. lia.
Qed.

Lemma datetime_leb_trans (a b c : Backend.datetime) :
  Backend.datetime_leb a b = true -> Backend.datetime_leb b c = true ->
  Backend.datetime_leb a c = true.
Proof.
  unfold Backend.datetime_leb. intros Hab Hbc.
  apply orb_true_iff in Hab. apply orb_true_iff in Hbc. apply orb_true_iff.
  rewrite !andb_true_iff, !Z.ltb_lt, !Z.eqb_eq, !Z.leb_le in *. lia.
Qed.

Lemma datetime_leb_antisym (a b : Backend.datetime) :
  Backend.datetime_leb a b = true -> Backend.datetime_leb b a = true -> a = b.
Proof.
  unfold Backend.datetime_leb. intros Hab Hba.
  apply orb_true_iff in Hab. apply orb_true_iff in Hba.
  rewrite !andb_true_iff, !Z.ltb_lt, !Z.eqb_eq, !Z.leb_le in *.
  destruct a as [da ta], b as [db tb]. simpl in *.
  assert (da = db) by lia. assert (ta = tb) by lia. subst. reflexivity.
Qed.

Lemma datetime_leb_days (a b : Backend.datetime) :
  Backend.datetime_leb a b = true -> Backend.dt_day a <= Backend.dt_day b.
Proof.
  unfold Backend.datetime_leb. intros H. apply orb_true_iff in H.
  rewrite andb_true_iff, Z.ltb_lt, Z.eqb_eq in H. lia.
Qed.

Lemma insert_date_permutation (x : Backend.datetime) (l : list Backend.datetime) :
  Permutation (Backend.insert_date x l) (x :: l).
Proof.
  induction l as [| y l IH]; simpl; [apply Permutation_refl |].
  destruct (Backend.datetime_leb x y); [apply Permutation_refl |].
  eapply perm_trans; [apply perm_skip; exact IH | apply perm_swap].
Qed.

Lemma sorted_permutation (l : list Backend.datetime) : Permutation (Backend.sorted l) l.
Proof.
  induction l as [| x l IH]; simpl; [constructor |].
  eapply perm_trans; [apply insert_date_permutation | apply perm_skip; exact IH].
Qed.

Lemma insert_date_sorted (x : Backend.datetime) (l : list Backend.datetime) :
  StronglySorted (fun a b => Backend.datetime_leb a b = true) l ->
  StronglySorted (fun a b => Backend.datetime_leb a b = true) (Backend.insert_date x l).
Proof.
  induction 1 as [| y l Hsorted IH Hall]; simpl.
  - repeat constructor.
  - destruct (Backend.datetime_leb x y) eqn:Hxy.
    + constructor; [constructor; assumption |].
      constructor; [exact Hxy |].
      eapply Forall_impl; [| exact Hall].
      intros z Hyz. exact (datetime_leb_trans x y z Hxy Hyz).
    + constructor; [exact IH |].
      eapply Permutation_Forall; [symmetry; apply insert_date_permutation |].
      constructor; [apply datetime_leb_total; exact Hxy | exact Hall].
Qed.

Lemma sorted_is_sorted (l : list Backend.datetime) :
  StronglySorted (fun a b => Backend.datetime_leb a b = true) (Backend.sorted l).
Proof.
  induction l as [| x l IH]; simpl; [constructor | apply insert_date_sorted; exact IH].
Qed.

Lemma sorted_lists_agree (l1 l2 : list Backend.datetime) :
  StronglySorted (fun a b => Backend.datetime_leb a b = true) l1 ->
  StronglySorted (fun a b => Backend.datetime_leb a b = true) l2 ->
  Permutation l1 l2 -> l1 = l2.
Proof.
  intros H1. revert l2. induction H1 as [| x l1 Hs1 IH Hall1]; intros l2 H2 Hperm.
  - apply Permutation_nil in Hperm. symmetry. exact Hperm.
  - destruct H2 as [| y l2 Hs2 Hall2].
    + symmetry in Hperm. apply Permutation_nil in Hperm. discriminate.
    + assert (Hxy : x = y).
      { assert (Hx : In x (y :: l2)) by (eapply Permutation_in; [exact Hperm | left; reflexivity]).
        assert (Hy : In y (x :: l1)).
        { eapply Permutation_in; [symmetry; exact Hperm | left; reflexivity]. }
        destruct Hx as [Hx | Hx]; [symmetry; exact Hx |].
        destruct Hy as [Hy | Hy]; [exact Hy |].
        rewrite Forall_forall in Hall1, Hall2.
        apply datetime_leb_antisym; [apply Hall1; exact Hy | apply Hall2; exact Hx]. }
      subst y. f_equal. apply IH; [exact Hs2 |].
      eapply Permutation_cons_inv. exact Hperm.
Qed.

Lemma sorted_of_permutation (l1 l2 : list Backend.datetime) :
  Permutation l1 l2 -> Backend.sorted l1 = Backend.sorted l2.
Proof.
  intros Hperm. apply sorted_lists_agree; try apply sorted_is_sorted.
  eapply perm_trans; [apply sorted_permutation |].
  eapply perm_trans; [exact Hperm | symmetry; apply sorted_permutation].
Qed.

Lemma datetime_leb_refl (a : Backend.datetime) : Backend.datetime_leb a a = true.
Proof.
  unfold Backend.datetime_leb. rewrite Z.eqb_refl, Z.leb_refl. apply orb_true_r.
Qed.

Lemma last_default {A : Type} (l : list A) (d d' : A) : l <> [] -> last l d = last l d'.
Proof.
  induction l as [| x l IH]; intros Hne; [contradiction |].
  destruct l as [| y l]; [reflexivity |].
  change (last (x :: y :: l) d) with (last (y :: l) d).
  change (last (x :: y :: l) d') with (last (y :: l) d').
  apply IH. discriminate.
Qed.

Lemma last_of_sorted (l : list Backend.datetime) (d : Backend.datetime) :
  StronglySorted (fun a b => Backend.datetime_leb a b = true) l ->
  l <> [] ->
  In (last l d) l /\ Forall (fun x => Backend.datetime_leb x (last l d) = true) l.
Proof.
  induction 1 as [| x l Hsorted IH Hall]; intros Hne; [contradiction |].
  destruct l as [| y l].
  - simpl. split; [left; reflexivity |]. constructor; [apply datetime_leb_refl | constructor].
  - change (last (x :: y :: l) d) with (last (y :: l) d).
    destruct IH as [Hin Hmax]; [discriminate |].
    split; [right; exact Hin |].
    constructor; [| exact Hmax].
    rewrite Forall_forall in Hall. apply Hall. exact Hin.
Qed.

Lemma positive_deltas_positive (l : list Backend.datetime) :
  Forall (fun d => 1 <= d) (Backend.positive_deltas l).
Proof.
  induction l as [| a l IH]; [constructor |].
  destruct l as [| b l]; [constructor |].
  change (Backend.positive_deltas (a :: b :: l))
    with ((if 0 <? Backend.dt_day b - Backend.dt_day a
           then [Backend.dt_day b - Backend.dt_day a] else [])
          ++ Backend.positive_deltas (b :: l))%list.
  apply Forall_app. split; [| exact IH].
  destruct (0 <? Backend.dt_day b - Backend.dt_day a) eqn:Hpos; constructor.
  - apply Z.ltb_lt in Hpos. lia.
  - constructor.
Qed.

Lemma sum_at_least_length (l : list Z) :
  Forall (fun d => 1 <= d) l -> Z.of_nat (length l) <= fold_right Z.add 0 l.
Proof.
  induction 1 as [| d l Hd _ IH]; simpl length; simpl fold_right; lia.
Qed.

(** The positive differences of a sorted list add up to the days between
    its first and its last date. *)
Lemma positive_deltas_span (l : list Backend.datetime) (d : Backend.datetime) :
  StronglySorted (fun a b => Backend.datetime_leb a b = true) l ->
  fold_right Z.add 0 (Backend.positive_deltas l)
  = Backend.dt_day (last l d) - Backend.dt_day (hd (last l d) l).
Proof.
  induction 1 as [| a l Hsorted IH Hall].
  - simpl. lia.
  - destruct l as [| b l]; [simpl; lia |].
    change (Backend.positive_deltas (a :: b :: l))
      with ((if 0 <? Backend.dt_day b - Backend.dt_day a
             then [Backend.dt_day b - Backend.dt_day a] else [])
            ++ Backend.positive_deltas (b :: l))%list.
    change (last (a :: b :: l) d) with (last (b :: l) d).
    rewrite fold_right_app.
    assert (Hshift : forall xs acc, fold_right Z.add acc xs = fold_right Z.add 0 xs + acc).
    { induction xs as [| x xs IHxs]; intros acc; simpl; [lia | rewrite IHxs; lia]. }
    rewrite Hshift, IH. simpl hd.
    assert (Hab : Backend.dt_day a <= Backend.dt_day b).
    { apply datetime_leb_days. inversion Hall; assumption. }
    destruct (0 <? Backend.dt_day b - Backend.dt_day a) eqn:Hpos; simpl.
    + lia.
    + apply Z.ltb_ge in Hpos. lia.
Qed.

Lemma interval_days_bounds (l : list Backend.datetime) (d : Backend.datetime) :
  StronglySorted (fun a b => Backend.datetime_leb a b = true) l ->
  1 <= Backend.interval_days l
  /\ (Backend.dt_day (last l d) <> Backend.dt_day (hd (last l d) l) ->
      Backend.interval_days l
      <= Backend.dt_day (last l d) - Backend.dt_day (hd (last l d) l))
  /\ (Backend.dt_day (last l d) = Backend.dt_day (hd (last l d) l) ->
      Backend.interval_days l = 30).
Proof.
  intros Hsorted.
  pose proof (positive_deltas_positive l) as Hpos.
  pose proof (sum_at_least_length _ Hpos) as Hlen.
  pose proof (positive_deltas_span l d Hsorted) as Hspan.
  assert (Hgen : 1 <= match Backend.positive_deltas l with
                      | [] => 30
                      | _ :: _ =>
                          fold_right Z.add 0 (Backend.positive_deltas l)
                          / Z.of_nat (length (Backend.positive_deltas l))
                      end
                 /\ (Backend.dt_day (last l d) <> Backend.dt_day (hd (last l d) l) ->
                     match Backend.positive_deltas l with
                     | [] => 30
                     | _ :: _ =>
                         fold_right Z.add 0 (Backend.positive_deltas l)
                         / Z.of_nat (length (Backend.positive_deltas l))
                     end <= Backend.dt_day (last l d) - Backend.dt_day (hd (last l d) l))
                 /\ (Backend.dt_day (last l d) = Backend.dt_day (hd (last l d) l) ->
                     match Backend.positive_deltas l with
                     | [] => 30
                     | _ :: _ =>
                         fold_right Z.add 0 (Backend.positive_deltas l)
                         / Z.of_nat (length (Backend.positive_deltas l))
                     end = 30)).
  { destruct (Backend.positive_deltas l) as [| x xs] eqn:Hd.
    - split; [lia |]. split; [| reflexivity].
      intros Hdiff. exfalso. simpl in Hspan. lia.
    - set (n := Z.of_nat (length (x :: xs))) in *.
      set (s := fold_right Z.add 0 (x :: xs)) in *.
      assert (Hn : 0 < n) by (unfold n; simpl length; lia).
      split; [apply Z.div_le_lower_bound; lia |].
      split.
      + intros _. rewrite <- Hspan.
        apply Z.div_le_upper_bound; [lia |]. nia.
      + intros Hsame. exfalso. lia. }
  unfold Backend.interval_days.
  destruct l as [| a [| b l]]; try exact Hgen.
  destruct (Backend.positive_deltas (a :: b :: l)); exact Hgen.
Qed.

Lemma hd_of_sorted (l : list Backend.datetime) (d : Backend.datetime) :
  StronglySorted (fun a b => Backend.datetime_leb a b = true) l ->
  l <> [] ->
  In (hd d l) l /\ Forall (fun x => Backend.datetime_leb (hd d l) x = true) l.
Proof.
  intros Hsorted Hne. destruct Hsorted as [| x l Hs Hall]; [contradiction |].
  simpl. split; [left; reflexivity |].
  constructor; [apply datetime_leb_refl | exact Hall].
Qed.

Lemma sorted_nonempty (x : Backend.datetime) (l : list Backend.datetime) :
  Backend.sorted (x :: l) <> [].
Proof.
  intros H. pose proof (sorted_permutation (x :: l)) as Hperm. rewrite H in Hperm.
  apply Permutation_nil in Hperm. discriminate.
Qed.

(** X22: an alert of [_compute_alerts_for_medicine] is for a refill that
    is overdue by at least one day: its due date is the day of the latest
    purchase plus an interval of at least one day, which is 30 days when all
    purchases fall on one day and otherwise at most the days between the
    earliest and the latest purchase, and today lies after it.  The alert
    carries the name given and the latest purchase. *)
Theorem refill_alert_is_overdue (C : Backend.calendar) (dates : list Backend.datetime)
    (medicine_name : string) (a : Backend.Alert) :
  Backend._compute_alerts_for_medicine C dates medicine_name = inr (Some a) ->
  exists first_purchase last_purchase interval,
    In first_purchase dates
    /\ In last_purchase dates
    /\ Forall (fun d => Backend.datetime_leb first_purchase d = true
                        /\ Backend.datetime_leb d last_purchase = true) dates
    /\ 1 <= interval
    /\ (Backend.dt_day last_purchase = Backend.dt_day first_purchase -> interval = 30)
    /\ (Backend.dt_day last_purchase <> Backend.dt_day first_purchase ->
        interval <= Backend.dt_day last_purchase - Backend.dt_day first_purchase)
    /\ Backend.dt_day last_purchase + interval < Backend.today C
    /\ a = Backend.MkAlert medicine_name (Backend.datetime_isoformat C last_purchase)
             (Backend.date_isoformat C (Backend.dt_day last_purchase + interval))
             (Backend.today C - (Backend.dt_day last_purchase + interval))
    /\ 1 <= Backend.a_days_overdue a.
Proof.
  unfold Backend._compute_alerts_for_medicine.
  destruct dates as [| d0 rest]; [discriminate |].
  set (s := Backend.sorted (d0 :: rest)).
  pose proof (sorted_is_sorted (d0 :: rest)) as Hsorted. fold s in Hsorted.
  pose proof (sorted_permutation (d0 :: rest)) as Hperm. fold s in Hperm.
  pose proof (sorted_nonempty d0 rest) as Hne. fold s in Hne.
  destruct (last_of_sorted s d0 Hsorted Hne) as [Hlast Hmax].
  destruct (hd_of_sorted s (last s d0) Hsorted Hne) as [Hfirst Hmin].
  destruct (interval_days_bounds s d0 Hsorted) as (Hone & Hspan & Hsame).
  destruct (Backend.date_max <? Backend.dt_day (last s d0) + Backend.interval_days s);
    [discriminate |].
  destruct (Backend.today C <=? Backend.dt_day (last s d0) + Backend.interval_days s)
    eqn:Hdue; [discriminate |].
  apply Z.leb_gt in Hdue.
  intros H. injection H as <-.
  exists (hd (last s d0) s), (last s d0), (Backend.interval_days s).
  split; [eapply Permutation_in; [exact Hperm | exact Hfirst] |].
  split; [eapply Permutation_in; [exact Hperm | exact Hlast] |].
  split.
  { eapply Permutation_Forall; [exact Hperm |].
    rewrite Forall_forall in *. intros d Hd. split; [apply Hmin | apply Hmax]; exact Hd. }
  split; [exact Hone |]. split; [exact Hsame |]. split; [exact Hspan |].
  split; [lia |]. split; [reflexivity |]. simpl. lia.
Qed.

(** X23: [_compute_alerts_for_medicine] does not depend on the order in
    which the purchases are given, although its docstring asks for a sorted
    list: it sorts them itself. *)
Theorem refill_alert_ignores_order (C : Backend.calendar)
    (dates dates' : list Backend.datetime) (medicine_name : string) :
  Permutation dates dates' ->
  Backend._compute_alerts_for_medicine C dates medicine_name
  = Backend._compute_alerts_for_medicine C dates' medicine_name.
Proof.
  intros Hperm. unfold Backend._compute_alerts_for_medicine.
  destruct dates as [| d0 rest]; destruct dates' as [| d0' rest'].
  - reflexivity.
  - apply Permutation_nil in Hperm. discriminate.
  - symmetry in Hperm. apply Permutation_nil in Hperm. discriminate.
  - rewrite (sorted_of_permutation _ _ Hperm).
    rewrite (last_default (Backend.sorted (d0' :: rest')) d0 d0' (sorted_nonempty d0' rest')).
    reflexivity.
Qed.

Lemma computed_alert_overdue (C : Backend.calendar) (dates : list Backend.datetime)
    (medicine_name : string) (a : Backend.Alert) :
  Backend._compute_alerts_for_medicine C dates medicine_name = inr (Some a) ->
  Backend.a_medicine_name a = medicine_name /\ 1 <= Backend.a_days_overdue a.
Proof.
  unfold Backend._compute_alerts_for_medicine.
  destruct dates as [| d0 rest]; [discriminate |].
  set (s := Backend.sorted (d0 :: rest)).
  destruct (Backend.date_max <? _); [discriminate |].
  destruct (Backend.today C <=? _) eqn:Hdue; [discriminate |].
  apply Z.leb_gt in Hdue. intros H. injection H as <-.
  cbn [Backend.a_days_overdue Backend.a_medicine_name]. split; [reflexivity | lia].
Qed.

Lemma insert_alert_permutation (a : Backend.Alert) (l : list Backend.Alert) :
  Permutation (Backend.insert_alert a l) (a :: l).
Proof.
  induction l as [| b l IH]; simpl; [apply Permutation_refl |].
  destruct (Backend.a_days_overdue a <? Backend.a_days_overdue b); [| apply Permutation_refl].
  eapply perm_trans; [apply perm_skip; exact IH | apply perm_swap].
Qed.

Lemma sort_alerts_permutation (l : list Backend.Alert) : Permutation (Backend.sort_alerts l) l.
Proof.
  induction l as [| a l IH]; simpl; [constructor |].
  eapply perm_trans; [apply insert_alert_permutation | apply perm_skip; exact IH].
Qed.

Lemma insert_alert_sorted (a : Backend.Alert) (l : list Backend.Alert) :
  StronglySorted (fun x y => Backend.a_days_overdue y <= Backend.a_days_overdue x) l ->
  StronglySorted (fun x y => Backend.a_days_overdue y <= Backend.a_days_overdue x)
    (Backend.insert_alert a l).
Proof.
  induction 1 as [| b l Hsorted IH Hall]; simpl.
  - repeat constructor.
  - destruct (Backend.a_days_overdue a <? Backend.a_days_overdue b) eqn:Hab.
    + apply Z.ltb_lt in Hab. constructor; [exact IH |].
      eapply Permutation_Forall; [symmetry; apply insert_alert_permutation |].
      constructor; [lia | exact Hall].
    + apply Z.ltb_ge in Hab. constructor; [constructor; assumption |].
      constructor; [exact Hab |].
      eapply Forall_impl; [| exact Hall]. simpl. intros c Hc. lia.
Qed.

Lemma sort_alerts_sorted (l : list Backend.Alert) :
  StronglySorted (fun x y => Backend.a_days_overdue y <= Backend.a_days_overdue x)
    (Backend.sort_alerts l).
Proof.
  induction l as [| a l IH]; simpl; [constructor | apply insert_alert_sorted; exact IH].
Qed.

Lemma collect_alerts_shape (C : Backend.calendar) :
  forall (purchases : list (Z * (string * list Backend.datetime))) (alerts : list Backend.Alert),
    Backend.collect_alerts C purchases = inr alerts ->
    (length alerts <= length purchases)%nat
    /\ Forall (fun a => 1 <= Backend.a_days_overdue a
                        /\ In (Backend.a_medicine_name a) (map (fun p => fst (snd p)) purchases))
         alerts.
Proof.
  induction purchases as [| [k [name dates]] rest IH]; intros alerts H; simpl in H.
  - injection H as <-. split; [simpl; lia | constructor].
  - destruct (Backend._compute_alerts_for_medicine C dates name) as [e | alert] eqn:Hone;
      [discriminate |].
    destruct (Backend.collect_alerts C rest) as [e | others]; [discriminate |].
    destruct (IH others eq_refl) as [Hlen Hall].
    assert (Hrest : Forall (fun a => 1 <= Backend.a_days_overdue a
                                     /\ In (Backend.a_medicine_name a)
                                          (map (fun p => fst (snd p))
                                             ((k, (name, dates)) :: rest))) others).
    { eapply Forall_impl; [| exact Hall]. simpl. intros a [H1 H2]. split; [exact H1 | right; exact H2]. }
    injection H as <-. destruct alert as [a |].
    + split; [simpl; lia |]. constructor; [| exact Hrest].
      destruct (computed_alert_overdue C dates name a Hone) as [-> Hdays].
      split; [exact Hdays | left; reflexivity].
    + split; [simpl; lia | exact Hrest].
Qed.

Lemma record_purchase_shape (med_id : Z) (med_name : string)
    (created_at : option Backend.datetime) :
  forall purchases : list (Z * (string * list Backend.datetime)),
    (length (Backend.record_purchase med_id med_name created_at purchases)
     <= S (length purchases))%nat
    /\ forall name,
         In name (map (fun p => fst (snd p))
                    (Backend.record_purchase med_id med_name created_at purchases)) ->
         name = med_name \/ In name (map (fun p => fst (snd p)) purchases).
Proof.
  induction purchases as [| [k [name dates]] rest [IHlen IHnames]]; simpl.
  - split; [lia |]. intros name [H | []]. left. symmetry. exact H.
  - destruct (k =? med_id); simpl.
    + split; [lia |]. intros n H. right. exact H.
    + split; [lia |]. intros n [H | H]; [right; left; exact H |].
      destruct (IHnames n H) as [Hn | Hn]; [left; exact Hn | right; right; exact Hn].
Qed.

Lemma group_purchases_shape (rows : list Backend.purchase_row) :
  (length (Backend.group_purchases rows) <= length rows)%nat
  /\ forall name,
       In name (map (fun p => fst (snd p)) (Backend.group_purchases rows)) ->
       In name (map (fun row => snd (fst row)) rows).
Proof.
  unfold Backend.group_purchases.
  assert (Hgen : forall rows acc,
             (length (fold_left
                        (fun purchases row =>
                           match row with
                           | (med_id, med_name, created_at) =>
                               Backend.record_purchase med_id med_name created_at purchases
                           end) rows acc)
              <= length acc + length rows)%nat
             /\ forall name,
                  In name (map (fun p => fst (snd p))
                             (fold_left
                                (fun purchases (row : Backend.purchase_row) =>
                                   match row with
                                   | (med_id, med_name, created_at) =>
                                       Backend.record_purchase med_id med_name created_at
                                         purchases
                                   end) rows acc)) ->
                  In name (map (fun p => fst (snd p)) acc)
                  \/ In name (map (fun row : Backend.purchase_row => snd (fst row)) rows)).
  { clear rows. induction rows as [| [[med_id med_name] created_at] rows IH]; intros acc.
    - simpl. split; [lia |]. intros name H. left. exact H.
    - simpl fold_left.
      destruct (IH (Backend.record_purchase med_id med_name created_at acc)) as [Hlen Hnames].
      destruct (record_purchase_shape med_id med_name created_at acc) as [Hlen1 Hnames1].
      split; [simpl length; lia |].
      intros name H. destruct (Hnames name H) as [Hacc | Hrows].
      + destruct (Hnames1 name Hacc) as [-> | Hold];
          [right; left; reflexivity | left; exact Hold].
      + right. right. exact Hrows. }
  destruct (Hgen rows []) as [Hlen Hnames]. split; [exact Hlen |].
  intros name H. destruct (Hnames name H) as [[] | Hrows]. exact Hrows.
Qed.

(** X24: [get_refill_alerts_for_customer] returns its alerts most
    overdue first, each overdue by at least one day and each for a medicine
    of the customer's purchases, at most one per purchase row; it returns
    the empty list when the query fails. *)
Theorem refill_alerts_are_sorted (C : Backend.calendar)
    (query : exc + list Backend.purchase_row) :
  StronglySorted (fun a b => Backend.a_days_overdue b <= Backend.a_days_overdue a)
    (Backend.get_refill_alerts_for_customer C query)
  /\ Forall (fun a => 1 <= Backend.a_days_overdue a)
       (Backend.get_refill_alerts_for_customer C query)
  /\ (forall rows,
        query = inr rows ->
        (length (Backend.get_refill_alerts_for_customer C query) <= length rows)%nat
        /\ Forall (fun a => In (Backend.a_medicine_name a) (map (fun row => snd (fst row)) rows))
             (Backend.get_refill_alerts_for_customer C query))
  /\ (forall e, query = inl e -> Backend.get_refill_alerts_for_customer C query = []).
Proof.
  unfold Backend.get_refill_alerts_for_customer.
  destruct query as [e | rows].
  { split; [constructor |]. split; [constructor |].
    split; [discriminate | reflexivity]. }
  destruct rows as [| row rows].
  { split; [constructor |]. split; [constructor |].
    split; [| discriminate]. intros rows H. split; [simpl; lia | constructor]. }
  set (all := row :: rows).
  destruct (Backend.collect_alerts C (Backend.group_purchases all)) as [e | alerts] eqn:Hcollect.
  { split; [constructor |]. split; [constructor |].
    split; [| discriminate]. intros rows' H. split; [simpl; lia | constructor]. }
  destruct (collect_alerts_shape C _ _ Hcollect) as [Hlen Hall].
  destruct (group_purchases_shape all) as [Hglen Hgnames].
  pose proof (sort_alerts_permutation alerts) as Hperm.
  split; [apply sort_alerts_sorted |].
  split.
  { eapply Permutation_Forall; [symmetry; exact Hperm |].
    eapply Forall_impl; [| exact Hall]. simpl. intros a [H _]. exact H. }
  split; [| discriminate].
  intros rows' H. injection H as <-.
  split.
  - rewrite (Permutation_length Hperm). lia.
  - eapply Permutation_Forall; [symmetry; exact Hperm |].
    eapply Forall_impl; [| exact Hall]. simpl. intros a [_ H]. apply Hgnames. exact H.
Qed.

Lemma refill_alert_is_overdue_witness :
  Backend._compute_alerts_for_medicine ordinal_calendar three_purchases "Paracetamol"
  = inr (Some (Backend.MkAlert "Paracetamol" "739030" "739045" 55))
  /\ 1 <= Backend.a_days_overdue (Backend.MkAlert "Paracetamol" "739030" "739045" 55).
Proof.
  assert (H : Backend._compute_alerts_for_medicine ordinal_calendar three_purchases
                "Paracetamol"
              = inr (Some (Backend.MkAlert "Paracetamol" "739030" "739045" 55))).
  { vm_compute. reflexivity. }
  split; [exact H |].
  destruct (refill_alert_is_overdue ordinal_calendar three_purchases "Paracetamol" _ H)
    as (first_purchase & last_purchase & interval & _ & _ & _ & _ & _ & _ & _ & _ & Hdays).
  exact Hdays.
Defined.

Lemma refill_alert_ignores_order_witness :
  Permutation three_purchases (rev three_purchases)
  /\ Backend._compute_alerts_for_medicine ordinal_calendar three_purchases "Paracetamol"
     = Backend._compute_alerts_for_medicine ordinal_calendar (rev three_purchases)
         "Paracetamol".
Proof.
  assert (H : Permutation three_purchases (rev three_purchases)) by apply Permutation_rev.
  split; [exact H |].
  exact (refill_alert_ignores_order ordinal_calendar three_purchases (rev three_purchases)
           "Paracetamol" H).
Defined.
